(** * GridTransformer: nearest-neighbour transfer of node values between grids

    A shallow embedding of [utils/grid_transformer.py] (class
    [GridTransformer]) together with the properties stated about it.

    Conventions of the embedding.
    - Python floats are idealised as rationals kept in reduced form
      ([Qred]); the two special floats the code relies on are explicit:
      [numpy.inf] as a distance ([DInf]) and [numpy.nan] as a value
      ([VNaN]).  [numpy.float32] conversions are the identity here.  What
      depends on the rounding of the arithmetic of [transition] is studied
      on IEEE 754 binary64 numbers, in module [Binary64].
    - [scipy.spatial.KDTree] is an exhaustive search over the data rows:
      a distance is exact when the squared distance is the square of a
      rational and rounded down otherwise ([Qsqrt]), and rows at equal
      distance come in ascending row order, where the order scipy returns
      follows its internal heap.
    - Python dictionaries that the code iterates over are association lists
      in insertion order ([dict]); [self.grids], the object store and the
      per-node value maps are never iterated and are stdpp [gmap]s.
    - [Grid] objects are shared by reference: the registry stores a
      location and the store ([heap]) holds the object, so that two names
      bound to one object alias.
    - Methods run in a state-and-exception monad [M]; an exception leaves
      the state as it was when it was raised.
    - Arguments carry their documented Python types, so the [isinstance]
      guards on strings and numbers are not represented, except in
      [transformation_validation] where they are the only statements
      outside the [try] block; [isinstance(grid, Grid)] is the test that a
      reference denotes an object of the store. *)

From Stdlib Require Import ZArith QArith Lqa Lia List String.
From Stdlib Require PrimFloat.
From stdpp Require Import gmap strings list fin_maps.

Import ListNotations.
Local Open Scope string_scope.
Local Open Scope list_scope.
Local Open Scope Z_scope.

(** ** Numbers *)

(** A distance as [scipy] reports it: a float, or [inf] where fewer than
    [k] neighbours exist within the search bound. *)
Inductive distance : Type :=
| DFin (d : Q)
| DInf.

(** A node value: a float, [numpy.nan], or Python's [None]. *)
Inductive value : Type :=
| VNum (x : Q)
| VNaN
| VNone.

(** [a > b] on distances. *)
Definition dist_gtb (a b : distance) : bool :=
  match a, b with
  | DInf, DInf => false
  | DInf, DFin _ => true
  | DFin _, DInf => false
  | DFin x, DFin y => negb (Qle_bool x y)
  end.

(** [a != numpy.inf] *)
Definition dist_is_finite (a : distance) : bool :=
  match a with DFin _ => true | DInf => false end.

(** [a == 0] *)
Definition dist_is_zero (a : distance) : bool :=
  match a with DFin x => Qeq_bool x 0 | DInf => false end.

(** [1 / a] for [a] different from zero; [1 / inf] is [0.0]. *)
Definition dist_recip (a : distance) : Q :=
  match a with DFin x => (1 / x)%Q | DInf => 0%Q end.

(** ** Python containers *)

(** [l[i]] on a Python list: negative indices count from the end. *)
Definition py_index {A : Type} (l : list A) (i : Z) : option A :=
  if 0 <=? i then nth_error l (Z.to_nat i)
  else if - Z.of_nat (length l) <=? i
       then nth_error l (Z.to_nat (Z.of_nat (length l) + i))
       else None.

Section Dict.
Context {K V : Type} `{EqDecision K}.

(** An insertion-ordered dictionary. *)
Definition dict : Type := list (K * V).

Fixpoint dict_get (d : dict) (k : K) : option V :=
  match d with
  | [] => None
  | (k', v) :: d' => if decide (k' = k) then Some v else dict_get d' k
  end.

(** [d[k] = v]: an existing key keeps its position, a new key goes last. *)
Fixpoint dict_set (d : dict) (k : K) (v : V) : dict :=
  match d with
  | [] => [(k, v)]
  | (k', v') :: d' =>
      if decide (k' = k) then (k', v) :: d' else (k', v') :: dict_set d' k v
  end.

Definition dict_keys (d : dict) : list K := map fst d.
Definition dict_values (d : dict) : list V := map snd d.
End Dict.

Arguments dict : clear implicits.

(** ** Grids *)

Definition node_id : Type := Z.

Record point : Type := Point { px : Q; py : Q; pz : Q }.

(** Modelled from the spec: the [Node] class of [utils/grid.py], a 3D
    coordinate and a mapping from field name to value in which a field that
    was never assigned is absent. *)
Record Node : Type := mkNode {
  coordinate : point;
  values : gmap string value
}.

(** Modelled from the spec: the [Grid] class of [utils/grid.py], an ordered
    collection of nodes with unique identifiers ([Grid.nodes] is a Python
    dictionary keyed by node identifier). *)
Record Grid : Type := mkGrid {
  nodes : dict node_id Node
}.

(** Modelled from the spec: [Node.set_value] assigns or overwrites one
    field of a node, without validation. *)
Definition set_value (n : Node) (value_name : string) (v : value) : Node :=
  {| coordinate := coordinate n;
     values := <[value_name := v]> (values n) |}.

(** Modelled from the spec: [Grid.get_coordinates_array] is the sequence of
    the nodes' coordinates in the iteration order of [Grid.nodes], so that
    row [i] belongs to the [i]-th node identifier. *)
Definition get_coordinates_array (g : Grid) : list point :=
  map (fun kv => coordinate (snd kv)) (nodes g).

(** Modelled from the spec: [Grid.get_node_values] is a fresh mapping from
    node identifier to the value of the field, over the nodes on which the
    field was assigned; it is empty (falsy) for an unknown field. *)
Fixpoint node_values_of (ns : dict node_id Node) (value_name : string)
  : dict node_id value :=
  match ns with
  | [] => []
  | (i, n) :: ns' =>
      match values n !! value_name with
      | Some v => (i, v) :: node_values_of ns' value_name
      | None => node_values_of ns' value_name
      end
  end.

Definition get_node_values (g : Grid) (value_name : string)
  : dict node_id value :=
  node_values_of (nodes g) value_name.

(** Modelled from the spec: the nodes that [check_value_set_completeness]
    reports, those on which the field was never assigned. *)
Definition unset_nodes (g : Grid) (value_name : string) : list node_id :=
  dict_keys (List.filter (fun kv => bool_decide (values (snd kv) !! value_name = None))
                         (nodes g)).

(** ** Correspondence tables *)

(** One record [{'node_number': ..., 'distance': ...}]. *)
Record neighbor : Type := mkNeighbor {
  node_number : node_id;
  neighbor_distance : distance
}.

(** [transform_dict]: per target node, [None] or a list of records. *)
Definition table : Type := dict node_id (option (list neighbor)).

(** ** Exceptions and log records *)

Inductive axis : Type := AxisX | AxisY | AxisZ.

Inductive exn : Type :=
| TypeError (parameter : string)
| KeyError_grid_exists (grid_name : string)
| KeyError_grid_unknown (grid_name : string)
| KeyError_key (key : string)
| KeyError_node (node : node_id)
| KeyError_value_name (value_name : string)
| KeyError_no_transformation (src target : string)
| ValueError_not_overlapping (a : axis)
| ValueError_empty_reduction
| ValueError_shape
| IndexError
| IncompleteAssignment (value_name : string) (missing : list node_id)
| ExternalError (what : string).

Inductive level : Type := DEBUG | INFO | WARNING | ERROR | CRITICAL.

#[global] Instance level_eq_dec : EqDecision level.
Proof. solve_decision. Defined.

Inductive message : Type :=
| MsgGridAdded (grid_name : string)
| MsgGridDeleted (grid_name : string)
| MsgStart (grid_name_1 grid_name_2 : string) (k : positive) (distance_max : distance)
| MsgDimensions (grid_name : string)
| MsgRange (a : axis) (lo hi : Q)
| MsgNotOverlapping (a : axis)
| MsgKDTree
| MsgQueryAll
| MsgQueryChunk (i splits : nat)
| MsgCheckResults
| MsgNoNeighbor (node : node_id) (grid_name_2 : string)
| MsgLonelyNodes (count : nat) (grid_name_1 grid_name_2 : string)
                 (distance_max : distance)
| MsgNeighborsFound (grid_name_1 grid_name_2 : string)
| MsgTransition (value_name src target : string)
| MsgStatFor (grid_name : string)
| MsgStatNodes (n : nat)
| MsgStatNeighborhood (grid_name : string)
| MsgStatTotal (n : nat)
| MsgStatMean (population : list distance)
| MsgStatStd (population : list distance)
| MsgStatMin (d : distance)
| MsgStatMax (d : distance)
| MsgStatLonely (count : nat)
| MsgStatEnd
| MsgReport (line : string)
| MsgAborted (err : exn).

Definition log_record : Type := (level * message)%type.

(** ** The transformer and the object store *)

Definition loc : Type := nat.

(** [self.grids[name]]: the dictionary with keys ['transform'] and
    ['grid']. *)
Record entry : Type := mkEntry {
  transform : dict string table;
  grid : loc
}.

Record State : Type := mkState {
  heap : gmap loc Grid;
  grids : gmap string entry;
  log : list log_record
}.

Definition set_heap (h : gmap loc Grid) (st : State) : State :=
  {| heap := h; grids := grids st; log := log st |}.

Definition set_grids (gs : gmap string entry) (st : State) : State :=
  {| heap := heap st; grids := gs; log := log st |}.

(** ** The state-and-exception monad *)

Inductive outcome (A : Type) : Type :=
| Return (a : A)
| Raise (e : exn).

Arguments Return {A} a.
Arguments Raise {A} e.

Definition M (A : Type) : Type := State -> State * outcome A.

Definition ret {A : Type} (a : A) : M A := fun st => (st, Return a).

Definition raise {A : Type} (e : exn) : M A := fun st => (st, Raise e).

Definition bind {A B : Type} (m : M A) (k : A -> M B) : M B :=
  fun st =>
    match m st with
    | (st', Return a) => k a st'
    | (st', Raise e) => (st', Raise e)
    end.

Notation "x <- m ;; k" := (bind m (fun x => k))
  (at level 100, m at next level, right associativity).
Notation "m ;;; k" := (bind m (fun _ => k))
  (at level 100, right associativity).

(** [try: body except Exception as err: handler(err)] *)
Definition try_except {A : Type} (body : M A) (handler : exn -> M A) : M A :=
  fun st =>
    match body st with
    | (st', Return a) => (st', Return a)
    | (st', Raise e) => handler e st'
    end.

Definition get_state : M State := fun st => (st, Return st).

Definition log_at (l : level) (m : message) : M unit :=
  fun st => ({| heap := heap st; grids := grids st; log := log st ++ [(l, m)] |},
             Return tt).

(** Lift a pure partial result, raising [e] where it is undefined. *)
Definition or_raise {A : Type} (o : option A) (e : exn) : M A :=
  match o with Some a => ret a | None => raise e end.

Definition of_outcome {A : Type} (o : outcome A) : M A := fun st => (st, o).

(** [for x in xs: body x] *)
Fixpoint for_each {A : Type} (xs : list A) (body : A -> M unit) : M unit :=
  match xs with
  | [] => ret tt
  | x :: xs' => body x ;;; for_each xs' body
  end.

Definition modify_grids (f : gmap string entry -> gmap string entry) : M unit :=
  fun st => (set_grids (f (grids st)) st, Return tt).

Definition modify_heap (f : gmap loc Grid -> gmap loc Grid) : M unit :=
  fun st => (set_heap (f (heap st)) st, Return tt).

(** [self.grids[name]], raising [e] for a missing key. *)
Definition lookup_grid (grid_name : string) (e : exn) : M entry :=
  st <- get_state;; or_raise (grids st !! grid_name) e.

(** The [Grid] object behind a reference. *)
Definition deref (l : loc) : M Grid :=
  st <- get_state;; or_raise (heap st !! l) (TypeError "grid").

(** ** Registration *)

(** [GridTransformer.add_grid] *)
Definition add_grid (g : loc) (grid_name : string) : M bool :=
  deref g;;;
  st <- get_state;;
  if bool_decide (is_Some (grids st !! grid_name))
  then raise (KeyError_grid_exists grid_name)
  else
    modify_grids (fun gs => <[grid_name := {| transform := []; grid := g |}]> gs);;;
    log_at DEBUG (MsgGridAdded grid_name);;;
    ret true.

(** [GridTransformer.update_grid] *)
Definition update_grid (g : loc) (grid_name : string) : M bool :=
  deref g;;;
  st <- get_state;;
  if negb (bool_decide (is_Some (grids st !! grid_name)))
  then raise (KeyError_grid_unknown grid_name)
  else
    (* del self.grids['grid_name'] *)
    (if bool_decide (is_Some (grids st !! "grid_name"))
     then modify_grids (fun gs => delete "grid_name" gs)
     else raise (KeyError_key "grid_name"));;;
    log_at DEBUG (MsgGridDeleted grid_name);;;
    add_grid g grid_name;;;
    ret true.

(** ** numpy and scipy *)

Definition Qminb (a b : Q) : Q := if Qle_bool a b then a else b.
Definition Qmaxb (a b : Q) : Q := if Qle_bool a b then b else a.

(** [numpy.amin(a, axis=0)] and [numpy.amax(a, axis=0)] on an array of
    3D points; an empty array has no minimum and numpy raises. *)
Definition amin (a : list point) : option point :=
  match a with
  | [] => None
  | p :: ps =>
      Some (fold_left (fun m q => Point (Qminb (px m) (px q)) (Qminb (py m) (py q))
                                        (Qminb (pz m) (pz q))) ps p)
  end.

Definition amax (a : list point) : option point :=
  match a with
  | [] => None
  | p :: ps =>
      Some (fold_left (fun m q => Point (Qmaxb (px m) (px q)) (Qmaxb (py m) (py q))
                                        (Qmaxb (pz m) (pz q))) ps p)
  end.

(** A numpy array of rank one or two. *)
Inductive ndarray (A : Type) : Type :=
| Arr1 (cells : list A)
| Arr2 (rows : list (list A)).

Arguments Arr1 {A} cells.
Arguments Arr2 {A} rows.

(** [len(a)] *)
Definition np_len {A : Type} (a : ndarray A) : nat :=
  match a with Arr1 l => length l | Arr2 r => length r end.

(** [numpy.concatenate((a, b), axis=0)]: the ranks must agree. *)
Definition np_concatenate {A : Type} (a b : ndarray A) : outcome (ndarray A) :=
  match a, b with
  | Arr1 x, Arr1 y => Return (Arr1 (x ++ y))
  | Arr2 x, Arr2 y => Return (Arr2 (x ++ y))
  | _, _ => Raise ValueError_shape
  end.

(** Cut [l] into consecutive pieces of the given sizes. *)
Fixpoint split_sizes {A : Type} (l : list A) (sizes : list nat) : list (list A) :=
  match sizes with
  | [] => []
  | n :: sizes' => firstn n l :: split_sizes (skipn n l) sizes'
  end.

(** [numpy.array_split(a, sections)]: [len(a) mod sections] pieces of size
    [len(a) / sections + 1] followed by pieces of size [len(a) / sections];
    numpy raises for [sections = 0]. *)
Definition array_split {A : Type} (a : list A) (sections : nat)
  : outcome (list (list A)) :=
  match sections with
  | O => Raise ValueError_shape
  | _ =>
      let each := Nat.div (length a) sections in
      let extras := Nat.modulo (length a) sections in
      Return (split_sizes a (repeat (S each) extras ++ repeat each (sections - extras)))
  end.

Definition sq_dist (p q : point) : Q :=
  Qred ((px p - px q) * (px p - px q) + (py p - py q) * (py p - py q)
        + (pz p - pz q) * (pz p - pz q)).

(** The square root as a rational: exact on the square of a rational,
    otherwise a lower approximation. *)
Definition Qsqrt (q : Q) : Q :=
  Qred (Z.sqrt (Qnum q * Zpos (Qden q)) # Qden q).

(** Stable insertion by ascending squared distance, so that equal
    distances keep ascending row order. *)
Fixpoint insert_by_dist (c : Q * Z) (l : list (Q * Z)) : list (Q * Z) :=
  match l with
  | [] => [c]
  | c' :: l' =>
      if Qle_bool (fst c') (fst c) then c' :: insert_by_dist c l' else c :: l
  end.

Definition sort_by_dist (l : list (Q * Z)) : list (Q * Z) :=
  fold_right insert_by_dist [] (rev l).

(** [d < distance_upper_bound], decided on the squares. *)
Definition within_bound (sqd : Q) (bound : distance) : bool :=
  match bound with
  | DInf => true
  | DFin b => Qle_bool 0 b && negb (Qle_bool (b * b) sqd)
  end.

(** [scipy.spatial.KDTree(data)]: the index is determined by its data. *)
Record KDTree : Type := mkKDTree { data : list point }.

(** One row of [KDTree.query]: the [k] nearest data rows within the bound
    as (distance, row index), nearest first; missing neighbours are
    reported as distance [inf] and index [len(data)]. *)
Definition query_point (tree : KDTree) (k : positive) (bound : distance)
           (x : point) : list (distance * Z) :=
  let n := length (data tree) in
  let candidates :=
    combine (map (sq_dist x) (data tree)) (map Z.of_nat (seq 0 n)) in
  let hits :=
    firstn (Pos.to_nat k)
           (List.filter (fun c => within_bound (fst c) bound)
                        (sort_by_dist candidates)) in
  map (fun c => (DFin (Qsqrt (fst c)), snd c)) hits
  ++ repeat (DInf, Z.of_nat n) (Pos.to_nat k - length hits).

(** [KDTree.query(x=x, k=k, distance_upper_bound=bound)] on a batch of points: the
    distances and the row indices, which always have the same shape, are
    kept cell by cell as pairs.  For [k = 1] scipy drops the last axis. *)
Definition query (tree : KDTree) (x : list point) (k : positive)
           (bound : distance) : ndarray (distance * Z) :=
  if (k =? 1)%positive
  then Arr1 (map (fun p => hd (DInf, Z.of_nat (length (data tree)))
                              (query_point tree k bound p)) x)
  else Arr2 (map (query_point tree k bound) x).

(** ** Building the correspondence table *)

(** The interpreter's [sys.maxsize]; the value of a 64-bit build. *)
Definition sys_maxsize : Z := 2 ^ 63 - 1.

(** [sys.maxsize > 2 ** 32 and 1 == 2] *)
Definition single_shot_gate (maxsize : Z) : bool :=
  (2 ^ 32 <? maxsize) && (1 =? 2).

(** The loop over [coordinates_split]; [i] counts the chunks seen and [acc]
    is the pair [dist]/[points] so far (initially the empty list). *)
Fixpoint query_chunks (tree : KDTree) (k : positive) (bound : distance)
         (splits : nat) (chunks : list (list point)) (i : nat)
         (acc : ndarray (distance * Z)) : M (ndarray (distance * Z)) :=
  match chunks with
  | [] => ret acc
  | arr :: rest =>
      let i := S i in
      log_at DEBUG (MsgQueryChunk i splits);;;
      let tmp := query tree arr k bound in
      acc' <- (if (i =? 1)%nat then ret tmp
               else of_outcome (np_concatenate acc tmp));;
      query_chunks tree k bound splits rest i acc'
  end.

(** The chunked branch with [splits] chunks. *)
Definition query_split (splits : nat) (tree : KDTree) (x : list point)
           (k : positive) (bound : distance) : M (ndarray (distance * Z)) :=
  coordinates_split <- of_outcome (array_split x splits);;
  query_chunks tree k bound splits coordinates_split 0 (Arr1 []).

(** [KDTree.query(x, k, eps)]: an approximate search without upper bound,
    in which the [k]-th distance returned may exceed the true one by the
    factor [1 + eps].  The answer given here is that of the exhaustive
    search, which scipy returns whenever the index is a single leaf (at
    most [leafsize = 10] data rows), where [eps] prunes nothing. *)
Definition query_approximate (tree : KDTree) (x : list point) (k : positive)
           (eps : distance) : ndarray (distance * Z) :=
  query tree x k DInf.

(** The single-shot branch.  Line 187 passes [distance_max] in third
    position, which in [KDTree.query(x, k=1, eps=0, p=2,
    distance_upper_bound=inf)] is [eps] and not the upper bound that the
    chunked branch passes by keyword. *)
Definition query_whole (tree : KDTree) (x : list point) (k : positive)
           (distance_max : distance) : M (ndarray (distance * Z)) :=
  log_at DEBUG MsgQueryAll;;;
  ret (query_approximate tree x k distance_max).

(** Lines 185-211: one query, or ten chunks merged. *)
Definition query_stage (single_shot : bool) (tree : KDTree) (x : list point)
           (k : positive) (bound : distance) : M (ndarray (distance * Z)) :=
  if single_shot then query_whole tree x k bound
  else query_split 10 tree x k bound.

(** [distance_max != numpy.inf] and [distance > distance_max] *)
Definition exceeds (d distance_max : distance) : bool :=
  dist_is_finite distance_max && dist_gtb d distance_max.

(** Lines 226-236: the neighbours of one row that survive the cutoff.  The
    source node is looked up, at position [row index - 1] of
    [grid_1_nodes], before the cutoff is tested. *)
Fixpoint keep_neighbors (grid_1_nodes : list node_id) (distance_max : distance)
         (row : list (distance * Z)) (kept : list neighbor)
  : outcome (list neighbor) :=
  match row with
  | [] => Return kept
  | (d, p) :: row' =>
      match py_index grid_1_nodes (p - 1) with
      | None => Raise IndexError
      | Some node =>
          if exceeds d distance_max
          then keep_neighbors grid_1_nodes distance_max row' kept
          else keep_neighbors grid_1_nodes distance_max row'
                              (kept ++ [mkNeighbor node d])
      end
  end.

(** Lines 220-254: iteration [i] of the loop over the query result, on the
    local variables [transform_dict] and [count_lonely_nodes]. *)
Definition build_entry (grid_1_nodes grid_2_nodes : list node_id)
           (grid_name_2 : string) (distance_max : distance)
           (dist : ndarray (distance * Z)) (i : nat) (vars : table * nat)
  : M (table * nat) :=
  let '(transform_dict, count_lonely_nodes) := vars in
  key <- or_raise (nth_error grid_2_nodes i) IndexError;;
  match dist with
  | Arr2 rows =>
      row <- or_raise (nth_error rows i) IndexError;;
      kept <- of_outcome (keep_neighbors grid_1_nodes distance_max row []);;
      if (length kept =? 0)%nat
      then
        log_at DEBUG (MsgNoNeighbor key grid_name_2);;;
        ret (dict_set transform_dict key None, S count_lonely_nodes)
      else ret (dict_set transform_dict key (Some kept), count_lonely_nodes)
  | Arr1 cells =>
      cell <- or_raise (nth_error cells i) IndexError;;
      node <- or_raise (py_index grid_1_nodes (snd cell - 1)) IndexError;;
      if exceeds (fst cell) distance_max
      then (* continue: the entry stays the empty list *)
        ret (dict_set transform_dict key (Some []), count_lonely_nodes)
      else
        ret (dict_set transform_dict key (Some [mkNeighbor node (fst cell)]),
             count_lonely_nodes)
  end.

(** [for i in range(len(dist))] *)
Fixpoint build_loop (grid_1_nodes grid_2_nodes : list node_id)
         (grid_name_2 : string) (distance_max : distance)
         (dist : ndarray (distance * Z)) (range : list nat) (vars : table * nat)
  : M (table * nat) :=
  match range with
  | [] => ret vars
  | i :: range' =>
      vars' <- build_entry grid_1_nodes grid_2_nodes grid_name_2 distance_max
                           dist i vars;;
      build_loop grid_1_nodes grid_2_nodes grid_name_2 distance_max dist range' vars'
  end.

Definition build_transform (grid_1_nodes grid_2_nodes : list node_id)
           (grid_name_2 : string) (distance_max : distance)
           (dist : ndarray (distance * Z)) : M (table * nat) :=
  build_loop grid_1_nodes grid_2_nodes grid_name_2 distance_max dist
             (seq 0 (np_len dist)) ([], O).

(** [if not (min_1 <= max_2 and max_1 >= min_2)]: log an error and raise. *)
Definition check_overlap (a : axis) (min_1 max_1 min_2 max_2 : Q) : M unit :=
  if negb (Qle_bool min_1 max_2 && Qle_bool min_2 max_1)
  then log_at ERROR (MsgNotOverlapping a);;; raise (ValueError_not_overlapping a)
  else ret tt.

Definition log_dimensions (grid_name : string) (lo hi : point) : M unit :=
  log_at DEBUG (MsgDimensions grid_name);;;
  log_at DEBUG (MsgRange AxisX (px lo) (px hi));;;
  log_at DEBUG (MsgRange AxisY (py lo) (py hi));;;
  log_at DEBUG (MsgRange AxisZ (pz lo) (pz hi)).

(** [self.grids[grid_name_2]['transform'][grid_name_1] = transform_dict] *)
Definition store_table (grid_name_1 grid_name_2 : string) (t : table) : M unit :=
  modify_grids
    (alter (fun e => {| transform := dict_set (transform e) grid_name_1 t;
                        grid := grid e |}) grid_name_2).

(** [GridTransformer.find_nearest_neighbors], with the branch condition of
    line 185 as a parameter. *)
Definition find_nearest_neighbors_with (single_shot : bool)
           (grid_name_1 grid_name_2 : string) (neighbors_quantity : positive)
           (distance_max : distance) : M bool :=
  e1 <- lookup_grid grid_name_1 (KeyError_grid_unknown grid_name_1);;
  e2 <- lookup_grid grid_name_2 (KeyError_grid_unknown grid_name_2);;
  log_at DEBUG (MsgStart grid_name_1 grid_name_2 neighbors_quantity distance_max);;;
  g1 <- deref (grid e1);;
  let grid_1_coordinates := get_coordinates_array g1 in
  let grid_1_nodes := dict_keys (nodes g1) in
  g2 <- deref (grid e2);;
  let grid_2_coordinates := get_coordinates_array g2 in
  let grid_2_nodes := dict_keys (nodes g2) in
  min_1 <- or_raise (amin grid_1_coordinates) ValueError_empty_reduction;;
  max_1 <- or_raise (amax grid_1_coordinates) ValueError_empty_reduction;;
  min_2 <- or_raise (amin grid_2_coordinates) ValueError_empty_reduction;;
  max_2 <- or_raise (amax grid_2_coordinates) ValueError_empty_reduction;;
  log_dimensions grid_name_1 min_1 max_1;;;
  log_dimensions grid_name_2 min_2 max_2;;;
  check_overlap AxisX (px min_1) (px max_1) (px min_2) (px max_2);;;
  check_overlap AxisY (py min_1) (py max_1) (py min_2) (py max_2);;;
  check_overlap AxisZ (pz min_1) (pz max_1) (pz min_2) (pz max_2);;;
  log_at DEBUG MsgKDTree;;;
  let tree := mkKDTree grid_1_coordinates in
  dist <- query_stage single_shot tree grid_2_coordinates neighbors_quantity
                      distance_max;;
  log_at DEBUG MsgCheckResults;;;
  built <- build_transform grid_1_nodes grid_2_nodes grid_name_2 distance_max dist;;
  let '(transform_dict, count_lonely_nodes) := built in
  (if (0 <? count_lonely_nodes)%nat
   then log_at WARNING (MsgLonelyNodes count_lonely_nodes grid_name_1 grid_name_2
                                       distance_max)
   else ret tt);;;
  store_table grid_name_1 grid_name_2 transform_dict;;;
  log_at INFO (MsgNeighborsFound grid_name_1 grid_name_2);;;
  ret true.

(** [GridTransformer.find_nearest_neighbors] *)
Definition find_nearest_neighbors : string -> string -> positive -> distance -> M bool :=
  find_nearest_neighbors_with (single_shot_gate sys_maxsize).

(** ** Transferring values *)

(** [value * 1 / distance] for a distance other than zero. *)
Definition weighted (v : value) (d : distance) : outcome value :=
  match v with
  | VNone => Raise (TypeError "value")
  | VNaN => Return VNaN
  | VNum x =>
      Return (VNum (match d with DFin q => (x * 1 / q)%Q | DInf => 0%Q end))
  end.

(** [factor + w] on floats. *)
Definition vadd (factor w : value) : value :=
  match factor, w with
  | VNum x, VNum y => VNum (x + y)%Q
  | _, _ => VNaN
  end.

(** [factor / sum_distance] for a sum other than zero. *)
Definition vdiv (factor : value) (sum_distance : Q) : value :=
  match factor with
  | VNum x => VNum (Qred (x / sum_distance))
  | _ => VNaN
  end.

(** Lines 316-329: the loop over the records of one target node, on the
    local variables [sum_distance], [factor] and [result]; a record at
    distance zero sets [result], resets [sum_distance] and leaves the loop. *)
Fixpoint scan_neighbors (src_values : dict node_id value)
         (node_dict : list neighbor) (sum_distance : Q) (factor result : value)
  : outcome (Q * value * value) :=
  match node_dict with
  | [] => Return (sum_distance, factor, result)
  | item :: rest =>
      let distance := neighbor_distance item in
      match dict_get src_values (node_number item) with
      | None => Raise (KeyError_node (node_number item))
      | Some value =>
          if dist_is_zero distance then Return (0%Q, factor, value)
          else
            match weighted value distance with
            | Raise e => Raise e
            | Return w =>
                scan_neighbors src_values rest
                               (sum_distance + dist_recip distance)%Q
                               (vadd factor w) result
            end
      end
  end.

(** Lines 307-333: the value assigned to a target node whose entry is a
    non-empty list. *)
Definition interpolate (src_values : dict node_id value)
           (node_dict : list neighbor) : outcome value :=
  match scan_neighbors src_values node_dict 0%Q (VNum 0) VNone with
  | Raise e => Raise e
  | Return (sum_distance, factor, result) =>
      Return (if negb (Qeq_bool sum_distance 0) then vdiv factor sum_distance
              else result)
  end.

(** [target_grid['grid'].nodes[node].set_value(value_name, v)]: the object
    behind the reference is updated in place. *)
Definition set_node_value (l : loc) (node : node_id) (value_name : string)
           (v : value) : M unit :=
  g <- deref l;;
  n <- or_raise (dict_get (nodes g) node) (KeyError_node node);;
  modify_heap (fun h =>
    <[l := {| nodes := dict_set (nodes g) node (set_value n value_name v) |}]> h).

(** Modelled from the spec: [Grid.check_value_set_completeness] fails,
    naming the offending nodes, when some node has no entry for the field. *)
Definition check_value_set_completeness (l : loc) (value_name : string) : M unit :=
  g <- deref l;;
  match unset_nodes g value_name with
  | [] => ret tt
  | missing => raise (IncompleteAssignment value_name missing)
  end.

(** Lines 306-337: the body of the loop over the table, for one item. *)
Definition transfer_node (src_values : dict node_id value) (target : loc)
           (value_name : string) (item : node_id * option (list neighbor))
  : M unit :=
  match snd item with
  | Some (r :: rs) =>
      result <- of_outcome (interpolate src_values (r :: rs));;
      set_node_value target (fst item) value_name result
  | _ => set_node_value target (fst item) value_name VNaN
  end.

(** [GridTransformer.transition] *)
Definition transition (src_grid_name value_name target_grid_name : string)
  : M bool :=
  src_grid <- lookup_grid src_grid_name (KeyError_grid_unknown src_grid_name);;
  target_grid <- lookup_grid target_grid_name
                             (KeyError_grid_unknown target_grid_name);;
  g <- deref (grid src_grid);;
  match get_node_values g value_name with
  | [] => raise (KeyError_value_name value_name)
  | src_values =>
      t <- or_raise (dict_get (transform target_grid) src_grid_name)
                    (KeyError_no_transformation src_grid_name target_grid_name);;
      for_each t (transfer_node src_values (grid target_grid) value_name);;;
      check_value_set_completeness (grid target_grid) value_name;;;
      log_at INFO (MsgTransition value_name src_grid_name target_grid_name);;;
      ret true
  end.

(** ** Diagnostics *)

(** Lines 374-378: the records of one node, on the local variables
    [distances] and [count_lonely_nodes]. *)
Fixpoint tally_items (node_dict : list neighbor) (vars : list distance * nat)
  : list distance * nat :=
  match node_dict with
  | [] => vars
  | item :: rest =>
      let '(distances, count_lonely_nodes) := vars in
      if dist_gtb (neighbor_distance item) (DFin 0)
      then tally_items rest (distances ++ [neighbor_distance item], count_lonely_nodes)
      else tally_items rest (distances, S count_lonely_nodes)
  end.

(** Lines 372-380: the loop over the entries of one table. *)
Fixpoint tally_nodes (node_list : table) (vars : list distance * nat)
  : list distance * nat :=
  match node_list with
  | [] => vars
  | (_, Some (r :: rs)) :: rest => tally_nodes rest (tally_items (r :: rs) vars)
  | (_, _) :: rest => tally_nodes rest (fst vars, S (snd vars))
  end.

(** Lines 368-382: the distance population and the lonely count of one
    table; an empty table counts as one. *)
Definition tally (node_list : table) : list distance * nat :=
  match node_list with
  | [] => ([], 1%nat)
  | _ => tally_nodes node_list ([], O)
  end.

Definition dist_min (a b : distance) : distance := if dist_gtb a b then b else a.
Definition dist_max (a b : distance) : distance := if dist_gtb a b then a else b.

(** [numpy.ndarray.min] and [numpy.ndarray.max]; numpy raises on an empty
    array. *)
Definition ndarray_min (distances : list distance) : option distance :=
  match distances with
  | [] => None
  | d :: ds => Some (fold_left dist_min ds d)
  end.

Definition ndarray_max (distances : list distance) : option distance :=
  match distances with
  | [] => None
  | d :: ds => Some (fold_left dist_max ds d)
  end.

(** Lines 367-392: the report on the table built from one source grid.
    Mean and standard deviation are recorded by the population they are
    taken over. *)
Definition report_table (item : string * table) : M unit :=
  let '(distances, count_lonely_nodes) := tally (snd item) in
  log_at INFO (MsgStatNeighborhood (fst item));;;
  log_at INFO (MsgStatTotal (length distances));;;
  log_at INFO (MsgStatMean distances);;;
  log_at INFO (MsgStatStd distances);;;
  lo <- or_raise (ndarray_min distances) ValueError_empty_reduction;;
  log_at INFO (MsgStatMin lo);;;
  hi <- or_raise (ndarray_max distances) ValueError_empty_reduction;;
  log_at INFO (MsgStatMax hi);;;
  log_at INFO (MsgStatLonely count_lonely_nodes).

(** [GridTransformer.nearest_neighbors_stat] *)
Definition nearest_neighbors_stat (grid_name : string) : M bool :=
  e <- lookup_grid grid_name (KeyError_grid_unknown grid_name);;
  log_at INFO (MsgStatFor grid_name);;;
  g <- deref (grid e);;
  log_at INFO (MsgStatNodes (length (nodes g)));;;
  for_each (transform e) report_table;;;
  log_at INFO MsgStatEnd;;;
  ret true.

(** ** Round-trip validation *)

(** A Python argument of unknown type, for the guards of
    [transformation_validation]. *)
Inductive pyobj : Type :=
| PyStr (s : string)
| PyInt (n : Z)
| PyNone.

(** [if not isinstance(x, str): raise TypeError(...)] *)
Definition expect_str (parameter : string) (x : pyobj) : M string :=
  match x with
  | PyStr s => ret s
  | _ => raise (TypeError parameter)
  end.

Section Validation.

(** Lines 437-513: the statistics over the two snapshots, written to the
    log with numpy, and the matplotlib figure.  Both are external to the
    transformer; the only thing used of them is that they run in [M]. *)
Variable report_and_plot :
  loc -> loc -> list value -> list value -> M unit.

(** Lines 427-515: the body of the [try] block. *)
Definition round_trip (src_grid_name value_name target_grid_name : string)
  : M bool :=
  src_entry <- lookup_grid src_grid_name (KeyError_key src_grid_name);;
  src_grid_begin <- deref (grid src_entry);;
  let data_begin := dict_values (get_node_values src_grid_begin value_name) in
  target_entry <- lookup_grid target_grid_name (KeyError_key target_grid_name);;
  transition src_grid_name value_name target_grid_name;;;
  transition target_grid_name value_name src_grid_name;;;
  src_entry' <- lookup_grid src_grid_name (KeyError_key src_grid_name);;
  src_grid_end <- deref (grid src_entry');;
  let data_end := dict_values (get_node_values src_grid_end value_name) in
  report_and_plot (grid src_entry) (grid target_entry) data_begin data_end;;;
  ret true.

(** [GridTransformer.transformation_validation] *)
Definition transformation_validation
           (src_grid_name value_name target_grid_name : pyobj) : M bool :=
  src <- expect_str "src_grid_name" src_grid_name;;
  val <- expect_str "value_name" value_name;;
  target <- expect_str "target_grid_name" target_grid_name;;
  try_except (round_trip src val target)
             (fun err => log_at CRITICAL (MsgAborted err);;; ret false).

End Validation.

(** ** Observations on a state *)

(** The value of field [value_name] on node [node] of the object at [l]. *)
Definition value_at (st : State) (l : loc) (node : node_id)
           (value_name : string) : option value :=
  g ← heap st !! l; n ← dict_get (nodes g) node; values n !! value_name.

(** The table stored for target [target] from source [src]. *)
Definition table_of (st : State) (src target : string) : option table :=
  e ← grids st !! target; dict_get (transform e) src.

(** The values of field [value_name] on the grid registered under
    [grid_name]. *)
Definition field_of (st : State) (grid_name value_name : string)
  : option (dict node_id value) :=
  e ← grids st !! grid_name; g ← heap st !! grid e;
  Some (get_node_values g value_name).

(** [g'] is [g] up to the values of field [value_name] on the nodes in
    [touched]: same identifiers in the same order, same coordinates, same
    other fields, and the nodes outside [touched] are untouched. *)
Definition grid_frame (value_name : string) (touched : list node_id)
           (g g' : Grid) : Prop :=
  dict_keys (nodes g') = dict_keys (nodes g)
  /\ forall i n,
      dict_get (nodes g) i = Some n ->
      exists n',
        dict_get (nodes g') i = Some n'
        /\ coordinate n' = coordinate n
        /\ (forall f, f <> value_name -> values n' !! f = values n !! f)
        /\ (~ In i touched -> n' = n).

(** [st'] is [st] up to the log and to the values of field [value_name] on
    the nodes in [touched] of the object at [target]. *)
Definition state_frame (value_name : string) (target : loc)
           (touched : list node_id) (st st' : State) : Prop :=
  grids st' = grids st
  /\ (forall l, l <> target -> heap st' !! l = heap st !! l)
  /\ match heap st !! target, heap st' !! target with
     | Some g, Some g' => grid_frame value_name touched g g'
     | None, None => True
     | _, _ => False
     end.

(** The inverse-distance weight [1 / distance] of a record; zero at
    distance [inf]. *)
Definition weight (r : neighbor) : Q :=
  match neighbor_distance r with DFin d => (1 / d)%Q | DInf => 0%Q end.

(** The sum of the weights, and the sum of [value / distance] over the
    records paired with the values of their source nodes. *)
Definition weight_sum (items : list neighbor) : Q :=
  fold_right Qplus 0%Q (map weight items).

Definition weighted_sum (items : list neighbor) (vals : list Q) : Q :=
  fold_right Qplus 0%Q
    (zip_with (fun r x => match neighbor_distance r with
                          | DFin d => (x / d)%Q
                          | DInf => 0%Q
                          end) items vals).

(** The value that the loop body of [transition] computes for one item of
    the table, before it is assigned. *)
Definition node_result (src_values : dict node_id value)
           (item : node_id * option (list neighbor)) : outcome value :=
  match snd item with
  | Some (r :: rs) => interpolate src_values (r :: rs)
  | _ => Return VNaN
  end.

(** The records of all entries of a table, in order; [None] has none. *)
Definition records (t : table) : list neighbor :=
  flat_map (fun item => match snd item with Some l => l | None => [] end) t.

(** [d > 0] *)
Definition positive_distance (r : neighbor) : bool :=
  dist_gtb (neighbor_distance r) (DFin 0).

(** An entry that Python treats as false: [None] or the empty list. *)
Definition falsy (item : node_id * option (list neighbor)) : bool :=
  match snd item with Some (_ :: _) => false | _ => true end.

(** Two states that differ at most in their log. *)
Definition same_store (s1 s2 : State) : Prop :=
  heap s1 = heap s2 /\ grids s1 = grids s2.

(** A computation that changes nothing but the log. *)
Definition read_only {A : Type} (m : M A) : Prop :=
  forall st, same_store (fst (m st)) st.

(** The value that iteration [i] of the build loop stores for its target
    node: the kept records of row [i], or [None] when none is kept, for a
    result of rank two; the empty list or the single record of cell [i] for
    a result of rank one. *)
Definition stored_at (grid_1_nodes : list node_id) (distance_max : distance)
           (dist : ndarray (distance * Z)) (i : nat)
           (v : option (list neighbor)) : Prop :=
  match dist with
  | Arr2 rows =>
      exists row kept,
        nth_error rows i = Some row
        /\ keep_neighbors grid_1_nodes distance_max row [] = Return kept
        /\ v = (if (length kept =? 0)%nat then None else Some kept)
  | Arr1 cells =>
      exists cell node,
        nth_error cells i = Some cell
        /\ py_index grid_1_nodes (snd cell - 1) = Some node
        /\ v = (if exceeds (fst cell) distance_max then Some []
                else Some [mkNeighbor node (fst cell)])
  end.

(** The coordinate of a point along an axis. *)
Definition axis_coordinate (a : axis) (p : point) : Q :=
  match a with AxisX => px p | AxisY => py p | AxisZ => pz p end.

(** The exceptions that [transition] can raise once its loop has started:
    a node missing from the source values or from the target grid, a
    source value that is [None], a target reference that is no grid, a
    target node left without a value. *)
Definition raised_while_writing (e : exn) : Prop :=
  match e with
  | KeyError_node _ | TypeError _ | IncompleteAssignment _ _ => True
  | _ => False
  end.

(** ** Example grids *)

Module Example.

(** A node on the x axis, with or without a value for field [v]. *)
Definition node_at (x : Q) (v : option Q) : Node :=
  mkNode (Point x 0 0)
         (match v with Some q => {["v" := VNum q]} | None => ∅ end).

(** Source grid A: nodes 0, 1, 2 at x = 0, 1, 2 with v = 10, 20, 30. *)
Definition grid_A : Grid :=
  mkGrid [(0, node_at 0 (Some 10%Q)); (1, node_at 1 (Some 20%Q));
          (2, node_at 2 (Some 30%Q))].

(** Target grid B: nodes 0, 1 at x = 0 and x = 3/2, without values. *)
Definition grid_B : Grid :=
  mkGrid [(0, node_at 0 None); (1, node_at (3 # 2) None)].

(** Two objects in the store, nothing registered. *)
Definition store_AB : State :=
  mkState (<[0%nat := grid_A]> (<[1%nat := grid_B]> ∅)) ∅ [].

(** A and B registered. *)
Definition registered_AB : State :=
  fst ((add_grid 0%nat "A";;; add_grid 1%nat "B") store_AB).

(** A and B registered and the table from A to B built with k = 2 and
    no cutoff. *)
Definition matched_AB : State :=
  fst (find_nearest_neighbors "A" "B" 2 DInf registered_AB).

(** A sparse source grid C (nodes 7, 8 at x = 0, 10) and a target grid D
    with one node 5 at x = 5, further than 1 from both. *)
Definition grid_C : Grid :=
  mkGrid [(7, node_at 0 (Some 10%Q)); (8, node_at 10 (Some 20%Q))].

Definition grid_D : Grid := mkGrid [(5, node_at 5 None)].

Definition registered_CD : State :=
  fst ((add_grid 0%nat "C";;; add_grid 1%nat "D")
         (mkState (<[0%nat := grid_C]> (<[1%nat := grid_D]> ∅)) ∅ [])).

(** A grid F to the right of A: nodes 0, 1 at x = 5, 6. *)
Definition grid_F : Grid :=
  mkGrid [(0, node_at 5 None); (1, node_at 6 None)].

Definition registered_AF : State :=
  fst ((add_grid 0%nat "A";;; add_grid 1%nat "F")
         (mkState (<[0%nat := grid_A]> (<[1%nat := grid_F]> ∅)) ∅ [])).

(** One object, with two coincident nodes 0 and 1 at x = 0 carrying
    v = 10 and v = 20, registered under the two names A and B. *)
Definition grid_E : Grid :=
  mkGrid [(0, node_at 0 (Some 10%Q)); (1, node_at 0 (Some 20%Q))].

Definition aliased : State :=
  fst ((add_grid 0%nat "A";;; add_grid 0%nat "B";;;
        find_nearest_neighbors "A" "B" 2 DInf)
         (mkState (<[0%nat := grid_E]> ∅) ∅ [])).

End Example.

(** ** Further example states *)

Module Scenario.

(** Grid A registered under the name "grid_name" and grid B under "B", with
    the tables built in both directions. *)
Definition literal_name : State :=
  fst ((add_grid 0%nat "grid_name";;; add_grid 1%nat "B";;;
        find_nearest_neighbors "grid_name" "B" 2 DInf;;;
        find_nearest_neighbors "B" "grid_name" 2 DInf) Example.store_AB).

(** A and B registered, the table from A to B built with k = 2 and cutoff
    1/4: B's node at x = 3/2 has no neighbour within the cutoff. *)
Definition matched_AB_cutoff : State :=
  fst (find_nearest_neighbors "A" "B" 2 (DFin (1 # 4)) Example.registered_AB).

(** A and B registered, with a value for field v on both nodes of B, and
    the tables built in both directions with k = 2 and no cutoff. *)
Definition grid_B_valued : Grid :=
  mkGrid [(0, Example.node_at 0 (Some 1%Q));
          (1, Example.node_at (3 # 2) (Some 2%Q))].

Definition both_ways : State :=
  fst ((add_grid 0%nat "A";;; add_grid 1%nat "B";;;
        find_nearest_neighbors "A" "B" 2 DInf;;;
        find_nearest_neighbors "B" "A" 2 DInf)
         (mkState (<[0%nat := Example.grid_A]> (<[1%nat := grid_B_valued]> ∅))
                  ∅ [])).

(** A source grid G with the single node 0 at x = 0 and a target grid H
    with nodes 0, 1 at x = 0 and x = 1, so that H's second node is at
    distance exactly 1 from G's node. *)
Definition grid_G : Grid := mkGrid [(0, Example.node_at 0 (Some 10%Q))].

Definition grid_H : Grid :=
  mkGrid [(0, Example.node_at 0 None); (1, Example.node_at 1 None)].

Definition registered_GH : State :=
  fst ((add_grid 0%nat "G";;; add_grid 1%nat "H")
         (mkState (<[0%nat := grid_G]> (<[1%nat := grid_H]> ∅)) ∅ [])).

End Scenario.

(** ** The transfer on binary64 numbers *)

(** [transition] once more, with the node values and the distances as the
    interpreter holds them: IEEE 754 binary64 numbers, on which each
    operation of lines 328-333 rounds.  The registry, the object store, the
    exceptions and the log are as above. *)
Module Binary64.

Import PrimFloat.

(** A node value: a float ([numpy.nan] and [numpy.inf] are floats) or
    Python's [None]. *)
Inductive value : Type :=
| VFloat (x : float)
| VNone.

(** Modelled from the spec: the [Node] class of [utils/grid.py], reduced to
    its mapping from field name to value, in which a field that was never
    assigned is absent; [transition] does not read the coordinate. *)
Record Node : Type := mkNode {
  values : gmap string value
}.

(** Modelled from the spec: the [Grid] class of [utils/grid.py], an ordered
    collection of nodes with unique identifiers. *)
Record Grid : Type := mkGrid {
  nodes : dict node_id Node
}.

(** Modelled from the spec: [Node.set_value] assigns or overwrites one
    field of a node, without validation. *)
Definition set_value (n : Node) (value_name : string) (v : value) : Node :=
  {| values := <[value_name := v]> (values n) |}.

(** Modelled from the spec: [Grid.get_node_values] is a fresh mapping from
    node identifier to the value of the field, over the nodes on which the
    field was assigned; it is empty (falsy) for an unknown field. *)
Fixpoint node_values_of (ns : dict node_id Node) (value_name : string)
  : dict node_id value :=
  match ns with
  | [] => []
  | (i, n) :: ns' =>
      match values n !! value_name with
      | Some v => (i, v) :: node_values_of ns' value_name
      | None => node_values_of ns' value_name
      end
  end.

Definition get_node_values (g : Grid) (value_name : string)
  : dict node_id value :=
  node_values_of (nodes g) value_name.

(** Modelled from the spec: the nodes that [check_value_set_completeness]
    reports, those on which the field was never assigned. *)
Definition unset_nodes (g : Grid) (value_name : string) : list node_id :=
  dict_keys (List.filter (fun kv => bool_decide (values (snd kv) !! value_name = None))
                         (nodes g)).

(** One record [{'node_number': ..., 'distance': ...}]; the distance is a
    [numpy.float64]. *)
Record neighbor : Type := mkNeighbor {
  node_number : node_id;
  neighbor_distance : float
}.

Definition table : Type := dict node_id (option (list neighbor)).

Record entry : Type := mkEntry {
  transform : dict string table;
  grid : loc
}.

Record State : Type := mkState {
  heap : gmap loc Grid;
  grids : gmap string entry;
  log : list log_record
}.

Definition M (A : Type) : Type := State -> State * outcome A.

Definition ret {A : Type} (a : A) : M A := fun st => (st, Return a).

Definition raise {A : Type} (e : exn) : M A := fun st => (st, Raise e).

Definition bind {A B : Type} (m : M A) (k : A -> M B) : M B :=
  fun st =>
    match m st with
    | (st', Return a) => k a st'
    | (st', Raise e) => (st', Raise e)
    end.

Local Notation "x <- m ;; k" := (bind m (fun x => k))
  (at level 100, m at next level, right associativity).
Local Notation "m ;;; k" := (bind m (fun _ => k))
  (at level 100, right associativity).

Definition get_state : M State := fun st => (st, Return st).

Definition log_at (l : level) (m : message) : M unit :=
  fun st => ({| heap := heap st; grids := grids st; log := log st ++ [(l, m)] |},
             Return tt).

Definition or_raise {A : Type} (o : option A) (e : exn) : M A :=
  match o with Some a => ret a | None => raise e end.

Definition of_outcome {A : Type} (o : outcome A) : M A := fun st => (st, o).

Fixpoint for_each {A : Type} (xs : list A) (body : A -> M unit) : M unit :=
  match xs with
  | [] => ret tt
  | x :: xs' => body x ;;; for_each xs' body
  end.

Definition modify_heap (f : gmap loc Grid -> gmap loc Grid) : M unit :=
  fun st => ({| heap := f (heap st); grids := grids st; log := log st |},
             Return tt).

Definition lookup_grid (grid_name : string) (e : exn) : M entry :=
  st <- get_state;; or_raise (grids st !! grid_name) e.

Definition deref (l : loc) : M Grid :=
  st <- get_state;; or_raise (heap st !! l) (TypeError "grid").

(** Lines 316-329: the loop over the records of one target node, on the
    local variables [sum_distance], [factor] and [result].  [distance == 0]
    is the comparison of floats (true of [-0.0]); [1 / distance] and
    [value * 1 / distance] are rounded quotients, and so are the two sums. *)
Fixpoint scan_neighbors (src_values : dict node_id value)
         (node_dict : list neighbor) (sum_distance factor : float)
         (result : value) : outcome (float * float * value) :=
  match node_dict with
  | [] => Return (sum_distance, factor, result)
  | item :: rest =>
      let distance := neighbor_distance item in
      match dict_get src_values (node_number item) with
      | None => Raise (KeyError_node (node_number item))
      | Some value =>
          if (distance =? 0)%float then Return (0%float, factor, value)
          else
            let sum_distance := (sum_distance + 1 / distance)%float in
            match value with
            | VNone => Raise (TypeError "value")
            | VFloat v =>
                scan_neighbors src_values rest sum_distance
                               (factor + v * 1 / distance)%float result
            end
      end
  end.

(** Lines 307-333: the value assigned to a target node whose entry is a
    non-empty list. *)
Definition interpolate (src_values : dict node_id value)
           (node_dict : list neighbor) : outcome value :=
  match scan_neighbors src_values node_dict 0%float 0%float VNone with
  | Raise e => Raise e
  | Return (sum_distance, factor, result) =>
      Return (if negb (sum_distance =? 0)%float
              then VFloat (factor / sum_distance)%float
              else result)
  end.

(** [target_grid['grid'].nodes[node].set_value(value_name, v)] *)
Definition set_node_value (l : loc) (node : node_id) (value_name : string)
           (v : value) : M unit :=
  g <- deref l;;
  n <- or_raise (dict_get (nodes g) node) (KeyError_node node);;
  modify_heap (fun h =>
    <[l := {| nodes := dict_set (nodes g) node (set_value n value_name v) |}]> h).

(** Modelled from the spec: [Grid.check_value_set_completeness] fails,
    naming the offending nodes, when some node has no entry for the field. *)
Definition check_value_set_completeness (l : loc) (value_name : string) : M unit :=
  g <- deref l;;
  match unset_nodes g value_name with
  | [] => ret tt
  | missing => raise (IncompleteAssignment value_name missing)
  end.

(** Lines 306-337: the body of the loop over the table, for one item. *)
Definition transfer_node (src_values : dict node_id value) (target : loc)
           (value_name : string) (item : node_id * option (list neighbor))
  : M unit :=
  match snd item with
  | Some (r :: rs) =>
      result <- of_outcome (interpolate src_values (r :: rs));;
      set_node_value target (fst item) value_name result
  | _ => set_node_value target (fst item) value_name (VFloat nan)
  end.

(** [GridTransformer.transition] *)
Definition transition (src_grid_name value_name target_grid_name : string)
  : M bool :=
  src_grid <- lookup_grid src_grid_name (KeyError_grid_unknown src_grid_name);;
  target_grid <- lookup_grid target_grid_name
                             (KeyError_grid_unknown target_grid_name);;
  g <- deref (grid src_grid);;
  match get_node_values g value_name with
  | [] => raise (KeyError_value_name value_name)
  | src_values =>
      t <- or_raise (dict_get (transform target_grid) src_grid_name)
                    (KeyError_no_transformation src_grid_name target_grid_name);;
      for_each t (transfer_node src_values (grid target_grid) value_name);;;
      check_value_set_completeness (grid target_grid) value_name;;;
      log_at INFO (MsgTransition value_name src_grid_name target_grid_name);;;
      ret true
  end.

(** The value of field [value_name] on node [node] of the object at [l]. *)
Definition value_at (st : State) (l : loc) (node : node_id)
           (value_name : string) : option value :=
  g ← heap st !! l; n ← dict_get (nodes g) node; values n !! value_name.

(** The sum of [1 / distance] over the records, accumulated from 0 in list
    order, each step rounded. *)
Definition weight_sum (items : list neighbor) : float :=
  fold_left (fun s r => s + 1 / neighbor_distance r)%float items 0%float.

(** The sum of [value * 1 / distance] over the records paired with the
    values of their source nodes, accumulated likewise. *)
Definition weighted_sum (items : list neighbor) (vals : list float) : float :=
  fold_left (fun f rx => f + snd rx * 1 / neighbor_distance (fst rx))%float
            (combine items vals) 0%float.


(** A node that carries [v] for field v, or nothing. *)
Definition node_with (v : option float) : Node :=
  mkNode (match v with Some x => {["v" := VFloat x]} | None => ∅ end).

(** Source grid A with nodes 0, 1 carrying v = 7 and nodes 2, 3 carrying
    v = 3, target grid B with nodes 0, 1 without a value, and a table from
    A to B that pairs B0 with A0 at distance 0.5 and A1 at distance 3, and
    B1 with A3 at distance 3 and A2 at distance 7. *)
Definition grid_A : Grid :=
  mkGrid [(0, node_with (Some 7%float)); (1, node_with (Some 7%float));
          (2, node_with (Some 3%float)); (3, node_with (Some 3%float))].

Definition grid_B : Grid := mkGrid [(0, node_with None); (1, node_with None)].

Definition table_AB : table :=
  [(0, Some [mkNeighbor 0 0.5%float; mkNeighbor 1 3%float]);
   (1, Some [mkNeighbor 3 3%float; mkNeighbor 2 7%float])].

Definition matched_AB : State :=
  mkState (<[0%nat := grid_A]> (<[1%nat := grid_B]> ∅))
          (<["A" := mkEntry [] 0%nat]> (<["B" := mkEntry [("A", table_AB)] 1%nat]> ∅))
          [].

End Binary64.

(** * Properties *)

(** ** The worked example *)

(** C1 (the code differs): on the worked example the stored table pairs
    B's node at (0,0,0) with A2 at distance 0 and A0 at distance 1, and
    B's node at (3/2,0,0) with A0 and A1 at distance 1/2, because the row
    index returned by the search is decremented before it is used as a
    position in the list of A's node identifiers; [transition] then assigns
    30 and 15, not 10 and 25. *)
Theorem worked_example_shifted :
  table_of Example.matched_AB "A" "B"
  = Some [(0, Some [mkNeighbor 2 (DFin 0); mkNeighbor 0 (DFin 1)]);
          (1, Some [mkNeighbor 0 (DFin (1 # 2)); mkNeighbor 1 (DFin (1 # 2))])]
  /\ (let r := transition "A" "v" "B" Example.matched_AB in
      snd r = Return true
      /\ value_at (fst r) 1%nat 0 "v" = Some (VNum 30)
      /\ value_at (fst r) 1%nat 1 "v" = Some (VNum 15)).
Proof. vm_compute. repeat split; reflexivity. Qed.

(** ** Replacing a grid *)

(** C2 (the code differs): with a grid registered under "A" and none under
    the literal name "grid_name", [update_grid] of "A" raises the key
    error of the deletion and leaves the registry as it was, still mapping
    "A" to the old object. *)
Theorem update_grid_deletes_literal_key :
  update_grid 1%nat "A" Example.registered_AB
  = (Example.registered_AB, Raise (KeyError_key "grid_name"))
  /\ grid <$> (grids Example.registered_AB !! "A") = Some 0%nat.
Proof. vm_compute. split; reflexivity. Qed.

(** Running monadic code on a symbolic state. *)
Ltac unfold_monad :=
  unfold lookup_grid, deref, modify_grids, modify_heap, log_at, get_state,
         or_raise, of_outcome, try_except, bind, ret, raise in *.

Ltac run := unfold_monad; simpl in *.

Lemma bool_decide_is_Some_true {A : Type} (o : option A) (a : A) :
  o = Some a -> bool_decide (is_Some o) = true.
Proof. intros ->. apply bool_decide_eq_true. eauto. Qed.

Lemma bool_decide_is_Some_false {A : Type} (o : option A) :
  o = None -> bool_decide (is_Some o) = false.
Proof. intros ->. apply bool_decide_eq_false. intros [x Hx]. discriminate. Qed.

(** Updating a name that is not registered raises the unknown-grid error
    and changes nothing. *)
Lemma update_grid_unknown (st : State) (l : loc) (g : Grid) (grid_name : string) :
  heap st !! l = Some g ->
  grids st !! grid_name = None ->
  update_grid l grid_name st = (st, Raise (KeyError_grid_unknown grid_name)).
Proof.
  intros Hl Hn. unfold update_grid. run. rewrite Hl. simpl.
  rewrite (bool_decide_is_Some_false _ Hn). reflexivity.
Qed.

(** Updating a registered name while nothing is registered under the
    literal name "grid_name" fails in the deletion. *)
Lemma update_grid_registered (st : State) (l : loc) (g : Grid) (e : entry)
      (grid_name : string) :
  heap st !! l = Some g ->
  grids st !! grid_name = Some e ->
  grids st !! "grid_name" = None ->
  update_grid l grid_name st = (st, Raise (KeyError_key "grid_name")).
Proof.
  intros Hl Hn Hlit. unfold update_grid. run. rewrite Hl. simpl.
  rewrite (bool_decide_is_Some_true _ _ Hn). simpl.
  rewrite (bool_decide_is_Some_false _ Hlit). reflexivity.
Qed.

(** Updating a registered name other than "grid_name" while a grid is
    registered under "grid_name" removes that other grid and then fails to
    add, the name being still taken. *)
Lemma update_grid_wrong_victim (st : State) (l : loc) (g : Grid) (e e' : entry)
      (grid_name : string) :
  heap st !! l = Some g ->
  grid_name <> "grid_name" ->
  grids st !! grid_name = Some e ->
  grids st !! "grid_name" = Some e' ->
  exists st',
    update_grid l grid_name st = (st', Raise (KeyError_grid_exists grid_name))
    /\ grids st' = delete "grid_name" (grids st)
    /\ grids st' !! grid_name = Some e.
Proof.
  intros Hl Hne Hn Hlit. unfold update_grid, add_grid. run. rewrite Hl. simpl.
  rewrite (bool_decide_is_Some_true _ _ Hn). simpl.
  rewrite (bool_decide_is_Some_true _ _ Hlit). simpl. rewrite Hl. simpl.
  assert (Hd : delete "grid_name" (grids st) !! grid_name = Some e).
  { rewrite lookup_delete_ne by congruence. exact Hn. }
  rewrite (bool_decide_is_Some_true _ _ Hd). simpl.
  eexists. split; [reflexivity|]. simpl. split; [reflexivity | exact Hd].
Qed.

(** ** Overlap rejection *)

Lemma check_overlap_pass (a : axis) (min_1 max_1 min_2 max_2 : Q) (st : State) :
  (min_1 <= max_2 /\ min_2 <= max_1)%Q ->
  check_overlap a min_1 max_1 min_2 max_2 st = (st, Return tt).
Proof.
  intros [H1 H2]. unfold check_overlap.
  apply Qle_bool_iff in H1. apply Qle_bool_iff in H2. rewrite H1, H2. reflexivity.
Qed.

Lemma check_overlap_fail (a : axis) (min_1 max_1 min_2 max_2 : Q) (st : State) :
  ~ (min_1 <= max_2 /\ min_2 <= max_1)%Q ->
  exists st',
    check_overlap a min_1 max_1 min_2 max_2 st
    = (st', Raise (ValueError_not_overlapping a))
    /\ heap st' = heap st /\ grids st' = grids st
    /\ log st' = log st ++ [(ERROR, MsgNotOverlapping a)].
Proof.
  intros H. unfold check_overlap.
  destruct (Qle_bool min_1 max_2) eqn:E1; destruct (Qle_bool min_2 max_1) eqn:E2;
    simpl; try (run; eexists; split; [reflexivity | simpl; auto]).
  exfalso. apply H. split; apply Qle_bool_iff; assumption.
Qed.

Lemma check_overlap_cases (a : axis) (min_1 max_1 min_2 max_2 : Q) :
  (min_1 <= max_2 /\ min_2 <= max_1)%Q \/ ~ (min_1 <= max_2 /\ min_2 <= max_1)%Q.
Proof.
  destruct (Qle_bool min_1 max_2) eqn:E1; destruct (Qle_bool min_2 max_1) eqn:E2;
    try (left; split; apply Qle_bool_iff; assumption);
    right; intros [H1 H2]; apply Qle_bool_iff in H1; apply Qle_bool_iff in H2;
    congruence.
Qed.

(** The steps of [find_nearest_neighbors] up to the overlap checks, for two
    registered, non-empty grids: nothing but the log has changed when the
    checks start. *)
Lemma find_nearest_neighbors_prefix (single_shot : bool) (st : State)
      (grid_name_1 grid_name_2 : string) (k : positive) (distance_max : distance)
      (e1 e2 : entry) (g1 g2 : Grid) (lo1 hi1 lo2 hi2 : point) :
  grids st !! grid_name_1 = Some e1 ->
  grids st !! grid_name_2 = Some e2 ->
  heap st !! grid e1 = Some g1 ->
  heap st !! grid e2 = Some g2 ->
  amin (get_coordinates_array g1) = Some lo1 ->
  amax (get_coordinates_array g1) = Some hi1 ->
  amin (get_coordinates_array g2) = Some lo2 ->
  amax (get_coordinates_array g2) = Some hi2 ->
  exists st1,
    heap st1 = heap st /\ grids st1 = grids st /\
    find_nearest_neighbors_with single_shot grid_name_1 grid_name_2 k distance_max st
    = (check_overlap AxisX (px lo1) (px hi1) (px lo2) (px hi2);;;
       check_overlap AxisY (py lo1) (py hi1) (py lo2) (py hi2);;;
       check_overlap AxisZ (pz lo1) (pz hi1) (pz lo2) (pz hi2);;;
       log_at DEBUG MsgKDTree;;;
       dist <- query_stage single_shot (mkKDTree (get_coordinates_array g1))
                           (get_coordinates_array g2) k distance_max;;
       log_at DEBUG MsgCheckResults;;;
       built <- build_transform (dict_keys (nodes g1)) (dict_keys (nodes g2))
                                grid_name_2 distance_max dist;;
       let '(transform_dict, count_lonely_nodes) := built in
       (if (0 <? count_lonely_nodes)%nat
        then log_at WARNING (MsgLonelyNodes count_lonely_nodes grid_name_1
                                            grid_name_2 distance_max)
        else ret tt);;;
       store_table grid_name_1 grid_name_2 transform_dict;;;
       log_at INFO (MsgNeighborsFound grid_name_1 grid_name_2);;;
       ret true) st1.
Proof.
  intros H1 H2 Hg1 Hg2 Hlo1 Hhi1 Hlo2 Hhi2.
  unfold find_nearest_neighbors_with, log_dimensions.
  unfold lookup_grid, deref, get_state, log_at, bind, ret. simpl.
  rewrite H1. simpl. rewrite H2. simpl. rewrite Hg1. simpl. rewrite Hg2. simpl.
  rewrite Hlo1. simpl. rewrite Hhi1, Hlo2, Hhi2. simpl.
  eexists. split; [|split]; [| |reflexivity]; reflexivity.
Qed.

(** C6: two registered, non-empty grids whose bounding intervals
    [min, max] fail to intersect (with non-strict comparisons) on some axis
    make [find_nearest_neighbors] raise the not-overlapping error for an
    axis, and neither the registry, with its tables, nor any grid object
    has changed. *)
Theorem find_nearest_neighbors_rejects_disjoint
        (st : State) (grid_name_1 grid_name_2 : string) (k : positive)
        (distance_max : distance) (e1 e2 : entry) (g1 g2 : Grid)
        (lo1 hi1 lo2 hi2 : point) :
  grids st !! grid_name_1 = Some e1 ->
  grids st !! grid_name_2 = Some e2 ->
  heap st !! grid e1 = Some g1 ->
  heap st !! grid e2 = Some g2 ->
  amin (get_coordinates_array g1) = Some lo1 ->
  amax (get_coordinates_array g1) = Some hi1 ->
  amin (get_coordinates_array g2) = Some lo2 ->
  amax (get_coordinates_array g2) = Some hi2 ->
  ~ (px lo1 <= px hi2 /\ px lo2 <= px hi1)%Q
  \/ ~ (py lo1 <= py hi2 /\ py lo2 <= py hi1)%Q
  \/ ~ (pz lo1 <= pz hi2 /\ pz lo2 <= pz hi1)%Q ->
  exists a st',
    find_nearest_neighbors grid_name_1 grid_name_2 k distance_max st
    = (st', Raise (ValueError_not_overlapping a))
    /\ heap st' = heap st /\ grids st' = grids st.
Proof.
  intros H1 H2 Hg1 Hg2 Hlo1 Hhi1 Hlo2 Hhi2 Hdisjoint.
  unfold find_nearest_neighbors.
  destruct (find_nearest_neighbors_prefix (single_shot_gate sys_maxsize) st
              grid_name_1 grid_name_2 k distance_max e1 e2 g1 g2 _ _ _ _
              H1 H2 Hg1 Hg2 Hlo1 Hhi1 Hlo2 Hhi2) as (st1 & Hh & Hr & ->).
  unfold bind at 1.
  destruct (check_overlap_cases AxisX (px lo1) (px hi1) (px lo2) (px hi2)) as [Hx|Hx].
  2: { destruct (check_overlap_fail AxisX _ _ _ _ st1 Hx) as (st' & -> & Hh' & Hr' & _).
       exists AxisX, st'. split; [reflexivity|]. split; congruence. }
  rewrite (check_overlap_pass AxisX _ _ _ _ st1 Hx). unfold bind at 1.
  destruct (check_overlap_cases AxisY (py lo1) (py hi1) (py lo2) (py hi2)) as [Hy|Hy].
  2: { destruct (check_overlap_fail AxisY _ _ _ _ st1 Hy) as (st' & -> & Hh' & Hr' & _).
       exists AxisY, st'. split; [reflexivity|]. split; congruence. }
  rewrite (check_overlap_pass AxisY _ _ _ _ st1 Hy). unfold bind at 1.
  destruct (check_overlap_cases AxisZ (pz lo1) (pz hi1) (pz lo2) (pz hi2)) as [Hz|Hz].
  2: { destruct (check_overlap_fail AxisZ _ _ _ _ st1 Hz) as (st' & -> & Hh' & Hr' & _).
       exists AxisZ, st'. split; [reflexivity|]. split; congruence. }
  tauto.
Qed.

Lemma find_nearest_neighbors_rejects_disjoint_witness :
  exists a st',
    find_nearest_neighbors "A" "F" 2 DInf Example.registered_AF
    = (st', Raise (ValueError_not_overlapping a))
    /\ heap st' = heap Example.registered_AF
    /\ grids st' = grids Example.registered_AF.
Proof.
  apply (find_nearest_neighbors_rejects_disjoint
           Example.registered_AF "A" "F" 2 DInf
           (mkEntry [] 0%nat) (mkEntry [] 1%nat) Example.grid_A Example.grid_F
           (Point 0 0 0) (Point 2 0 0) (Point 5 0 0) (Point 6 0 0));
    try reflexivity.
  left. intros [_ H]. vm_compute in H. apply H. reflexivity.
Defined.

(** ** Chunk invariance *)

Lemma concat_split_sizes {A : Type} (sizes : list nat) (l : list A) :
  List.concat (split_sizes l sizes) = firstn (list_sum sizes) l.
Proof.
  revert l. induction sizes as [|n sizes IH]; intros l; simpl.
  - reflexivity.
  - rewrite IH. apply take_take_drop.
Qed.

Lemma list_sum_repeat (n c : nat) : list_sum (repeat n c) = (c * n)%nat.
Proof. induction c; simpl; lia. Qed.

(** The pieces of [numpy.array_split] put together give the array back. *)
Lemma array_split_concat {A : Type} (a : list A) (N : nat) :
  exists chunks,
    array_split a (S N) = Return chunks /\ List.concat chunks = a
    /\ chunks <> [].
Proof.
  unfold array_split. eexists. split; [reflexivity|]. split.
  - rewrite concat_split_sizes, list_sum_app, !list_sum_repeat.
    pose proof (Nat.div_mod_eq (length a) (S N)) as Hdm.
    pose proof (Nat.mod_upper_bound (length a) (S N) ltac:(lia)) as Hlt.
    apply firstn_all2. nia.
  - pose proof (Nat.mod_upper_bound (length a) (S N) ltac:(lia)) as Hlt.
    destruct (length a mod S N)%nat eqn:E; simpl.
    + discriminate.
    + discriminate.
Qed.

(** A query on a batch is the concatenation of the queries on its parts. *)
Lemma query_app (tree : KDTree) (k : positive) (bound : distance)
      (x y : list point) :
  np_concatenate (query tree x k bound) (query tree y k bound)
  = Return (query tree (x ++ y) k bound).
Proof.
  unfold query. destruct (k =? 1)%positive; simpl; rewrite map_app; reflexivity.
Qed.

Lemma query_chunks_from (tree : KDTree) (k : positive) (bound : distance)
      (splits : nat) (chunks : list (list point)) :
  forall (i : nat) (seen : list point) (st : State),
  exists st',
    query_chunks tree k bound splits chunks (S i) (query tree seen k bound) st
    = (st', Return (query tree (seen ++ List.concat chunks) k bound))
    /\ same_store st' st.
Proof.
  induction chunks as [|c rest IH]; intros i seen st; simpl.
  - rewrite app_nil_r. eexists. split; [reflexivity|]. split; reflexivity.
  - run. rewrite query_app.
    match goal with |- context [query_chunks _ _ _ _ _ _ _ ?s] =>
      destruct (IH (S i) (seen ++ c) s) as (st' & -> & Hs) end.
    rewrite <- app_assoc. eexists. split; [reflexivity|].
    destruct Hs as [Hh Hg]. split; simpl in *; congruence.
Qed.

(** The chunked query returns what the single query returns, for any
    positive number of chunks. *)
Lemma query_split_whole (N : nat) (tree : KDTree) (x : list point)
      (k : positive) (bound : distance) (st : State) :
  exists st',
    query_split (S N) tree x k bound st = (st', Return (query tree x k bound))
    /\ same_store st' st.
Proof.
  unfold query_split.
  destruct (array_split_concat x N) as (chunks & Hsplit & Hcat & Hne).
  rewrite Hsplit. destruct chunks as [|c rest]; [congruence|].
  run. run.
  match goal with |- context [query_chunks _ _ _ _ _ _ _ ?s] =>
    destruct (query_chunks_from tree k bound (S N) rest 0 c s) as (st' & -> & Hs) end.
  simpl in Hcat. rewrite Hcat. eexists. split; [reflexivity|].
  destruct Hs as [Hh Hg]. split; simpl in *; congruence.
Qed.

(** X29: the chunked query of lines 188-211 returns, for every positive
    number of chunks and every batch of points, also one with fewer points
    than chunks, exactly the arrays of one [KDTree.query] with the same [k]
    and the same upper bound on the whole batch, and changes nothing but
    the log. *)
Theorem chunked_query_is_whole_query
        (N : nat) (tree : KDTree) (x : list point) (k : positive)
        (bound : distance) (st : State) :
  exists st',
    query_split (S N) tree x k bound st = (st', Return (query tree x k bound))
    /\ heap st' = heap st /\ grids st' = grids st.
Proof.
  destruct (query_split_whole N tree x k bound st) as (st' & H & Hh & Hg).
  exists st'. auto.
Qed.

(** C7 (the code differs): the condition of line 185 is constantly false, so
    [find_nearest_neighbors] always takes the chunked branch, which passes
    [distance_max] as upper bound of the search; the single-shot branch
    passes it as [eps] and searches without bound.  With G's only node at
    distance exactly 1 from H's second node, two neighbours and the cutoff
    1, the chunked branch finds nothing within the bound and stores [None]
    for that node, whereas the single-shot branch would find G's node at
    distance 1, which the cutoff test of line 232 keeps: the two branches do
    not compute the same table. *)
Theorem single_shot_branch_differs :
  let chunked := find_nearest_neighbors "G" "H" 2 (DFin 1) Scenario.registered_GH in
  let whole :=
    find_nearest_neighbors_with true "G" "H" 2 (DFin 1) Scenario.registered_GH in
  single_shot_gate sys_maxsize = false
  /\ snd chunked = Return true
  /\ snd whole = Return true
  /\ table_of (fst chunked) "G" "H"
     = Some [(0, Some [mkNeighbor 0 (DFin 0)]); (1, None)]
  /\ table_of (fst whole) "G" "H"
     = Some [(0, Some [mkNeighbor 0 (DFin 0)]);
             (1, Some [mkNeighbor 0 (DFin 1)])].
Proof. vm_compute. repeat split; reflexivity. Qed.

(** ** Round-trip validation never raises *)

(** A non-string argument is rejected by the guards, before the [try]
    block is entered. *)
Lemma transformation_validation_guard
      (report_and_plot : loc -> loc -> list value -> list value -> M unit)
      (value_name target_grid_name : pyobj) (st : State) :
  transformation_validation report_and_plot PyNone value_name target_grid_name st
  = (st, Raise (TypeError "src_grid_name")).
Proof. reflexivity. Qed.

(** C9 as stated fails: the guards of lines 417-422 stand before the [try]
    block, so that an argument that is not a string makes
    [transformation_validation] raise a type error to its caller, with
    nothing caught and nothing logged; here the source name is the integer
    1, on a state in which the round trip between "A" and "B" would
    succeed. *)
Lemma transformation_validation_propagates_type_error :
  transformation_validation (fun _ _ _ _ => ret tt)
                            (PyInt 1) (PyStr "v") (PyStr "B") Scenario.both_ways
  = (Scenario.both_ways, Raise (TypeError "src_grid_name"))
  /\ snd (transformation_validation (fun _ _ _ _ => ret tt)
                                    (PyStr "A") (PyStr "v") (PyStr "B")
                                    Scenario.both_ways)
     = Return true.
Proof. split; vm_compute; reflexivity. Qed.

(** C9, amended: whatever the registry holds and whatever the reporting and
    plotting code does, [transformation_validation] on string arguments
    returns a boolean and never raises: [True] with the state of the round
    trip when every step succeeded, and otherwise [False] after one record
    at critical severity, carrying the exception, has been appended to the
    log of the state in which the exception was raised. *)
Theorem transformation_validation_never_raises
        (report_and_plot : loc -> loc -> list value -> list value -> M unit)
        (src_grid_name value_name target_grid_name : string) (st : State) :
  exists (st' : State) (success : bool),
    transformation_validation report_and_plot (PyStr src_grid_name)
                              (PyStr value_name) (PyStr target_grid_name) st
    = (st', Return success)
    /\ match round_trip report_and_plot src_grid_name value_name
                        target_grid_name st with
       | (st1, Return ok) => ok = true /\ success = true /\ st' = st1
       | (st1, Raise err) =>
           success = false
           /\ heap st' = heap st1 /\ grids st' = grids st1
           /\ log st' = log st1 ++ [(CRITICAL, MsgAborted err)]
       end.
Proof.
  unfold transformation_validation, expect_str.
  unfold bind at 1, ret at 1. unfold bind at 1, ret at 1.
  unfold bind at 1, ret at 1. unfold try_except.
  destruct (round_trip report_and_plot src_grid_name value_name target_grid_name st)
    as [st1 [ok|err]] eqn:Hrt.
  - exists st1, ok. split; [reflexivity|].
    assert (ok = true) as ->; [|auto].
    revert Hrt. unfold round_trip. unfold bind.
    repeat match goal with
           | |- context [match ?m ?s with (_, _) => _ end] =>
               destruct (m s) as [? [?|?]]
           end; intros H; inversion H; reflexivity.
  - run. eexists _, false. split; [reflexivity|]. simpl. auto.
Qed.

(** ** Statistics *)

Lemma tally_items_spec (node_dict : list neighbor) (distances : list distance)
      (count : nat) :
  tally_items node_dict (distances, count)
  = (distances ++ map neighbor_distance (List.filter positive_distance node_dict),
     (count + length (List.filter (fun r => negb (positive_distance r)) node_dict))%nat).
Proof.
  revert distances count.
  induction node_dict as [|item rest IH]; intros distances count; simpl.
  - rewrite app_nil_r, Nat.add_0_r. reflexivity.
  - change (dist_gtb (neighbor_distance item) (DFin 0))
      with (positive_distance item).
    destruct (positive_distance item); simpl; rewrite IH.
    + rewrite <- app_assoc. reflexivity.
    + f_equal. lia.
Qed.

Lemma tally_nodes_spec (node_list : table) (distances : list distance)
      (count : nat) :
  tally_nodes node_list (distances, count)
  = (distances
     ++ map neighbor_distance (List.filter positive_distance (records node_list)),
     (count + length (List.filter falsy node_list)
      + length (List.filter (fun r => negb (positive_distance r))
                            (records node_list)))%nat).
Proof.
  revert distances count.
  induction node_list as [|[node [[|r rs]|]] rest IH]; intros distances count.
  - simpl. rewrite app_nil_r. f_equal. lia.
  - cbn [tally_nodes fst snd]. rewrite IH. unfold records. simpl. f_equal. lia.
  - cbn [tally_nodes fst snd]. rewrite tally_items_spec, IH.
    unfold records. cbn [flat_map snd].
    rewrite !List.filter_app, map_app, !length_app, <- app_assoc.
    cbn [List.filter falsy snd]. f_equal. lia.
  - cbn [tally_nodes fst snd]. rewrite IH. unfold records. simpl. f_equal. lia.
Qed.

(** The distance population of a table is made of exactly the strictly
    positive distances of its records, in order. *)
Lemma tally_population (node_list : table) :
  fst (tally node_list)
  = map neighbor_distance (List.filter positive_distance (records node_list)).
Proof.
  destruct node_list as [|item rest]; [reflexivity|].
  unfold tally. rewrite tally_nodes_spec. reflexivity.
Qed.

(** The count reported as lonely: the entries that are [None] or empty,
    plus every record whose distance is not strictly positive, and one for
    an empty table. *)
Lemma tally_lonely (node_list : table) :
  snd (tally node_list)
  = match node_list with
    | [] => 1%nat
    | _ => (length (List.filter falsy node_list)
            + length (List.filter (fun r => negb (positive_distance r))
                                  (records node_list)))%nat
    end.
Proof.
  destruct node_list as [|item rest]; [reflexivity|].
  unfold tally. rewrite tally_nodes_spec. reflexivity.
Qed.

Lemma read_only_ret {A : Type} (a : A) : read_only (ret a).
Proof. intros st. split; reflexivity. Qed.

Lemma read_only_raise {A : Type} (e : exn) : read_only (@raise A e).
Proof. intros st. split; reflexivity. Qed.

Lemma read_only_log (l : level) (m : message) : read_only (log_at l m).
Proof. intros st. split; reflexivity. Qed.

Lemma read_only_or_raise {A : Type} (o : option A) (e : exn) :
  read_only (or_raise o e).
Proof. destruct o; [apply read_only_ret | apply read_only_raise]. Qed.

Lemma read_only_lookup_grid (grid_name : string) (e : exn) :
  read_only (lookup_grid grid_name e).
Proof.
  intros st. unfold lookup_grid. run.
  destruct (grids st !! grid_name); split; reflexivity.
Qed.

Lemma read_only_deref (l : loc) : read_only (deref l).
Proof.
  intros st. unfold deref. run. destruct (heap st !! l); split; reflexivity.
Qed.

Lemma read_only_bind {A B : Type} (m : M A) (k : A -> M B) :
  read_only m -> (forall a, read_only (k a)) -> read_only (bind m k).
Proof.
  intros Hm Hk st. unfold bind. specialize (Hm st).
  destruct (m st) as [st' [a|e]]; simpl in *.
  - specialize (Hk a st'). destruct Hm, Hk. split; congruence.
  - exact Hm.
Qed.

Lemma read_only_for_each {A : Type} (xs : list A) (body : A -> M unit) :
  (forall x, read_only (body x)) -> read_only (for_each xs body).
Proof.
  intros Hbody. induction xs as [|x xs IH]; simpl.
  - apply read_only_ret.
  - apply read_only_bind; [apply Hbody | intros _; exact IH].
Qed.

Create HintDb read_only.

#[local] Hint Resolve read_only_ret read_only_raise read_only_log
  read_only_or_raise read_only_lookup_grid read_only_deref : read_only.

Ltac read_only_steps :=
  repeat first
    [ progress eauto 2 with read_only
    | apply read_only_bind; [| intros ?] ].

Lemma read_only_report_table (item : string * table) :
  read_only (report_table item).
Proof.
  unfold report_table. destruct (tally (snd item)) as [distances count].
  read_only_steps.
Qed.

(** Computing the statistics changes no table and no grid, whether it
    returns or raises. *)
Lemma nearest_neighbors_stat_read_only (grid_name : string) :
  read_only (nearest_neighbors_stat grid_name).
Proof.
  unfold nearest_neighbors_stat. read_only_steps.
  apply read_only_for_each, read_only_report_table.
Qed.

(** C8 (the code differs): on the table built for the worked example no
    entry is [None], yet the tally reports one lonely node, the record at
    distance zero; the population is made of the three strictly positive
    distances, and the statistics run logs that count and changes neither
    the registry nor the grids. *)
Theorem stat_counts_exact_match_as_lonely :
  exists t : table,
    table_of Example.matched_AB "A" "B" = Some t
    /\ List.filter (fun item => bool_decide (snd item = None)) t = []
    /\ tally t = ([DFin 1; DFin (1 # 2); DFin (1 # 2)], 1%nat)
    /\ (let r := nearest_neighbors_stat "B" Example.matched_AB in
        snd r = Return true
        /\ last (log (fst r)) = Some (INFO, MsgStatEnd)
        /\ In (INFO, MsgStatLonely 1) (log (fst r))
        /\ heap (fst r) = heap Example.matched_AB
        /\ grids (fst r) = grids Example.matched_AB).
Proof.
  eexists. split; [vm_compute; reflexivity|].
  split; [vm_compute; reflexivity|].
  split; [vm_compute; reflexivity|].
  cbv zeta. split; [vm_compute; reflexivity|].
  split; [vm_compute; reflexivity|].
  split.
  - vm_compute. repeat (try (left; reflexivity); right).
  - apply (nearest_neighbors_stat_read_only "B" Example.matched_AB).
Qed.

(** ** Dictionaries and the object store *)

Section DictFacts.
Context {K V : Type} `{EqDecision K}.

Lemma dict_get_set_eq (d : dict K V) (k : K) (v : V) :
  dict_get (dict_set d k v) k = Some v.
Proof.
  induction d as [|[k' v'] d IH]; simpl.
  - destruct (decide (k = k)); congruence.
  - destruct (decide (k' = k)) as [->|Hne]; simpl.
    + destruct (decide (k = k)); congruence.
    + destruct (decide (k' = k)); [congruence | exact IH].
Qed.

Lemma dict_get_set_ne (d : dict K V) (k k' : K) (v : V) :
  k <> k' -> dict_get (dict_set d k v) k' = dict_get d k'.
Proof.
  intros Hne. induction d as [|[k0 v0] d IH]; simpl.
  - destruct (decide (k = k')); congruence.
  - destruct (decide (k0 = k)) as [->|Hne0]; simpl.
    + destruct (decide (k = k')); congruence.
    + destruct (decide (k0 = k')); [reflexivity | exact IH].
Qed.

(** Assigning to an existing key keeps the keys and their order. *)
Lemma dict_keys_set_present (d : dict K V) (k : K) (v v0 : V) :
  dict_get d k = Some v0 -> dict_keys (dict_set d k v) = dict_keys d.
Proof.
  induction d as [|[k' v'] d IH]; simpl; [discriminate|].
  destruct (decide (k' = k)) as [->|Hne]; simpl; intros H.
  - reflexivity.
  - f_equal. apply IH, H.
Qed.

Lemma dict_get_Some_In (d : dict K V) (k : K) (v : V) :
  dict_get d k = Some v -> In k (dict_keys d).
Proof.
  induction d as [|[k' v'] d IH]; simpl; [discriminate|].
  destruct (decide (k' = k)) as [->|Hne]; auto.
Qed.
End DictFacts.

(** What one assignment to a node does to the store. *)
Lemma set_node_value_spec (l : loc) (node : node_id) (value_name : string)
      (v : value) (st : State) (g : Grid) (n : Node) :
  heap st !! l = Some g ->
  dict_get (nodes g) node = Some n ->
  set_node_value l node value_name v st
  = (set_heap (<[l := mkGrid (dict_set (nodes g) node (set_value n value_name v))]>
                 (heap st)) st,
     Return tt).
Proof.
  intros Hl Hn. unfold set_node_value. run. rewrite Hl. simpl. rewrite Hn.
  reflexivity.
Qed.

Lemma value_at_set_node_value (l : loc) (node : node_id) (value_name : string)
      (v : value) (st : State) (g : Grid) (n : Node) :
  heap st !! l = Some g ->
  dict_get (nodes g) node = Some n ->
  exists st',
    set_node_value l node value_name v st = (st', Return tt)
    /\ value_at st' l node value_name = Some v
    /\ grids st' = grids st.
Proof.
  intros Hl Hn. rewrite (set_node_value_spec _ _ _ _ _ _ _ Hl Hn).
  eexists. split; [reflexivity|]. split; [|reflexivity].
  unfold value_at. simpl. rewrite lookup_insert_eq. simpl.
  rewrite dict_get_set_eq. simpl. apply lookup_insert_eq.
Qed.

(** ** Lonely nodes *)

(** A row whose neighbours all exceed the cutoff, or an empty row, keeps
    nothing. *)
Lemma keep_neighbors_all_dropped (grid_1_nodes : list node_id)
      (distance_max : distance) (row : list (distance * Z)) (kept : list neighbor) :
  Forall (fun c => exceeds (fst c) distance_max = true
                   /\ is_Some (py_index grid_1_nodes (snd c - 1))) row ->
  keep_neighbors grid_1_nodes distance_max row kept = Return kept.
Proof.
  induction 1 as [|[d p] row [Hd [node Hp]] _ IH]; simpl in *.
  - reflexivity.
  - rewrite Hp, Hd. exact IH.
Qed.

(** For a result of rank two (k > 1), a target node whose neighbours are
    all dropped is recorded as [None] and counted. *)
Lemma build_entry_lonely (grid_1_nodes grid_2_nodes : list node_id)
      (grid_name_2 : string) (distance_max : distance)
      (rows : list (list (distance * Z))) (i : nat) (key : node_id)
      (row : list (distance * Z)) (transform_dict : table) (count : nat)
      (st : State) :
  nth_error grid_2_nodes i = Some key ->
  nth_error rows i = Some row ->
  Forall (fun c => exceeds (fst c) distance_max = true
                   /\ is_Some (py_index grid_1_nodes (snd c - 1))) row ->
  exists st',
    build_entry grid_1_nodes grid_2_nodes grid_name_2 distance_max (Arr2 rows) i
                (transform_dict, count) st
    = (st', Return (dict_set transform_dict key None, S count))
    /\ dict_get (dict_set transform_dict key None) key = Some None
    /\ same_store st' st.
Proof.
  intros Hkey Hrow Hdrop. unfold build_entry. run. rewrite Hkey. simpl.
  rewrite Hrow. simpl.
  rewrite (keep_neighbors_all_dropped _ _ _ [] Hdrop). simpl.
  eexists. split; [reflexivity|]. split; [apply dict_get_set_eq|].
  split; reflexivity.
Qed.

(** For a result of rank one (k = 1), a target node whose only neighbour
    is dropped is recorded as the empty list and is not counted. *)
Lemma build_entry_single_dropped (grid_1_nodes grid_2_nodes : list node_id)
      (grid_name_2 : string) (distance_max : distance)
      (cells : list (distance * Z)) (i : nat) (key node : node_id)
      (cell : distance * Z) (transform_dict : table) (count : nat) (st : State) :
  nth_error grid_2_nodes i = Some key ->
  nth_error cells i = Some cell ->
  py_index grid_1_nodes (snd cell - 1) = Some node ->
  exceeds (fst cell) distance_max = true ->
  build_entry grid_1_nodes grid_2_nodes grid_name_2 distance_max (Arr1 cells) i
              (transform_dict, count) st
  = (st, Return (dict_set transform_dict key (Some []), count)).
Proof.
  intros Hkey Hcell Hnode Hdrop. unfold build_entry. run. rewrite Hkey. simpl.
  rewrite Hcell. simpl. rewrite Hnode. simpl. rewrite Hdrop. reflexivity.
Qed.

(** An entry that is [None] or empty makes [transition] assign NaN. *)
Lemma transfer_node_lonely (src_values : dict node_id value) (target : loc)
      (value_name : string) (item : node_id * option (list neighbor))
      (st : State) (g : Grid) (n : Node) :
  falsy item = true ->
  heap st !! target = Some g ->
  dict_get (nodes g) (fst item) = Some n ->
  exists st',
    transfer_node src_values target value_name item st = (st', Return tt)
    /\ value_at st' target (fst item) value_name = Some VNaN
    /\ grids st' = grids st.
Proof.
  intros Hf Hl Hn.
  assert (transfer_node src_values target value_name item
          = set_node_value target (fst item) value_name VNaN) as ->.
  { unfold transfer_node, falsy in *. destruct (snd item) as [[|r rs]|];
      [reflexivity | discriminate | reflexivity]. }
  eapply value_at_set_node_value; eassumption.
Qed.

(** C3 (the code differs): with k = 1 and cutoff 1, the single target node
    of D, at distance 5 from both nodes of C, gets the empty list in the
    stored table, not [None], and no lonely node is counted: the build loop
    returns a count of 0 and no warning is logged.  With k = 2 the same
    node is recorded as [None], counted once and warned about.  In both
    cases [transition] assigns NaN to the node. *)
Theorem single_neighbor_cutoff_not_counted :
  query (mkKDTree (get_coordinates_array Example.grid_C))
        (get_coordinates_array Example.grid_D) 1 (DFin 1)
  = Arr1 [(DInf, 2)]
  /\ build_transform [7; 8] [5] "D" (DFin 1) (Arr1 [(DInf, 2)]) Example.registered_CD
     = (Example.registered_CD, Return ([(5, Some [])], O))
  /\ (let r := (find_nearest_neighbors "C" "D" 1 (DFin 1);;;
                transition "C" "v" "D") Example.registered_CD in
      snd r = Return true
      /\ table_of (fst r) "C" "D" = Some [(5, Some [])]
      /\ List.filter (fun r => bool_decide (fst r = WARNING)) (log (fst r)) = []
      /\ value_at (fst r) 1%nat 5 "v" = Some VNaN)
  /\ (let r := (find_nearest_neighbors "C" "D" 2 (DFin 1);;;
                transition "C" "v" "D") Example.registered_CD in
      snd r = Return true
      /\ table_of (fst r) "C" "D" = Some [(5, None)]
      /\ List.filter (fun r => bool_decide (fst r = WARNING)) (log (fst r))
         = [(WARNING, MsgLonelyNodes 1 "C" "D" (DFin 1))]
      /\ value_at (fst r) 1%nat 5 "v" = Some VNaN).
Proof. vm_compute. repeat split; reflexivity. Qed.

(** ** The frame of [transition] *)

Lemma grid_frame_refl (value_name : string) (touched : list node_id) (g : Grid) :
  grid_frame value_name touched g g.
Proof. split; [reflexivity|]. intros i n Hn. exists n. auto. Qed.

Lemma grid_frame_trans (value_name : string) (touched : list node_id)
      (g1 g2 g3 : Grid) :
  grid_frame value_name touched g1 g2 ->
  grid_frame value_name touched g2 g3 ->
  grid_frame value_name touched g1 g3.
Proof.
  intros [Hk12 H12] [Hk23 H23]. split; [congruence|].
  intros i n1 Hn1.
  destruct (H12 i n1 Hn1) as (n2 & Hn2 & Hc2 & Hf2 & Hu2).
  destruct (H23 i n2 Hn2) as (n3 & Hn3 & Hc3 & Hf3 & Hu3).
  exists n3. split; [exact Hn3|]. split; [congruence|]. split.
  - intros f Hf. rewrite Hf3, Hf2 by exact Hf. reflexivity.
  - intros Hi. rewrite Hu3, Hu2 by exact Hi. reflexivity.
Qed.

Lemma state_frame_refl (value_name : string) (target : loc)
      (touched : list node_id) (st : State) :
  state_frame value_name target touched st st.
Proof.
  split; [reflexivity|]. split; [reflexivity|].
  destruct (heap st !! target); [apply grid_frame_refl | exact I].
Qed.

Lemma state_frame_trans (value_name : string) (target : loc)
      (touched : list node_id) (s1 s2 s3 : State) :
  state_frame value_name target touched s1 s2 ->
  state_frame value_name target touched s2 s3 ->
  state_frame value_name target touched s1 s3.
Proof.
  intros (Hg12 & Hh12 & Ht12) (Hg23 & Hh23 & Ht23).
  split; [congruence|]. split.
  - intros l Hl. rewrite Hh23, Hh12 by exact Hl. reflexivity.
  - destruct (heap s1 !! target), (heap s2 !! target), (heap s3 !! target);
      try contradiction; try exact I.
    eapply grid_frame_trans; eassumption.
Qed.

(** A step that changes nothing but the log is within every frame. *)
Lemma state_frame_same_store (value_name : string) (target : loc)
      (touched : list node_id) (st st' : State) :
  same_store st' st -> state_frame value_name target touched st st'.
Proof.
  intros [Hh Hg]. split; [exact Hg|]. split.
  - intros l _. rewrite Hh. reflexivity.
  - rewrite Hh. destruct (heap st !! target); [apply grid_frame_refl | exact I].
Qed.

Lemma grid_frame_set (value_name : string) (touched : list node_id) (g : Grid)
      (node : node_id) (n : Node) (v : value) :
  dict_get (nodes g) node = Some n ->
  In node touched ->
  grid_frame value_name touched g
             (mkGrid (dict_set (nodes g) node (set_value n value_name v))).
Proof.
  intros Hn Hin. split.
  - simpl. eapply dict_keys_set_present, Hn.
  - intros i n0 Hn0. simpl. destruct (decide (node = i)) as [->|Hne].
    + rewrite dict_get_set_eq. eexists. split; [reflexivity|].
      assert (n0 = n) as -> by congruence.
      split; [reflexivity|]. split.
      * intros f Hf. simpl. apply lookup_insert_ne. congruence.
      * intros Hout. contradiction.
    + rewrite dict_get_set_ne by exact Hne. exists n0. auto.
Qed.

Lemma set_node_value_frame (value_name : string) (target : loc)
      (touched : list node_id) (node : node_id) (v : value) (st : State) :
  In node touched ->
  state_frame value_name target touched st
              (fst (set_node_value target node value_name v st)).
Proof.
  intros Hin. destruct (heap st !! target) as [g|] eqn:Hl.
  - destruct (dict_get (nodes g) node) as [n|] eqn:Hn.
    + rewrite (set_node_value_spec _ _ _ _ _ _ _ Hl Hn). simpl.
      split; [reflexivity|]. split.
      * intros l Hne. simpl. apply lookup_insert_ne. congruence.
      * simpl. rewrite Hl, lookup_insert_eq. apply grid_frame_set; assumption.
    + unfold set_node_value. run. rewrite Hl. simpl. rewrite Hn. simpl.
      apply state_frame_refl.
  - unfold set_node_value. run. rewrite Hl. simpl. apply state_frame_refl.
Qed.

Lemma transfer_node_frame (src_values : dict node_id value) (value_name : string)
      (target : loc) (touched : list node_id)
      (item : node_id * option (list neighbor)) (st : State) :
  In (fst item) touched ->
  state_frame value_name target touched st
              (fst (transfer_node src_values target value_name item st)).
Proof.
  intros Hin. unfold transfer_node.
  destruct (snd item) as [[|r rs]|]; try (apply set_node_value_frame, Hin).
  unfold of_outcome, bind.
  destruct (interpolate src_values (r :: rs)) as [x|e].
  - pose proof (set_node_value_frame value_name target touched (fst item) x st Hin)
      as H.
    destruct (set_node_value target (fst item) value_name x st) as [st' [[]|e]];
      exact H.
  - apply state_frame_refl.
Qed.

Lemma for_each_transfer_frame (src_values : dict node_id value)
      (value_name : string) (target : loc) (touched : list node_id) (t : table) :
  Forall (fun item => In (fst item) touched) t ->
  forall st,
    state_frame value_name target touched st
                (fst (for_each t (transfer_node src_values target value_name) st)).
Proof.
  induction 1 as [|item t Hin _ IH]; intros st; simpl.
  - apply state_frame_refl.
  - unfold bind.
    pose proof (transfer_node_frame src_values value_name target touched item st Hin)
      as Hstep.
    destruct (transfer_node src_values target value_name item st) as [st1 [[]|e]];
      simpl in Hstep.
    + eapply state_frame_trans; [exact Hstep | apply IH].
    + exact Hstep.
Qed.

Lemma Forall_In_keys (t : table) :
  Forall (fun item => In (fst item) (dict_keys t)) t.
Proof.
  apply List.Forall_forall. intros item Hin. unfold dict_keys.
  apply in_map, Hin.
Qed.

Lemma read_only_check_value_set_completeness (l : loc) (value_name : string) :
  read_only (check_value_set_completeness l value_name).
Proof.
  unfold check_value_set_completeness. read_only_steps.
  destruct (unset_nodes _ _); read_only_steps.
Qed.

(** Whatever its outcome, [transition] stays within the frame given by the
    table it uses. *)
Lemma transition_frame (src_grid_name value_name target_grid_name : string)
      (st : State) (target_grid : entry) (t : table) :
  grids st !! target_grid_name = Some target_grid ->
  dict_get (transform target_grid) src_grid_name = Some t ->
  state_frame value_name (grid target_grid) (dict_keys t) st
              (fst (transition src_grid_name value_name target_grid_name st)).
Proof.
  intros Htarget Ht. unfold transition. run.
  destruct (grids st !! src_grid_name) as [src_grid|]; simpl;
    [|apply state_frame_refl].
  rewrite Htarget. simpl.
  destruct (heap st !! grid src_grid) as [g|]; simpl; [|apply state_frame_refl].
  destruct (get_node_values g value_name) as [|sv0 svs]; [apply state_frame_refl|].
  rewrite Ht.
  pose proof (for_each_transfer_frame (sv0 :: svs) value_name (grid target_grid)
                (dict_keys t) t (Forall_In_keys t) st) as Hloop.
  destruct (for_each t (transfer_node (sv0 :: svs) (grid target_grid) value_name) st)
    as [st1 [[]|e]]; simpl in Hloop; [|exact Hloop].
  eapply state_frame_trans; [exact Hloop|].
  apply state_frame_same_store.
  pose proof (read_only_check_value_set_completeness (grid target_grid) value_name
                                                     st1) as [Hh Hg].
  destruct (check_value_set_completeness (grid target_grid) value_name st1)
    as [st2 [[]|e]]; split; simpl in *; assumption.
Qed.

(** A successful [transition] used a stored table. *)
Lemma transition_success_table (src_grid_name value_name target_grid_name : string)
      (st st' : State) (target_grid : entry) :
  grids st !! target_grid_name = Some target_grid ->
  transition src_grid_name value_name target_grid_name st = (st', Return true) ->
  exists t, dict_get (transform target_grid) src_grid_name = Some t.
Proof.
  intros Htarget. unfold transition. run.
  destruct (grids st !! src_grid_name) as [src_grid|]; simpl; [|discriminate].
  rewrite Htarget. simpl.
  destruct (heap st !! grid src_grid) as [g|]; simpl; [|discriminate].
  destruct (get_node_values g value_name) as [|sv0 svs]; [discriminate|].
  destruct (dict_get (transform target_grid) src_grid_name) as [t|];
    [eauto | discriminate].
Qed.

(** C10 as stated fails: the names "A" and "B" differ and [transition]
    succeeds, yet the values of field v on the source grid have changed,
    because both names are bound to one [Grid] object. *)
Lemma transition_overwrites_aliased_source :
  let r := transition "A" "v" "B" Example.aliased in
  "A" <> "B"
  /\ snd r = Return true
  /\ field_of Example.aliased "A" "v" = Some [(0, VNum 10); (1, VNum 20)]
  /\ field_of (fst r) "A" "v" = Some [(0, VNum 20); (1, VNum 20)]
  /\ field_of (fst r) "A" "v" <> field_of Example.aliased "A" "v".
Proof.
  cbv zeta. split; [discriminate|].
  split; [vm_compute; reflexivity|].
  split; [vm_compute; reflexivity|].
  split; [vm_compute; reflexivity|].
  vm_compute. discriminate.
Qed.

(** C10, amended: when the source and the target name are bound to
    different [Grid] objects, a successful [transition] leaves the registry
    (the registered names and every stored table) and every object other
    than the target grid as they were, in particular the source grid and
    its field values; in the target grid the node identifiers, their order
    and coordinates and all other fields are unchanged, and the nodes that
    are not keys of the table used are unchanged altogether. *)
Theorem transition_frame_distinct_objects
        (src_grid_name value_name target_grid_name : string) (st st' : State)
        (src_grid target_grid : entry) :
  grids st !! src_grid_name = Some src_grid ->
  grids st !! target_grid_name = Some target_grid ->
  grid src_grid <> grid target_grid ->
  transition src_grid_name value_name target_grid_name st = (st', Return true) ->
  exists t,
    dict_get (transform target_grid) src_grid_name = Some t
    /\ state_frame value_name (grid target_grid) (dict_keys t) st st'
    /\ heap st' !! grid src_grid = heap st !! grid src_grid
    /\ field_of st' src_grid_name value_name = field_of st src_grid_name value_name.
Proof.
  intros Hsrc Htarget Hdistinct Hrun.
  destruct (transition_success_table _ _ _ _ _ _ Htarget Hrun) as [t Ht].
  exists t. split; [exact Ht|].
  pose proof (transition_frame src_grid_name value_name target_grid_name st
                               target_grid t Htarget Ht) as Hframe.
  rewrite Hrun in Hframe. simpl in Hframe.
  split; [exact Hframe|].
  destruct Hframe as (Hg & Hh & _).
  assert (Hobj : heap st' !! grid src_grid = heap st !! grid src_grid)
    by (apply Hh; exact Hdistinct).
  split; [exact Hobj|].
  unfold field_of. rewrite Hg, Hsrc. simpl. rewrite Hobj. reflexivity.
Qed.

Lemma transition_frame_distinct_objects_witness :
  exists t,
    dict_get
      (transform
         (mkEntry [("A", [(0, Some [mkNeighbor 2 (DFin 0); mkNeighbor 0 (DFin 1)]);
                          (1, Some [mkNeighbor 0 (DFin (1 # 2));
                                    mkNeighbor 1 (DFin (1 # 2))])])] 1%nat)) "A"
    = Some t
    /\ state_frame "v" 1%nat (dict_keys t) Example.matched_AB
                   (fst (transition "A" "v" "B" Example.matched_AB))
    /\ heap (fst (transition "A" "v" "B" Example.matched_AB)) !! 0%nat
       = heap Example.matched_AB !! 0%nat
    /\ field_of (fst (transition "A" "v" "B" Example.matched_AB)) "A" "v"
       = field_of Example.matched_AB "A" "v".
Proof.
  apply (transition_frame_distinct_objects
           "A" "v" "B" Example.matched_AB
           (fst (transition "A" "v" "B" Example.matched_AB))
           (mkEntry [] 0%nat)
           (mkEntry [("A", [(0, Some [mkNeighbor 2 (DFin 0); mkNeighbor 0 (DFin 1)]);
                            (1, Some [mkNeighbor 0 (DFin (1 # 2));
                                      mkNeighbor 1 (DFin (1 # 2))])])] 1%nat)).
  - vm_compute. reflexivity.
  - vm_compute. reflexivity.
  - simpl. lia.
  - vm_compute. reflexivity.
Defined.

(** ** Inverse-distance weighting *)

Lemma positive_distance_cases (r : neighbor) :
  positive_distance r = true ->
  neighbor_distance r = DInf
  \/ exists d, neighbor_distance r = DFin d /\ (0 < d)%Q.
Proof.
  unfold positive_distance. destruct (neighbor_distance r) as [d|]; simpl.
  - intros H. right. exists d. split; [reflexivity|].
    apply Qnot_le_lt. intros Hle. apply Qle_bool_iff in Hle.
    rewrite Hle in H. discriminate.
  - auto.
Qed.

Lemma positive_not_zero (r : neighbor) :
  positive_distance r = true -> dist_is_zero (neighbor_distance r) = false.
Proof.
  intros H. destruct (positive_distance_cases r H) as [->|(d & -> & Hd)]; simpl.
  - reflexivity.
  - destruct (Qeq_bool d 0) eqn:E; [|reflexivity].
    apply Qeq_bool_iff in E. rewrite E in Hd. exfalso. revert Hd. apply Qlt_irrefl.
Qed.

Lemma weight_nonneg (r : neighbor) :
  positive_distance r = true -> (0 <= weight r)%Q.
Proof.
  intros H. unfold weight.
  destruct (positive_distance_cases r H) as [->|(d & -> & Hd)].
  - apply Qle_refl.
  - apply Qlt_le_weak. unfold Qdiv. rewrite Qmult_1_l.
    apply Qinv_lt_0_compat, Hd.
Qed.

Lemma weight_sum_nonneg (items : list neighbor) :
  Forall (fun r => positive_distance r = true) items ->
  (0 <= weight_sum items)%Q.
Proof.
  induction 1 as [|r items Hr _ IH]; unfold weight_sum; simpl.
  - apply Qle_refl.
  - pose proof (weight_nonneg r Hr). fold (weight_sum items). lra.
Qed.

Lemma weight_sum_pos (items : list neighbor) :
  Forall (fun r => positive_distance r = true) items ->
  Exists (fun r => dist_is_finite (neighbor_distance r) = true) items ->
  (0 < weight_sum items)%Q.
Proof.
  intros Hpos Hfin. induction Hfin as [r items Hr | r items _ IH];
    inversion Hpos as [|? ? Hr' Hpos']; subst; unfold weight_sum; simpl;
    fold (weight_sum items).
  - pose proof (weight_sum_nonneg items Hpos').
    assert (0 < weight r)%Q; [|lra].
    unfold weight. destruct (positive_distance_cases r Hr') as [E|(d & E & Hd)];
      rewrite E in *; [discriminate|].
    unfold Qdiv. rewrite Qmult_1_l. apply Qinv_lt_0_compat, Hd.
  - pose proof (weight_nonneg r Hr'). specialize (IH Hpos'). lra.
Qed.

(** The loop over records at strictly positive distance accumulates the
    two sums and leaves [result] alone. *)
Lemma scan_neighbors_weighted (src_values : dict node_id value)
      (items : list neighbor) (vals : list Q) :
  Forall2 (fun r x => dict_get src_values (node_number r) = Some (VNum x))
          items vals ->
  Forall (fun r => positive_distance r = true) items ->
  forall (sum_distance factor : Q) (result : value),
  exists sum_distance' factor',
    scan_neighbors src_values items sum_distance (VNum factor) result
    = Return (sum_distance', VNum factor', result)
    /\ (sum_distance' == sum_distance + weight_sum items)%Q
    /\ (factor' == factor + weighted_sum items vals)%Q.
Proof.
  intros Hvals. induction Hvals as [|r x items vals Hx _ IH];
    intros Hpos sum_distance factor result.
  - exists sum_distance, factor. simpl. split; [reflexivity|].
    unfold weight_sum, weighted_sum. simpl. split; ring.
  - inversion Hpos as [|? ? Hr Hpos']; subst. simpl.
    rewrite Hx, (positive_not_zero r Hr). simpl.
    destruct (IH Hpos' (sum_distance + dist_recip (neighbor_distance r))%Q
                 (factor + match neighbor_distance r with
                           | DFin q => x * 1 / q
                           | DInf => 0
                           end)%Q result)
      as (s' & f' & -> & Hs & Hf).
    exists s', f'. split; [reflexivity|].
    unfold weight_sum, weighted_sum in *. simpl. unfold weight at 1.
    destruct (neighbor_distance r) as [d|]; simpl in *.
    + split; [rewrite Hs; ring | rewrite Hf; unfold Qdiv; ring].
    + split; [rewrite Hs; ring | rewrite Hf; ring].
Qed.

(** Bounds on the weighted sum by the weight sum. *)
Lemma weighted_sum_bounds (src_values : dict node_id value)
      (items : list neighbor) (vals : list Q) (lo hi : Q) :
  Forall2 (fun r x => dict_get src_values (node_number r) = Some (VNum x))
          items vals ->
  Forall (fun r => positive_distance r = true) items ->
  Forall (fun x => (lo <= x)%Q) vals ->
  Forall (fun x => (x <= hi)%Q) vals ->
  (lo * weight_sum items <= weighted_sum items vals
   /\ weighted_sum items vals <= hi * weight_sum items)%Q.
Proof.
  intros Hvals. induction Hvals as [|r x items vals Hx _ IH];
    intros Hpos Hlo Hhi; unfold weight_sum, weighted_sum; simpl.
  - split; rewrite Qmult_0_r; apply Qle_refl.
  - inversion Hpos as [|? ? Hr Hpos']; subst.
    inversion Hlo as [|? ? Hlox Hlo']; subst.
    inversion Hhi as [|? ? Hhix Hhi']; subst.
    destruct (IH Hpos' Hlo' Hhi') as [IHlo IHhi].
    fold (weight_sum items). fold (weighted_sum items vals).
    pose proof (weight_nonneg r Hr) as Hw. unfold weight in *.
    destruct (neighbor_distance r) as [d|].
    + assert (H1 : (lo * (1 / d) <= x * (1 / d))%Q)
        by (apply Qmult_le_compat_r; assumption).
      assert (H2 : (x * (1 / d) <= hi * (1 / d))%Q)
        by (apply Qmult_le_compat_r; assumption).
      assert (E : (x / d == x * (1 / d))%Q) by (unfold Qdiv; ring).
      rewrite E, !Qmult_plus_distr_r. split; lra.
    + rewrite !Qmult_plus_distr_r, !Qmult_0_r. split; lra.
Qed.

(** The value computed from records at strictly positive distance, one of
    them finite, is the inverse-distance-weighted average. *)
Lemma interpolate_weighted (src_values : dict node_id value)
      (items : list neighbor) (vals : list Q) :
  Forall2 (fun r x => dict_get src_values (node_number r) = Some (VNum x))
          items vals ->
  Forall (fun r => positive_distance r = true) items ->
  Exists (fun r => dist_is_finite (neighbor_distance r) = true) items ->
  exists q,
    interpolate src_values items = Return (VNum q)
    /\ (q == weighted_sum items vals / weight_sum items)%Q.
Proof.
  intros Hvals Hpos Hfin. unfold interpolate.
  destruct (scan_neighbors_weighted src_values items vals Hvals Hpos 0%Q 0%Q VNone)
    as (s' & f' & -> & Hs & Hf).
  pose proof (weight_sum_pos items Hpos Hfin) as HW.
  rewrite Qplus_0_l in Hs, Hf.
  assert (Hnz : Qeq_bool s' 0 = false).
  { destruct (Qeq_bool s' 0) eqn:E; [|reflexivity].
    apply Qeq_bool_iff in E. rewrite E in Hs. rewrite <- Hs in HW.
    exfalso. revert HW. apply Qlt_irrefl. }
  rewrite Hnz. simpl. eexists. split; [reflexivity|].
  rewrite Qred_correct, Hs, Hf. reflexivity.
Qed.

(** In exact arithmetic the inverse-distance-weighted average is a convex
    combination: for a list of records at strictly positive distance, one
    of them finite, from source nodes with numeric values, the value
    computed over the rationals is (sum of value/distance) / (sum of
    1/distance), and it is not below any lower bound and not above any
    upper bound of the neighbour values. *)
Lemma exact_average_is_convex
      (src_values : dict node_id value) (items : list neighbor) (vals : list Q) :
  Forall2 (fun r x => dict_get src_values (node_number r) = Some (VNum x))
          items vals ->
  Forall (fun r => positive_distance r = true) items ->
  Exists (fun r => dist_is_finite (neighbor_distance r) = true) items ->
  exists q,
    interpolate src_values items = Return (VNum q)
    /\ (q == weighted_sum items vals / weight_sum items)%Q
    /\ (forall lo hi, Forall (fun x => (lo <= x)%Q) vals ->
                      Forall (fun x => (x <= hi)%Q) vals ->
                      (lo <= q /\ q <= hi)%Q).
Proof.
  intros Hvals Hpos Hfin.
  destruct (interpolate_weighted src_values items vals Hvals Hpos Hfin)
    as (q & Hi & Hq).
  pose proof (weight_sum_pos items Hpos Hfin) as HW.
  exists q. split; [exact Hi|]. split; [exact Hq|].
  intros lo hi Hlo Hhi.
  destruct (weighted_sum_bounds src_values items vals lo hi Hvals Hpos Hlo Hhi)
    as [H1 H2].
  rewrite Hq. split.
  - apply Qle_shift_div_l; assumption.
  - apply Qle_shift_div_r; assumption.
Qed.

(** ** The values held after [transition] *)

Lemma transfer_node_as_result (src_values : dict node_id value) (target : loc)
      (value_name : string) (item : node_id * option (list neighbor)) (st : State) :
  transfer_node src_values target value_name item st
  = (x <- of_outcome (node_result src_values item);;
     set_node_value target (fst item) value_name x) st.
Proof.
  unfold transfer_node, node_result.
  destruct (snd item) as [[|r rs]|]; reflexivity.
Qed.

Lemma dict_get_None_not_In {K V : Type} `{EqDecision K} (d : dict K V) (k : K) :
  dict_get d k = None <-> ~ In k (dict_keys d).
Proof.
  induction d as [|[k' v'] d IH]; simpl.
  - tauto.
  - destruct (decide (k' = k)) as [->|Hne].
    + split; [discriminate | tauto].
    + rewrite IH. tauto.
Qed.

(** Within a frame, the fields of the nodes outside it read the same. *)
Lemma state_frame_value_at (value_name : string) (target : loc)
      (touched : list node_id) (st st' : State) (i : node_id) (f : string) :
  state_frame value_name target touched st st' ->
  ~ In i touched ->
  value_at st' target i f = value_at st target i f.
Proof.
  intros (_ & _ & Ht) Hout. unfold value_at.
  destruct (heap st !! target) as [g|], (heap st' !! target) as [g'|];
    try contradiction; [|reflexivity].
  simpl. destruct Ht as [Hkeys Hnodes].
  destruct (dict_get (nodes g) i) as [n|] eqn:Hn.
  - destruct (Hnodes i n Hn) as (n' & -> & _ & _ & Hsame).
    rewrite (Hsame Hout). reflexivity.
  - apply dict_get_None_not_In in Hn. rewrite <- Hkeys in Hn.
    apply dict_get_None_not_In in Hn. rewrite Hn. reflexivity.
Qed.

(** After the loop of [transition] has run to its end over a table without
    duplicate keys, every key holds the value computed for its item. *)
Lemma for_each_transfer_assigns (src_values : dict node_id value) (target : loc)
      (value_name : string) (t : table) :
  List.NoDup (dict_keys t) ->
  forall st st',
    for_each t (transfer_node src_values target value_name) st = (st', Return tt) ->
    forall item, In item t ->
      exists x, node_result src_values item = Return x
                /\ value_at st' target (fst item) value_name = Some x.
Proof.
  induction t as [|head t IH]; intros Hnd st st' Hrun item Hin; [contradiction|].
  simpl in Hnd. apply NoDup_cons_iff in Hnd as [Hfresh Hnd].
  simpl in Hrun. unfold bind in Hrun.
  destruct (transfer_node src_values target value_name head st)
    as [st1 [[]|e]] eqn:Hhead; [|discriminate].
  destruct Hin as [<-|Hin]; [|eapply IH; eassumption].
  rewrite transfer_node_as_result in Hhead. unfold bind, of_outcome in Hhead.
  destruct (node_result src_values head) as [x|e]; [|discriminate].
  exists x. split; [reflexivity|].
  pose proof (for_each_transfer_frame src_values value_name target (dict_keys t) t
                                      (Forall_In_keys t) st1) as Hframe.
  rewrite Hrun in Hframe. simpl in Hframe.
  rewrite (state_frame_value_at _ _ _ _ _ _ value_name Hframe Hfresh).
  unfold set_node_value in Hhead. run.
  destruct (heap st !! target) as [g|] eqn:Hl; simpl in Hhead; [|discriminate].
  destruct (dict_get (nodes g) (fst head)) as [n|] eqn:Hn; simpl in Hhead;
    [|discriminate].
  inversion Hhead; subst st1. unfold value_at. simpl.
  rewrite lookup_insert_eq. simpl. rewrite dict_get_set_eq. simpl.
  apply lookup_insert_eq.
Qed.

(** After a successful [transition] every target node that is a key of the
    table holds the value computed for it from the source values read at
    the start: NaN for an entry that is [None] or empty, the interpolated
    value otherwise. *)
Lemma transition_assigns (src_grid_name value_name target_grid_name : string)
      (st st' : State) (src_grid target_grid : entry) (g : Grid) (t : table) :
  grids st !! src_grid_name = Some src_grid ->
  grids st !! target_grid_name = Some target_grid ->
  heap st !! grid src_grid = Some g ->
  dict_get (transform target_grid) src_grid_name = Some t ->
  List.NoDup (dict_keys t) ->
  transition src_grid_name value_name target_grid_name st = (st', Return true) ->
  forall item, In item t ->
    exists x, node_result (get_node_values g value_name) item = Return x
              /\ value_at st' (grid target_grid) (fst item) value_name = Some x.
Proof.
  intros Hsrc Htarget Hg Ht Hnd Hrun item Hin. revert Hrun.
  unfold transition. run. rewrite Hsrc. simpl. rewrite Htarget. simpl.
  rewrite Hg. simpl.
  destruct (get_node_values g value_name) as [|sv0 svs] eqn:Hsv; [discriminate|].
  rewrite Ht.
  destruct (for_each t (transfer_node (sv0 :: svs) (grid target_grid) value_name) st)
    as [st1 [[]|e]] eqn:Hloop; [|discriminate].
  destruct (for_each_transfer_assigns (sv0 :: svs) (grid target_grid) value_name t
              Hnd st st1 Hloop item Hin) as (x & Hx & Hval).
  pose proof (read_only_check_value_set_completeness (grid target_grid) value_name
                                                     st1) as [Hh _].
  destruct (check_value_set_completeness (grid target_grid) value_name st1)
    as [st2 [[]|e]]; [|discriminate].
  intros Hrun. inversion Hrun; subst st'. exists x. split; [exact Hx|].
  unfold value_at in *. simpl in *. rewrite Hh. exact Hval.
Qed.

(** ** Exact matches *)

(** The scan of a list leaves at its first record at distance zero, with
    the value of that record's source node as result and the weight sum
    reset to zero. *)
Lemma scan_neighbors_first_zero (src_values : dict node_id value)
      (pre post : list neighbor) (z : neighbor) (x : value) :
  Forall (fun r => dist_is_zero (neighbor_distance r) = false) pre ->
  dist_is_zero (neighbor_distance z) = true ->
  dict_get src_values (node_number z) = Some x ->
  forall (sum_distance : Q) (factor result : value)
         (sum_distance' : Q) (factor' result' : value),
    scan_neighbors src_values (pre ++ z :: post) sum_distance factor result
    = Return (sum_distance', factor', result') ->
    sum_distance' = 0%Q /\ result' = x.
Proof.
  intros Hpre Hz Hx.
  induction Hpre as [|r pre Hr _ IH];
    intros sum_distance factor result sum_distance' factor' result'; simpl.
  - rewrite Hx, Hz. intros H. inversion H. auto.
  - destruct (dict_get src_values (node_number r)) as [y|]; [|discriminate].
    rewrite Hr. destruct (weighted y (neighbor_distance r)) as [w|e];
      [apply IH | discriminate].
Qed.

Lemma interpolate_first_zero (src_values : dict node_id value)
      (pre post : list neighbor) (z : neighbor) (x y : value) :
  Forall (fun r => dist_is_zero (neighbor_distance r) = false) pre ->
  dist_is_zero (neighbor_distance z) = true ->
  dict_get src_values (node_number z) = Some x ->
  interpolate src_values (pre ++ z :: post) = Return y ->
  y = x.
Proof.
  intros Hpre Hz Hx. unfold interpolate.
  destruct (scan_neighbors src_values (pre ++ z :: post) 0%Q (VNum 0) VNone)
    as [[[s f] r]|e] eqn:Hscan; [|discriminate].
  destruct (scan_neighbors_first_zero src_values pre post z x Hpre Hz Hx
              _ _ _ _ _ _ Hscan) as [-> ->].
  simpl. intros H. inversion H. reflexivity.
Qed.

(** C4: when [transition] returns normally and the list stored for a
    target node holds a record at distance exactly zero, the node then
    holds the value that the source node of the first such record had when
    [transition] was called, whatever the other records of the list and
    their values are: no weighting is applied. *)
Theorem exact_match_short_circuit
        (src_grid_name value_name target_grid_name : string) (st st' : State)
        (src_grid target_grid : entry) (g : Grid) (t : table)
        (node : node_id) (pre post : list neighbor) (z : neighbor) (x : value) :
  grids st !! src_grid_name = Some src_grid ->
  grids st !! target_grid_name = Some target_grid ->
  heap st !! grid src_grid = Some g ->
  dict_get (transform target_grid) src_grid_name = Some t ->
  List.NoDup (dict_keys t) ->
  In (node, Some (pre ++ z :: post)) t ->
  Forall (fun r => dist_is_zero (neighbor_distance r) = false) pre ->
  dist_is_zero (neighbor_distance z) = true ->
  dict_get (get_node_values g value_name) (node_number z) = Some x ->
  transition src_grid_name value_name target_grid_name st = (st', Return true) ->
  value_at st' (grid target_grid) node value_name = Some x.
Proof.
  intros Hsrc Htarget Hg Ht Hnd Hin Hpre Hz Hx Hrun.
  destruct (transition_assigns _ _ _ _ _ _ _ _ _ Hsrc Htarget Hg Ht Hnd Hrun
                               _ Hin) as (y & Hy & Hval).
  simpl in Hval. rewrite Hval. f_equal.
  unfold node_result in Hy. simpl in Hy.
  destruct (pre ++ z :: post) as [|r rs] eqn:Hlist;
    [destruct pre; discriminate|].
  rewrite <- Hlist in Hy.
  eapply interpolate_first_zero; eassumption.
Qed.

Lemma exact_match_short_circuit_witness :
  value_at (fst (transition "A" "v" "B" Example.matched_AB)) 1%nat 0 "v"
  = Some (VNum 30).
Proof.
  apply (exact_match_short_circuit
           "A" "v" "B" Example.matched_AB
           (fst (transition "A" "v" "B" Example.matched_AB))
           (mkEntry [] 0%nat)
           (mkEntry [("A", [(0, Some [mkNeighbor 2 (DFin 0); mkNeighbor 0 (DFin 1)]);
                            (1, Some [mkNeighbor 0 (DFin (1 # 2));
                                      mkNeighbor 1 (DFin (1 # 2))])])] 1%nat)
           Example.grid_A
           [(0, Some [mkNeighbor 2 (DFin 0); mkNeighbor 0 (DFin 1)]);
            (1, Some [mkNeighbor 0 (DFin (1 # 2)); mkNeighbor 1 (DFin (1 # 2))])]
           0 [] [mkNeighbor 0 (DFin 1)] (mkNeighbor 2 (DFin 0)) (VNum 30)).
  - vm_compute. reflexivity.
  - vm_compute. reflexivity.
  - reflexivity.
  - reflexivity.
  - simpl. repeat constructor; simpl; intuition discriminate.
  - simpl. left. reflexivity.
  - constructor.
  - reflexivity.
  - reflexivity.
  - vm_compute. reflexivity.
Defined.

(** The table built from a query has no duplicate keys. *)
Lemma dict_set_keys_NoDup {K V : Type} `{EqDecision K} (d : dict K V) (k : K)
      (v : V) :
  List.NoDup (dict_keys d) -> List.NoDup (dict_keys (dict_set d k v)).
Proof.
  induction d as [|[k' v'] d IH]; simpl; intros Hnd.
  - constructor; [simpl; tauto | constructor].
  - apply NoDup_cons_iff in Hnd as [Hfresh Hnd].
    destruct (decide (k' = k)) as [->|Hne]; simpl.
    + apply NoDup_cons_iff. auto.
    + apply NoDup_cons_iff. split; [|auto].
      intros Hin. apply Hfresh. clear -Hin Hne.
      induction d as [|[k0 v0] d IHd]; simpl in *.
      * destruct Hin as [->|[]]. congruence.
      * destruct (decide (k0 = k)) as [->|Hne0]; simpl in *; tauto.
Qed.

Lemma build_loop_keys_NoDup (grid_1_nodes grid_2_nodes : list node_id)
      (grid_name_2 : string) (distance_max : distance)
      (dist : ndarray (distance * Z)) (range : list nat) :
  forall (vars vars' : table * nat) (st st' : State),
    List.NoDup (dict_keys (fst vars)) ->
    build_loop grid_1_nodes grid_2_nodes grid_name_2 distance_max dist range
               vars st = (st', Return vars') ->
    List.NoDup (dict_keys (fst vars')).
Proof.
  induction range as [|i range IH]; intros vars vars' st st' Hnd; simpl.
  - run. intros H. inversion H; subst. exact Hnd.
  - unfold bind at 1.
    destruct (build_entry grid_1_nodes grid_2_nodes grid_name_2 distance_max dist
                          i vars st) as [st1 [vars1|e]] eqn:Hstep; [|discriminate].
    apply IH. revert Hstep. unfold build_entry.
    destruct vars as [transform_dict count]. simpl in Hnd. run.
    destruct (nth_error grid_2_nodes i) as [key|]; simpl; [|discriminate].
    destruct dist as [cells|rows].
    + destruct (nth_error cells i) as [cell|]; simpl; [|discriminate].
      destruct (py_index grid_1_nodes (snd cell - 1)); simpl; [|discriminate].
      destruct (exceeds (fst cell) distance_max); intros H; inversion H; subst;
        simpl; apply dict_set_keys_NoDup, Hnd.
    + destruct (nth_error rows i) as [row|]; simpl; [|discriminate].
      destruct (keep_neighbors grid_1_nodes distance_max row []) as [kept|];
        [|discriminate].
      destruct (length kept =? 0)%nat; intros H; inversion H; subst;
        simpl; apply dict_set_keys_NoDup, Hnd.
Qed.

(** ** Bounding boxes *)

Lemma Qminb_le_l (a b : Q) : (Qminb a b <= a)%Q.
Proof.
  unfold Qminb. destruct (Qle_bool a b) eqn:E; [apply Qle_refl|].
  apply Qlt_le_weak, Qnot_le_lt. intros H. apply Qle_bool_iff in H. congruence.
Qed.

Lemma Qminb_le_r (a b : Q) : (Qminb a b <= b)%Q.
Proof.
  unfold Qminb. destruct (Qle_bool a b) eqn:E; [|apply Qle_refl].
  apply Qle_bool_iff, E.
Qed.

Lemma Qmaxb_ge_l (a b : Q) : (a <= Qmaxb a b)%Q.
Proof.
  unfold Qmaxb. destruct (Qle_bool a b) eqn:E; [|apply Qle_refl].
  apply Qle_bool_iff, E.
Qed.

Lemma Qmaxb_ge_r (a b : Q) : (b <= Qmaxb a b)%Q.
Proof.
  unfold Qmaxb. destruct (Qle_bool a b) eqn:E; [apply Qle_refl|].
  apply Qlt_le_weak, Qnot_le_lt. intros H. apply Qle_bool_iff in H. congruence.
Qed.

(** [amin] is below every point of the array, coordinate by coordinate. *)
Lemma amin_lower_bound (a : list point) (lo p : point) :
  amin a = Some lo -> In p a ->
  (px lo <= px p /\ py lo <= py p /\ pz lo <= pz p)%Q.
Proof.
  destruct a as [|p0 ps]; [discriminate|]. simpl. intros H Hin.
  inversion H; subst lo; clear H.
  assert (Hfold : forall ps m,
             let r := fold_left
                        (fun m q => Point (Qminb (px m) (px q)) (Qminb (py m) (py q))
                                          (Qminb (pz m) (pz q))) ps m in
             (px r <= px m /\ py r <= py m /\ pz r <= pz m)%Q
             /\ forall q, In q ps ->
                          (px r <= px q /\ py r <= py q /\ pz r <= pz q)%Q).
  { clear. induction ps as [|q0 ps IH]; intros m; simpl.
    - split; [repeat split; apply Qle_refl | contradiction].
    - specialize (IH (Point (Qminb (px m) (px q0)) (Qminb (py m) (py q0))
                            (Qminb (pz m) (pz q0)))).
      simpl in IH. destruct IH as [(Hx & Hy & Hz) Hrest].
      split.
      + repeat split; (eapply Qle_trans; [eassumption | apply Qminb_le_l]).
      + intros q [<-|Hq]; [|apply Hrest, Hq].
        repeat split; (eapply Qle_trans; [eassumption | apply Qminb_le_r]). }
  destruct (Hfold ps p0) as [Hm Hrest].
  destruct Hin as [<-|Hin]; [exact Hm | apply Hrest, Hin].
Qed.

(** [amax] is above every point of the array, coordinate by coordinate. *)
Lemma amax_upper_bound (a : list point) (hi p : point) :
  amax a = Some hi -> In p a ->
  (px p <= px hi /\ py p <= py hi /\ pz p <= pz hi)%Q.
Proof.
  destruct a as [|p0 ps]; [discriminate|]. simpl. intros H Hin.
  inversion H; subst hi; clear H.
  assert (Hfold : forall ps m,
             let r := fold_left
                        (fun m q => Point (Qmaxb (px m) (px q)) (Qmaxb (py m) (py q))
                                          (Qmaxb (pz m) (pz q))) ps m in
             (px m <= px r /\ py m <= py r /\ pz m <= pz r)%Q
             /\ forall q, In q ps ->
                          (px q <= px r /\ py q <= py r /\ pz q <= pz r)%Q).
  { clear. induction ps as [|q0 ps IH]; intros m; simpl.
    - split; [repeat split; apply Qle_refl | contradiction].
    - specialize (IH (Point (Qmaxb (px m) (px q0)) (Qmaxb (py m) (py q0))
                            (Qmaxb (pz m) (pz q0)))).
      simpl in IH. destruct IH as [(Hx & Hy & Hz) Hrest].
      split.
      + repeat split; (eapply Qle_trans; [apply Qmaxb_ge_l | eassumption]).
      + intros q [<-|Hq]; [|apply Hrest, Hq].
        repeat split; (eapply Qle_trans; [apply Qmaxb_ge_r | eassumption]). }
  destruct (Hfold ps p0) as [Hm Hrest].
  destruct Hin as [<-|Hin]; [exact Hm | apply Hrest, Hin].
Qed.

(** ** Stored lists hold a finite distance *)

Lemma keep_neighbors_distances (grid_1_nodes : list node_id)
      (distance_max : distance) (row : list (distance * Z)) :
  forall kept out,
    keep_neighbors grid_1_nodes distance_max row kept = Return out ->
    map neighbor_distance out
    = map neighbor_distance kept
      ++ map fst (List.filter (fun c => negb (exceeds (fst c) distance_max)) row).
Proof.
  induction row as [|[d p] row IH]; intros kept out; simpl.
  - intros H. inversion H; subst. rewrite app_nil_r. reflexivity.
  - destruct (py_index grid_1_nodes (p - 1)) as [node|]; [|discriminate].
    destruct (exceeds d distance_max); simpl; intros H.
    + apply IH, H.
    + rewrite (IH _ _ H), map_app, <- app_assoc. reflexivity.
Qed.

Lemma insert_by_dist_not_nil (c : Q * Z) (l : list (Q * Z)) :
  insert_by_dist c l <> [].
Proof. destruct l as [|c' l]; simpl; [|destruct (Qle_bool _ _)]; discriminate. Qed.

Lemma sort_by_dist_not_nil (l : list (Q * Z)) : l <> [] -> sort_by_dist l <> [].
Proof.
  unfold sort_by_dist. intros Hne.
  destruct (rev l) as [|c r] eqn:E.
  - apply (f_equal (@rev _)) in E. rewrite rev_involutive in E. contradiction.
  - simpl. apply insert_by_dist_not_nil.
Qed.

(** Without a search bound, the nearest neighbour in a non-empty tree is at
    a finite distance. *)
Lemma query_point_starts_finite (tree : KDTree) (k : positive) (x : point) :
  data tree <> [] ->
  exists d p rest, query_point tree k DInf x = (DFin d, p) :: rest.
Proof.
  intros Hne. unfold query_point.
  set (candidates := combine (map (sq_dist x) (data tree))
                             (map Z.of_nat (seq 0 (length (data tree))))).
  assert (Hc : candidates <> []).
  { unfold candidates. destruct (data tree) as [|p0 ps]; [contradiction|].
    simpl. discriminate. }
  assert (Hall : List.filter (fun c : Q * Z => within_bound (fst c) DInf)
                             (sort_by_dist candidates)
                 = sort_by_dist candidates).
  { generalize (sort_by_dist candidates). intros l.
    induction l as [|c l IH]; simpl; [reflexivity | f_equal; exact IH]. }
  rewrite Hall. pose proof (sort_by_dist_not_nil candidates Hc) as Hs.
  destruct (sort_by_dist candidates) as [|c l]; [contradiction|].
  destruct (Pos.to_nat k) as [|m] eqn:Ek; [lia|].
  simpl. eauto.
Qed.

(** Every non-empty list kept from a row of a query on a non-empty tree,
    queried with the cutoff as search bound, holds a finite distance. *)
Lemma kept_neighbors_have_finite (grid_1_nodes : list node_id) (tree : KDTree)
      (k : positive) (distance_max : distance) (x : point) (out : list neighbor) :
  data tree <> [] ->
  keep_neighbors grid_1_nodes distance_max (query_point tree k distance_max x) []
  = Return out ->
  out <> [] ->
  Exists (fun r => dist_is_finite (neighbor_distance r) = true) out.
Proof.
  intros Hne Hkeep Hout.
  pose proof (keep_neighbors_distances _ _ _ _ _ Hkeep) as Hd. simpl in Hd.
  destruct out as [|r out]; [contradiction|]. apply Exists_cons_hd.
  destruct distance_max as [b|].
  - destruct (List.filter _ _) as [|c l] eqn:Hf; [discriminate|].
    simpl in Hd. injection Hd as Hr _. rewrite Hr.
    assert (Hc : In c (c :: l)) by (left; reflexivity).
    rewrite <- Hf in Hc. apply List.filter_In in Hc as [_ Hc].
    destruct (fst c) as [d|]; [reflexivity | discriminate].
  - destruct (query_point_starts_finite tree k x Hne) as (d & p & rest & Hq).
    rewrite Hq in Hd. simpl in Hd. injection Hd as Hr _. rewrite Hr.
    reflexivity.
Qed.

(** * Further properties *)

(** ** Registration *)

(** X1: adding an object of the store under a name that is not yet
    registered returns [True]; afterwards the name is bound to that object
    with no tables, every other name is bound as before, no grid object
    has changed and one debug record has been logged. *)
Theorem add_grid_registers (st : State) (l : loc) (g : Grid) (grid_name : string) :
  heap st !! l = Some g ->
  grids st !! grid_name = None ->
  exists st',
    add_grid l grid_name st = (st', Return true)
    /\ grids st' !! grid_name = Some (mkEntry [] l)
    /\ (forall other, other <> grid_name -> grids st' !! other = grids st !! other)
    /\ heap st' = heap st
    /\ log st' = log st ++ [(DEBUG, MsgGridAdded grid_name)].
Proof.
  intros Hl Hn. unfold add_grid. run. rewrite Hl. simpl.
  rewrite (bool_decide_is_Some_false _ Hn).
  eexists. split; [reflexivity|]. simpl.
  split; [apply lookup_insert_eq|].
  split; [intros other Hne; apply lookup_insert_ne; congruence|].
  split; reflexivity.
Qed.

Lemma add_grid_registers_witness :
  exists st',
    add_grid 1%nat "F" Example.registered_AB = (st', Return true)
    /\ grids st' !! "F" = Some (mkEntry [] 1%nat)
    /\ (forall other, other <> "F" ->
                      grids st' !! other = grids Example.registered_AB !! other)
    /\ heap st' = heap Example.registered_AB
    /\ log st' = log Example.registered_AB ++ [(DEBUG, MsgGridAdded "F")].
Proof.
  apply (add_grid_registers Example.registered_AB 1%nat Example.grid_B "F");
    reflexivity.
Defined.

(** X2: adding under a name that is already registered raises the
    duplicate-name key error and changes nothing, not even the log. *)
Theorem add_grid_rejects_registered_name (st : State) (l : loc) (g : Grid)
        (e : entry) (grid_name : string) :
  heap st !! l = Some g ->
  grids st !! grid_name = Some e ->
  add_grid l grid_name st = (st, Raise (KeyError_grid_exists grid_name)).
Proof.
  intros Hl Hn. unfold add_grid. run. rewrite Hl. simpl.
  rewrite (bool_decide_is_Some_true _ _ Hn). reflexivity.
Qed.

Lemma add_grid_rejects_registered_name_witness :
  add_grid 1%nat "A" Example.registered_AB
  = (Example.registered_AB, Raise (KeyError_grid_exists "A")).
Proof.
  apply (add_grid_rejects_registered_name Example.registered_AB 1%nat
           Example.grid_B (mkEntry [] 0%nat) "A"); reflexivity.
Defined.

(** X3: [update_grid] returns [True] only for the name "grid_name": then
    that name was registered, it is now bound to the new object with no
    tables (the tables stored for it as a target are gone), every other
    entry, with the tables built from the replaced grid, is as before, and
    no grid object has changed. *)
Theorem update_grid_succeeds_only_for_literal_name
        (st st' : State) (l : loc) (grid_name : string) :
  update_grid l grid_name st = (st', Return true) ->
  grid_name = "grid_name"
  /\ is_Some (grids st !! "grid_name")
  /\ grids st' !! "grid_name" = Some (mkEntry [] l)
  /\ (forall other, other <> "grid_name" ->
                    grids st' !! other = grids st !! other)
  /\ heap st' = heap st.
Proof.
  unfold update_grid, add_grid. run.
  destruct (heap st !! l) as [g|] eqn:Hl; simpl; [|discriminate].
  destruct (bool_decide (is_Some (grids st !! grid_name))) eqn:Hn; simpl;
    [|discriminate].
  destruct (bool_decide (is_Some (grids st !! "grid_name"))) eqn:Hlit; simpl;
    [|discriminate].
  rewrite Hl. simpl.
  destruct (bool_decide (is_Some (delete "grid_name" (grids st) !! grid_name)))
    eqn:Hd; simpl; [discriminate|].
  intros H. inversion H; subst st'; clear H. simpl.
  apply bool_decide_eq_true in Hn, Hlit. apply bool_decide_eq_false in Hd.
  assert (Hname : grid_name = "grid_name").
  { destruct (decide (grid_name = "grid_name")) as [E|Hne]; [exact E|].
    exfalso. apply Hd. rewrite lookup_delete_ne by congruence. exact Hn. }
  subst grid_name. split; [reflexivity|]. split; [exact Hlit|].
  split; [apply lookup_insert_eq|].
  split; [|reflexivity].
  intros other Hne. rewrite lookup_insert_ne by congruence.
  apply lookup_delete_ne. congruence.
Qed.

Lemma update_grid_succeeds_only_for_literal_name_witness :
  "grid_name" = "grid_name"
  /\ is_Some (grids Scenario.literal_name !! "grid_name")
  /\ grids (fst (update_grid 1%nat "grid_name" Scenario.literal_name))
       !! "grid_name" = Some (mkEntry [] 1%nat)
  /\ (forall other, other <> "grid_name" ->
                    grids (fst (update_grid 1%nat "grid_name" Scenario.literal_name))
                          !! other
                    = grids Scenario.literal_name !! other)
  /\ heap (fst (update_grid 1%nat "grid_name" Scenario.literal_name))
     = heap Scenario.literal_name.
Proof.
  apply (update_grid_succeeds_only_for_literal_name
           Scenario.literal_name
           (fst (update_grid 1%nat "grid_name" Scenario.literal_name))
           1%nat "grid_name").
  vm_compute. reflexivity.
Defined.

(** ** Building a table: what is stored, and when *)

(** The chunked branch of the query stage returns the arrays of the query
    on all target points and changes nothing but the log. *)
Lemma query_stage_result (tree : KDTree) (x : list point)
      (k : positive) (bound : distance) (s : State) :
  exists s',
    query_stage false tree x k bound s
    = (s', Return (query tree x k bound))
    /\ same_store s' s.
Proof. unfold query_stage. apply query_split_whole. Qed.

Lemma read_only_of_outcome {A : Type} (o : outcome A) : read_only (of_outcome o).
Proof. intros st. split; reflexivity. Qed.

Lemma read_only_build_entry (grid_1_nodes grid_2_nodes : list node_id)
      (grid_name_2 : string) (distance_max : distance)
      (dist : ndarray (distance * Z)) (i : nat) (vars : table * nat) :
  read_only (build_entry grid_1_nodes grid_2_nodes grid_name_2 distance_max
                         dist i vars).
Proof.
  unfold build_entry. destruct vars as [transform_dict count].
  apply read_only_bind; [auto with read_only | intros key].
  destruct dist as [cells|rows].
  - read_only_steps. destruct (exceeds _ _); read_only_steps.
  - apply read_only_bind; [auto with read_only | intros row].
    apply read_only_bind; [apply read_only_of_outcome | intros kept].
    destruct (length kept =? 0)%nat; read_only_steps.
Qed.

Lemma read_only_build_transform (grid_1_nodes grid_2_nodes : list node_id)
      (grid_name_2 : string) (distance_max : distance)
      (dist : ndarray (distance * Z)) :
  read_only (build_transform grid_1_nodes grid_2_nodes grid_name_2 distance_max
                             dist).
Proof.
  unfold build_transform. generalize (seq 0 (np_len dist)) as range.
  generalize (@nil (node_id * option (list neighbor)), O) as vars.
  intros vars range. revert vars.
  induction range as [|i range IH]; intros vars; simpl.
  - apply read_only_ret.
  - apply read_only_bind; [apply read_only_build_entry | intros vars'; apply IH].
Qed.

(** What a run of [find_nearest_neighbors] amounts to: no grid object
    changes; an exception leaves the registry as it was; and a normal
    return comes from two registered, non-empty grids, with the table built
    from the query on all target points stored for the pair. *)
Lemma find_nearest_neighbors_with_effect
      (grid_name_1 grid_name_2 : string) (k : positive) (distance_max : distance)
      (st st' : State) (o : outcome bool) :
  find_nearest_neighbors_with false grid_name_1 grid_name_2 k distance_max st
  = (st', o) ->
  heap st' = heap st
  /\ match o with
     | Raise _ => grids st' = grids st
     | Return b =>
         b = true
         /\ exists e1 e2 g1 g2 s1 s2 t c,
             grids st !! grid_name_1 = Some e1
             /\ grids st !! grid_name_2 = Some e2
             /\ heap st !! grid e1 = Some g1
             /\ heap st !! grid e2 = Some g2
             /\ get_coordinates_array g1 <> []
             /\ build_transform (dict_keys (nodes g1)) (dict_keys (nodes g2))
                                grid_name_2 distance_max
                                (query (mkKDTree (get_coordinates_array g1))
                                       (get_coordinates_array g2) k distance_max) s1
                = (s2, Return (t, c))
             /\ grids st'
                = alter (fun e => {| transform := dict_set (transform e) grid_name_1 t;
                                     grid := grid e |}) grid_name_2 (grids st)
     end.
Proof.
  destruct (grids st !! grid_name_1) as [e1|] eqn:H1.
  2: { unfold find_nearest_neighbors_with. run. rewrite H1. simpl.
       intros H. inversion H; subst. auto. }
  destruct (grids st !! grid_name_2) as [e2|] eqn:H2.
  2: { unfold find_nearest_neighbors_with. run. rewrite H1. simpl. rewrite H2.
       simpl. intros H. inversion H; subst. auto. }
  destruct (heap st !! grid e1) as [g1|] eqn:Hg1.
  2: { unfold find_nearest_neighbors_with. run. rewrite H1. simpl. rewrite H2.
       simpl. rewrite Hg1. simpl. intros H. inversion H; subst. auto. }
  destruct (heap st !! grid e2) as [g2|] eqn:Hg2.
  2: { unfold find_nearest_neighbors_with. run. rewrite H1. simpl. rewrite H2.
       simpl. rewrite Hg1. simpl. rewrite Hg2. simpl.
       intros H. inversion H; subst. auto. }
  destruct (amin (get_coordinates_array g1)) as [lo1|] eqn:Hlo1.
  2: { unfold find_nearest_neighbors_with. run. rewrite H1. simpl. rewrite H2.
       simpl. rewrite Hg1. simpl. rewrite Hg2. simpl. rewrite Hlo1. simpl.
       intros H. inversion H; subst. auto. }
  assert (Hne1 : get_coordinates_array g1 <> []).
  { intros E. rewrite E in Hlo1. discriminate. }
  assert (exists hi1, amax (get_coordinates_array g1) = Some hi1) as [hi1 Hhi1].
  { destruct (get_coordinates_array g1); [contradiction | simpl; eauto]. }
  destruct (amin (get_coordinates_array g2)) as [lo2|] eqn:Hlo2.
  2: { unfold find_nearest_neighbors_with. run. rewrite H1. simpl. rewrite H2.
       simpl. rewrite Hg1. simpl. rewrite Hg2. simpl. rewrite Hlo1. simpl.
       rewrite Hhi1. simpl. rewrite Hlo2. simpl.
       intros H. inversion H; subst. auto. }
  assert (exists hi2, amax (get_coordinates_array g2) = Some hi2) as [hi2 Hhi2].
  { destruct (get_coordinates_array g2); [discriminate | simpl; eauto]. }
  destruct (find_nearest_neighbors_prefix false st grid_name_1 grid_name_2
              k distance_max e1 e2 g1 g2 lo1 hi1 lo2 hi2
              H1 H2 Hg1 Hg2 Hlo1 Hhi1 Hlo2 Hhi2) as (s0 & Hh0 & Hr0 & ->).
  assert (Hfail : forall a m1 M1 m2 M2 (s : State) (rest : M bool),
             heap s = heap st -> grids s = grids st ->
             ~ (m1 <= M2 /\ m2 <= M1)%Q ->
             (check_overlap a m1 M1 m2 M2;;; rest) s = (st', o) ->
             heap st' = heap st /\ match o with
                                   | Raise _ => grids st' = grids st
                                   | Return _ => False
                                   end).
  { intros a m1 M1 m2 M2 s rest Hh Hg Hno. unfold bind at 1.
    destruct (check_overlap_fail a m1 M1 m2 M2 s Hno) as (s' & -> & Hh' & Hg' & _).
    intros H. inversion H; subst. split; congruence. }
  destruct (check_overlap_cases AxisX (px lo1) (px hi1) (px lo2) (px hi2)) as [Hx|Hx].
  2: { intros H. destruct (Hfail _ _ _ _ _ _ _ Hh0 Hr0 Hx H) as [Hh Ho].
       split; [exact Hh|]. destruct o; [contradiction | exact Ho]. }
  unfold bind at 1. rewrite (check_overlap_pass AxisX _ _ _ _ s0 Hx).
  destruct (check_overlap_cases AxisY (py lo1) (py hi1) (py lo2) (py hi2)) as [Hy|Hy].
  2: { intros H. destruct (Hfail _ _ _ _ _ _ _ Hh0 Hr0 Hy H) as [Hh Ho].
       split; [exact Hh|]. destruct o; [contradiction | exact Ho]. }
  unfold bind at 1. rewrite (check_overlap_pass AxisY _ _ _ _ s0 Hy).
  destruct (check_overlap_cases AxisZ (pz lo1) (pz hi1) (pz lo2) (pz hi2)) as [Hz|Hz].
  2: { intros H. destruct (Hfail _ _ _ _ _ _ _ Hh0 Hr0 Hz H) as [Hh Ho].
       split; [exact Hh|]. destruct o; [contradiction | exact Ho]. }
  unfold bind at 1. rewrite (check_overlap_pass AxisZ _ _ _ _ s0 Hz).
  unfold bind at 1. unfold log_at at 1. unfold bind at 1.
  match goal with |- context [query_stage _ _ _ _ _ ?s] =>
    destruct (query_stage_result (mkKDTree (get_coordinates_array g1))
                (get_coordinates_array g2) k distance_max s)
      as (sq & -> & Hhq & Hgq) end.
  simpl in Hhq, Hgq.
  unfold bind at 1. unfold log_at at 1. unfold bind at 1.
  match goal with |- context [build_transform _ _ _ _ _ ?s] =>
    pose proof (read_only_build_transform
                  (dict_keys (nodes g1)) (dict_keys (nodes g2)) grid_name_2
                  distance_max
                  (query (mkKDTree (get_coordinates_array g1))
                         (get_coordinates_array g2) k distance_max) s) as [Hhb Hgb];
    destruct (build_transform
                (dict_keys (nodes g1)) (dict_keys (nodes g2)) grid_name_2
                distance_max
                (query (mkKDTree (get_coordinates_array g1))
                       (get_coordinates_array g2) k distance_max) s)
      as [sb [[t c]|e]] eqn:Hbuild end; simpl in Hhb, Hgb.
  2: { intros H. inversion H; subst. split; congruence. }
  unfold store_table. run.
  destruct (0 <? c)%nat; simpl; intros H; inversion H; subst; simpl;
    (split; [congruence|]); (split; [reflexivity|]);
    exists e1, e2, g1, g2; eexists _, sb, t, c;
    (repeat split; try eassumption); congruence.
Qed.

(** One iteration of the build loop assigns, to the key of the [i]-th
    target node, the value described by [stored_at]. *)
Lemma build_entry_inv (grid_1_nodes grid_2_nodes : list node_id)
      (grid_name_2 : string) (distance_max : distance)
      (dist : ndarray (distance * Z)) (i : nat) (t t' : table) (c c' : nat)
      (st st' : State) :
  build_entry grid_1_nodes grid_2_nodes grid_name_2 distance_max dist i (t, c) st
  = (st', Return (t', c')) ->
  exists key v,
    nth_error grid_2_nodes i = Some key
    /\ t' = dict_set t key v
    /\ stored_at grid_1_nodes distance_max dist i v.
Proof.
  unfold build_entry, stored_at. run.
  destruct (nth_error grid_2_nodes i) as [key|]; simpl; [|discriminate].
  destruct dist as [cells|rows].
  - destruct (nth_error cells i) as [cell|]; simpl; [|discriminate].
    destruct (py_index grid_1_nodes (snd cell - 1)) as [node|] eqn:Hnode; simpl;
      [|discriminate].
    destruct (exceeds (fst cell) distance_max) eqn:Hex; intros H; inversion H;
      subst; exists key; eexists; (split; [reflexivity|]); (split; [reflexivity|]);
      exists cell, node; rewrite Hex; auto.
  - destruct (nth_error rows i) as [row|]; simpl; [|discriminate].
    destruct (keep_neighbors grid_1_nodes distance_max row []) as [kept|] eqn:Hk;
      [|discriminate].
    destruct (length kept =? 0)%nat eqn:Hlen; intros H; inversion H; subst;
      exists key; eexists; (split; [reflexivity|]); (split; [reflexivity|]);
      exists row, kept; rewrite Hlen; auto.
Qed.

Lemma dict_set_Forall_values {K V : Type} `{EqDecision K} (P : V -> Prop)
      (d : dict K V) (k : K) (v : V) :
  Forall (fun item => P (snd item)) d -> P v ->
  Forall (fun item => P (snd item)) (dict_set d k v).
Proof.
  intros Hd Hv. induction d as [|[k' v'] d IH]; simpl.
  - constructor; [exact Hv | constructor].
  - inversion Hd as [|? ? Hhead Htail]; subst.
    destruct (decide (k' = k)); constructor; auto.
Qed.

(** A property of every value the loop can store holds of every entry of
    the table it returns. *)
Lemma build_loop_entries (P : option (list neighbor) -> Prop)
      (grid_1_nodes grid_2_nodes : list node_id) (grid_name_2 : string)
      (distance_max : distance) (dist : ndarray (distance * Z)) :
  (forall i v, stored_at grid_1_nodes distance_max dist i v -> P v) ->
  forall (range : list nat) (vars vars' : table * nat) (st st' : State),
    Forall (fun item => P (snd item)) (fst vars) ->
    build_loop grid_1_nodes grid_2_nodes grid_name_2 distance_max dist range
               vars st = (st', Return vars') ->
    Forall (fun item => P (snd item)) (fst vars').
Proof.
  intros HP. induction range as [|i range IH]; intros vars vars' st st' Hvars; simpl.
  - run. intros H. inversion H; subst. exact Hvars.
  - unfold bind at 1.
    destruct (build_entry grid_1_nodes grid_2_nodes grid_name_2 distance_max dist
                          i vars st) as [st1 [[t1 c1]|e]] eqn:Hstep; [|discriminate].
    apply IH. destruct vars as [t c].
    destruct (build_entry_inv _ _ _ _ _ _ _ _ _ _ _ _ Hstep)
      as (key & v & _ & -> & Hv).
    simpl. apply dict_set_Forall_values; [exact Hvars | eapply HP, Hv].
Qed.

Lemma dict_keys_set_fresh {K V : Type} `{EqDecision K} (d : dict K V) (k : K)
      (v : V) :
  ~ In k (dict_keys d) -> dict_keys (dict_set d k v) = dict_keys d ++ [k].
Proof.
  induction d as [|[k' v'] d IH]; simpl; intros Hfresh; [reflexivity|].
  destruct (decide (k' = k)) as [->|Hne]; [tauto|].
  simpl. f_equal. apply IH. tauto.
Qed.

Lemma skipn_nth_error {A : Type} (l : list A) (a : nat) (x : A) :
  nth_error l a = Some x -> skipn a l = x :: skipn (S a) l.
Proof.
  revert a. induction l as [|y l IH]; intros [|a]; simpl; try discriminate.
  - intros H. inversion H. reflexivity.
  - intros H. rewrite (IH a H). reflexivity.
Qed.

(** The loop over rows [a], ..., [a + m - 1] appends the identifiers of
    these target nodes, in order, to the keys of the table. *)
Lemma build_loop_keys (grid_1_nodes grid_2_nodes : list node_id)
      (grid_name_2 : string) (distance_max : distance)
      (dist : ndarray (distance * Z)) (m : nat) :
  forall (a : nat) (vars vars' : table * nat) (st st' : State),
    List.NoDup (dict_keys (fst vars) ++ firstn m (skipn a grid_2_nodes)) ->
    build_loop grid_1_nodes grid_2_nodes grid_name_2 distance_max dist (seq a m)
               vars st = (st', Return vars') ->
    dict_keys (fst vars')
    = dict_keys (fst vars) ++ firstn m (skipn a grid_2_nodes).
Proof.
  induction m as [|m IH]; intros a vars vars' st st' Hnd; simpl.
  - run. intros H. inversion H; subst. rewrite app_nil_r. reflexivity.
  - unfold bind at 1.
    destruct (build_entry grid_1_nodes grid_2_nodes grid_name_2 distance_max dist
                          a vars st) as [st1 [[t1 c1]|e]] eqn:Hstep; [|discriminate].
    destruct vars as [t c].
    destruct (build_entry_inv _ _ _ _ _ _ _ _ _ _ _ _ Hstep)
      as (key & v & Hkey & -> & _).
    simpl fst in *. rewrite (skipn_nth_error _ _ _ Hkey) in Hnd |- *.
    simpl firstn in Hnd |- *.
    assert (Hfresh : ~ In key (dict_keys t)).
    { intros Hin. apply NoDup_remove_2 in Hnd. apply Hnd.
      apply in_or_app. left. exact Hin. }
    intros Hrest. apply IH in Hrest; simpl fst in *.
    + rewrite Hrest, (dict_keys_set_fresh _ _ _ Hfresh), <- app_assoc.
      reflexivity.
    + rewrite (dict_keys_set_fresh _ _ _ Hfresh), <- app_assoc. exact Hnd.
Qed.

Lemma query_length (tree : KDTree) (x : list point) (k : positive)
      (bound : distance) :
  np_len (query tree x k bound) = length x.
Proof.
  unfold query. destruct (k =? 1)%positive; simpl; apply length_map.
Qed.

Lemma query_point_length (tree : KDTree) (k : positive) (bound : distance)
      (x : point) :
  length (query_point tree k bound x) = Pos.to_nat k.
Proof.
  unfold query_point. rewrite length_app, length_map, repeat_length.
  match goal with |- context [firstn ?n ?l] =>
    pose proof (firstn_le_length n l) end.
  lia.
Qed.

(** The rows of a query of rank two are rows of [query_point]. *)
Lemma query_rows (tree : KDTree) (x : list point) (k : positive)
      (bound : distance) (rows : list (list (distance * Z))) (i : nat)
      (row : list (distance * Z)) :
  query tree x k bound = Arr2 rows ->
  nth_error rows i = Some row ->
  exists p, row = query_point tree k bound p.
Proof.
  unfold query. destruct (k =? 1)%positive; [discriminate|].
  intros H Hrow. inversion H; subst rows.
  apply nth_error_In in Hrow. apply in_map_iff in Hrow as (p & <- & _). eauto.
Qed.

Lemma query_rank_one (tree : KDTree) (x : list point) (k : positive)
      (bound : distance) (cells : list (distance * Z)) :
  query tree x k bound = Arr1 cells -> k = 1%positive.
Proof.
  unfold query. destruct (k =? 1)%positive eqn:E; [|discriminate].
  intros _. apply Pos.eqb_eq, E.
Qed.

(** A normal return of [find_nearest_neighbors] has stored, for the pair,
    the table built from the query on all target points. *)
Lemma find_nearest_neighbors_stored
      (grid_name_1 grid_name_2 : string) (k : positive) (distance_max : distance)
      (st st' : State) :
  find_nearest_neighbors grid_name_1 grid_name_2 k distance_max st
  = (st', Return true) ->
  exists e1 e2 g1 g2 s1 s2 t c,
    grids st !! grid_name_1 = Some e1
    /\ grids st !! grid_name_2 = Some e2
    /\ heap st !! grid e1 = Some g1
    /\ heap st !! grid e2 = Some g2
    /\ get_coordinates_array g1 <> []
    /\ build_transform (dict_keys (nodes g1)) (dict_keys (nodes g2))
                       grid_name_2 distance_max
                       (query (mkKDTree (get_coordinates_array g1))
                              (get_coordinates_array g2) k distance_max) s1
       = (s2, Return (t, c))
    /\ grids st' !! grid_name_2
       = Some {| transform := dict_set (transform e2) grid_name_1 t;
                 grid := grid e2 |}
    /\ table_of st' grid_name_1 grid_name_2 = Some t.
Proof.
  unfold find_nearest_neighbors. intros Hrun.
  destruct (find_nearest_neighbors_with_effect _ _ _ _ _ _ _ Hrun)
    as (_ & _ & e1 & e2 & g1 & g2 & s1 & s2 & t & c
        & H1 & H2 & Hg1 & Hg2 & Hne & Hbuild & Hgrids).
  exists e1, e2, g1, g2, s1, s2, t, c. repeat (split; [assumption|]).
  assert (Hentry : grids st' !! grid_name_2
                   = Some {| transform := dict_set (transform e2) grid_name_1 t;
                             grid := grid e2 |}).
  { rewrite Hgrids, lookup_alter_eq, H2. reflexivity. }
  split; [exact Hentry|].
  unfold table_of. rewrite Hentry. simpl. apply dict_get_set_eq.
Qed.

(** X4: when one of the two names is not registered,
    [find_nearest_neighbors] raises the unknown-grid key error for the
    first such name and changes nothing, not even the log. *)
Theorem find_nearest_neighbors_unknown_grid
        (grid_name_1 grid_name_2 : string) (k : positive)
        (distance_max : distance) (st : State) :
  grids st !! grid_name_1 = None \/ grids st !! grid_name_2 = None ->
  exists name,
    find_nearest_neighbors grid_name_1 grid_name_2 k distance_max st
    = (st, Raise (KeyError_grid_unknown name))
    /\ grids st !! name = None
    /\ (name = grid_name_1
        \/ (name = grid_name_2 /\ is_Some (grids st !! grid_name_1))).
Proof.
  intros Hmissing. unfold find_nearest_neighbors, find_nearest_neighbors_with.
  run. destruct (grids st !! grid_name_1) as [e1|] eqn:H1; simpl.
  - destruct Hmissing as [H|H2]; [discriminate|]. rewrite H2. simpl.
    exists grid_name_2. split; [reflexivity|]. split; [exact H2|].
    right. split; [reflexivity | eauto].
  - exists grid_name_1. auto.
Qed.

Lemma find_nearest_neighbors_unknown_grid_witness :
  exists name,
    find_nearest_neighbors "A" "Z" 2 DInf Example.registered_AB
    = (Example.registered_AB, Raise (KeyError_grid_unknown name))
    /\ grids Example.registered_AB !! name = None
    /\ (name = "A"
        \/ (name = "Z" /\ is_Some (grids Example.registered_AB !! "A"))).
Proof.
  apply (find_nearest_neighbors_unknown_grid "A" "Z" 2 DInf Example.registered_AB).
  right. reflexivity.
Defined.

(** X5: whatever exception [find_nearest_neighbors] raises (unknown grid,
    empty grid, grids that do not overlap, an index out of range while the
    table is built), the registry with all its tables and every grid object
    are as before the call. *)
Theorem find_nearest_neighbors_raise_keeps_registry
        (grid_name_1 grid_name_2 : string) (k : positive)
        (distance_max : distance) (st st' : State) (e : exn) :
  find_nearest_neighbors grid_name_1 grid_name_2 k distance_max st
  = (st', Raise e) ->
  grids st' = grids st /\ heap st' = heap st.
Proof.
  unfold find_nearest_neighbors. intros Hrun.
  destruct (find_nearest_neighbors_with_effect _ _ _ _ _ _ _ Hrun) as [Hh Hg].
  auto.
Qed.

Lemma find_nearest_neighbors_raise_keeps_registry_witness :
  grids (fst (find_nearest_neighbors "A" "F" 2 DInf Example.registered_AF))
  = grids Example.registered_AF
  /\ heap (fst (find_nearest_neighbors "A" "F" 2 DInf Example.registered_AF))
     = heap Example.registered_AF.
Proof.
  apply (find_nearest_neighbors_raise_keeps_registry
           "A" "F" 2 DInf Example.registered_AF
           (fst (find_nearest_neighbors "A" "F" 2 DInf Example.registered_AF))
           (ValueError_not_overlapping AxisX)).
  vm_compute. reflexivity.
Defined.

(** X6: a normal return of [find_nearest_neighbors] has changed no grid
    object and, in the registry, nothing but the table stored for the pair:
    every other name is bound as before, and the target's entry keeps its
    object and the tables it holds from other source grids. *)
Theorem find_nearest_neighbors_stores_one_table
        (grid_name_1 grid_name_2 : string) (k : positive)
        (distance_max : distance) (st st' : State) :
  find_nearest_neighbors grid_name_1 grid_name_2 k distance_max st
  = (st', Return true) ->
  heap st' = heap st
  /\ (forall name, name <> grid_name_2 -> grids st' !! name = grids st !! name)
  /\ exists e2 e2' t,
      grids st !! grid_name_2 = Some e2
      /\ grids st' !! grid_name_2 = Some e2'
      /\ grid e2' = grid e2
      /\ dict_get (transform e2') grid_name_1 = Some t
      /\ (forall src, src <> grid_name_1 ->
                      dict_get (transform e2') src = dict_get (transform e2) src).
Proof.
  intros Hrun.
  pose proof Hrun as Hrun'. unfold find_nearest_neighbors in Hrun'.
  destruct (find_nearest_neighbors_with_effect _ _ _ _ _ _ _ Hrun')
    as (Hh & _ & e1 & e2 & g1 & g2 & s1 & s2 & t & c
        & H1 & H2 & Hg1 & Hg2 & Hne & Hbuild & Hgrids).
  split; [exact Hh|]. split.
  - intros name Hname. rewrite Hgrids. apply lookup_alter_ne. congruence.
  - exists e2. eexists. exists t. split; [exact H2|].
    split; [rewrite Hgrids, lookup_alter_eq, H2; reflexivity|]. simpl.
    split; [reflexivity|]. split; [apply dict_get_set_eq|].
    intros src Hsrc. apply dict_get_set_ne. congruence.
Qed.

Lemma find_nearest_neighbors_stores_one_table_witness :
  heap Example.matched_AB = heap Example.registered_AB
  /\ (forall name, name <> "B" ->
                   grids Example.matched_AB !! name
                   = grids Example.registered_AB !! name)
  /\ exists e2 e2' t,
      grids Example.registered_AB !! "B" = Some e2
      /\ grids Example.matched_AB !! "B" = Some e2'
      /\ grid e2' = grid e2
      /\ dict_get (transform e2') "A" = Some t
      /\ (forall src, src <> "A" ->
                      dict_get (transform e2') src = dict_get (transform e2) src).
Proof.
  apply (find_nearest_neighbors_stores_one_table
           "A" "B" 2 DInf Example.registered_AB Example.matched_AB).
  vm_compute. reflexivity.
Defined.

(** ** Building a table: the shape of what is stored *)

(** X7: after a normal return of [find_nearest_neighbors] on a target grid
    whose node identifiers are distinct, the stored table has exactly one
    entry per target node, in the order of the target grid's nodes. *)
Theorem find_nearest_neighbors_covers_target_nodes
        (grid_name_1 grid_name_2 : string) (k : positive)
        (distance_max : distance) (st st' : State) (e2 : entry) (g2 : Grid) :
  grids st !! grid_name_2 = Some e2 ->
  heap st !! grid e2 = Some g2 ->
  List.NoDup (dict_keys (nodes g2)) ->
  find_nearest_neighbors grid_name_1 grid_name_2 k distance_max st
  = (st', Return true) ->
  exists t,
    table_of st' grid_name_1 grid_name_2 = Some t
    /\ dict_keys t = dict_keys (nodes g2).
Proof.
  intros H2 Hg2 Hnd Hrun.
  destruct (find_nearest_neighbors_stored _ _ _ _ _ _ Hrun)
    as (e1 & e2' & g1 & g2' & s1 & s2 & t & c
        & H1 & H2' & Hg1 & Hg2' & Hne & Hbuild & _ & Htable).
  assert (e2' = e2) by congruence. subst e2'.
  assert (g2' = g2) by congruence. subst g2'.
  exists t. split; [exact Htable|].
  unfold build_transform in Hbuild.
  rewrite query_length in Hbuild.
  assert (Hlen : length (get_coordinates_array g2)
                 = length (dict_keys (nodes g2))).
  { unfold get_coordinates_array, dict_keys. rewrite !length_map. reflexivity. }
  rewrite Hlen in Hbuild.
  apply build_loop_keys in Hbuild; simpl in *.
  - rewrite firstn_all in Hbuild. exact Hbuild.
  - rewrite firstn_all. exact Hnd.
Qed.

Lemma find_nearest_neighbors_covers_target_nodes_witness :
  exists t,
    table_of Example.matched_AB "A" "B" = Some t
    /\ dict_keys t = dict_keys (nodes Example.grid_B).
Proof.
  apply (find_nearest_neighbors_covers_target_nodes
           "A" "B" 2 DInf Example.registered_AB Example.matched_AB
           (mkEntry [] 1%nat) Example.grid_B).
  - reflexivity.
  - reflexivity.
  - simpl. repeat constructor; simpl; intuition discriminate.
  - vm_compute. reflexivity.
Defined.

Lemma keep_neighbors_within (grid_1_nodes : list node_id)
      (distance_max : distance) (row : list (distance * Z)) :
  forall kept out,
    keep_neighbors grid_1_nodes distance_max row kept = Return out ->
    Forall (fun r => exceeds (neighbor_distance r) distance_max = false) kept ->
    Forall (fun r => exceeds (neighbor_distance r) distance_max = false) out.
Proof.
  induction row as [|[d p] row IH]; intros kept out; simpl.
  - intros H. inversion H; subst. auto.
  - destruct (py_index grid_1_nodes (p - 1)) as [node|]; [|discriminate].
    destruct (exceeds d distance_max) eqn:Hex; intros H Hkept.
    + eapply IH; eassumption.
    + eapply IH; [exact H|]. apply Forall_app. split; [exact Hkept|].
      constructor; [exact Hex | constructor].
Qed.

(** X8: after a normal return of [find_nearest_neighbors] no record of the
    stored table is further away than [distance_max]: with a finite cutoff
    every stored distance is finite and at most the cutoff. *)
Theorem find_nearest_neighbors_respects_cutoff
        (grid_name_1 grid_name_2 : string) (k : positive) (cutoff : Q)
        (st st' : State) :
  find_nearest_neighbors grid_name_1 grid_name_2 k (DFin cutoff) st
  = (st', Return true) ->
  exists t,
    table_of st' grid_name_1 grid_name_2 = Some t
    /\ Forall (fun r => exists d, neighbor_distance r = DFin d /\ (d <= cutoff)%Q)
              (records t).
Proof.
  intros Hrun.
  destruct (find_nearest_neighbors_stored _ _ _ _ _ _ Hrun)
    as (e1 & e2 & g1 & g2 & s1 & s2 & t & c
        & H1 & H2 & Hg1 & Hg2 & Hne & Hbuild & _ & Htable).
  exists t. split; [exact Htable|]. clear Htable.
  unfold build_transform in Hbuild.
  apply (build_loop_entries
           (fun v => match v with
                     | Some l => Forall (fun r => exceeds (neighbor_distance r)
                                                          (DFin cutoff) = false) l
                     | None => True
                     end)) in Hbuild; simpl in *.
  - unfold records. induction Hbuild as [|[node [l|]] t Hl _ IH]; simpl.
    + constructor.
    + apply Forall_app. split; [|exact IH]. simpl in Hl.
      eapply Forall_impl; [exact Hl|]. intros r Hr. simpl in Hr.
      unfold exceeds in Hr. simpl in Hr.
      destruct (neighbor_distance r) as [d|]; simpl in Hr; [|discriminate].
      exists d. split; [reflexivity|]. apply Qle_bool_iff.
      destruct (Qle_bool d cutoff); [reflexivity | discriminate].
    + exact IH.
  - intros i v Hv. unfold stored_at in Hv.
    destruct (query _ _ _ _) as [cells|rows].
    + destruct Hv as (cell & node & _ & _ & ->).
      destruct (exceeds (fst cell) (DFin cutoff)) eqn:Hex.
      * constructor.
      * constructor; [exact Hex | constructor].
    + destruct Hv as (row & kept & _ & Hkeep & ->).
      destruct (length kept =? 0)%nat; [exact I|].
      eapply keep_neighbors_within; [exact Hkeep | constructor].
  - constructor.
Qed.

Lemma find_nearest_neighbors_respects_cutoff_witness :
  exists t,
    table_of Scenario.matched_AB_cutoff "A" "B" = Some t
    /\ Forall (fun r => exists d, neighbor_distance r = DFin d /\ (d <= 1 # 4)%Q)
              (records t).
Proof.
  apply (find_nearest_neighbors_respects_cutoff
           "A" "B" 2 (1 # 4) Example.registered_AB Scenario.matched_AB_cutoff).
  vm_compute. reflexivity.
Defined.

Lemma keep_neighbors_length_le (grid_1_nodes : list node_id)
      (distance_max : distance) (row : list (distance * Z)) :
  forall kept out,
    keep_neighbors grid_1_nodes distance_max row kept = Return out ->
    (length out <= length kept + length row)%nat.
Proof.
  induction row as [|[d p] row IH]; intros kept out; simpl.
  - intros H. inversion H; subst. lia.
  - destruct (py_index grid_1_nodes (p - 1)) as [node|]; [|discriminate].
    destruct (exceeds d distance_max); intros H; apply IH in H.
    + lia.
    + rewrite length_app in H. simpl in H. lia.
Qed.

Lemma keep_neighbors_no_cutoff_length (grid_1_nodes : list node_id)
      (row : list (distance * Z)) :
  forall kept out,
    keep_neighbors grid_1_nodes DInf row kept = Return out ->
    length out = (length kept + length row)%nat.
Proof.
  induction row as [|[d p] row IH]; intros kept out; simpl.
  - intros H. inversion H; subst. lia.
  - destruct (py_index grid_1_nodes (p - 1)) as [node|]; [|discriminate].
    unfold exceeds. simpl. intros H. apply IH in H.
    rewrite length_app in H. simpl in H. lia.
Qed.

(** X9: after a normal return of [find_nearest_neighbors] every list of
    the stored table holds at most [neighbors_quantity] records. *)
Theorem find_nearest_neighbors_at_most_k_records
        (grid_name_1 grid_name_2 : string) (k : positive)
        (distance_max : distance) (st st' : State) :
  find_nearest_neighbors grid_name_1 grid_name_2 k distance_max st
  = (st', Return true) ->
  exists t,
    table_of st' grid_name_1 grid_name_2 = Some t
    /\ Forall (fun item => match snd item with
                           | Some l => (length l <= Pos.to_nat k)%nat
                           | None => True
                           end) t.
Proof.
  intros Hrun.
  destruct (find_nearest_neighbors_stored _ _ _ _ _ _ Hrun)
    as (e1 & e2 & g1 & g2 & s1 & s2 & t & c
        & H1 & H2 & Hg1 & Hg2 & Hne & Hbuild & _ & Htable).
  exists t. split; [exact Htable|]. clear Htable.
  unfold build_transform in Hbuild.
  apply (build_loop_entries
           (fun v => match v with
                     | Some l => (length l <= Pos.to_nat k)%nat
                     | None => True
                     end)) in Hbuild; simpl in *.
  - exact Hbuild.
  - intros i v Hv. unfold stored_at in Hv.
    destruct (query _ _ _ _) as [cells|rows] eqn:Hq.
    + destruct Hv as (cell & node & _ & _ & ->).
      destruct (exceeds (fst cell) distance_max); simpl; lia.
    + destruct Hv as (row & kept & Hrow & Hkeep & ->).
      destruct (length kept =? 0)%nat; [exact I|].
      destruct (query_rows _ _ _ _ _ _ _ Hq Hrow) as [p ->].
      apply keep_neighbors_length_le in Hkeep.
      rewrite query_point_length in Hkeep. simpl in Hkeep. exact Hkeep.
  - constructor.
Qed.

Lemma find_nearest_neighbors_at_most_k_records_witness :
  exists t,
    table_of Example.matched_AB "A" "B" = Some t
    /\ Forall (fun item => match snd item with
                           | Some l => (length l <= Pos.to_nat 2)%nat
                           | None => True
                           end) t.
Proof.
  apply (find_nearest_neighbors_at_most_k_records
           "A" "B" 2 DInf Example.registered_AB Example.matched_AB).
  vm_compute. reflexivity.
Defined.

(** X10: without a distance cutoff no target node is lonely: after a normal
    return of [find_nearest_neighbors] with [distance_max = inf] every
    entry of the stored table is a non-empty list. *)
Theorem find_nearest_neighbors_no_cutoff_no_lonely
        (grid_name_1 grid_name_2 : string) (k : positive) (st st' : State) :
  find_nearest_neighbors grid_name_1 grid_name_2 k DInf st = (st', Return true) ->
  exists t,
    table_of st' grid_name_1 grid_name_2 = Some t
    /\ Forall (fun item => falsy item = false) t.
Proof.
  intros Hrun.
  destruct (find_nearest_neighbors_stored _ _ _ _ _ _ Hrun)
    as (e1 & e2 & g1 & g2 & s1 & s2 & t & c
        & H1 & H2 & Hg1 & Hg2 & Hne & Hbuild & _ & Htable).
  exists t. split; [exact Htable|]. clear Htable.
  unfold build_transform in Hbuild.
  apply (build_loop_entries
           (fun v => match v with Some (_ :: _) => True | _ => False end))
    in Hbuild; simpl in *.
  - eapply Forall_impl; [exact Hbuild|]. intros [node v] Hv. unfold falsy.
    simpl in *. destruct v as [[|r rs]|]; [contradiction | reflexivity | contradiction].
  - intros i v Hv. unfold stored_at in Hv.
    destruct (query _ _ _ _) as [cells|rows] eqn:Hq.
    + destruct Hv as (cell & node & _ & _ & ->). exact I.
    + destruct Hv as (row & kept & Hrow & Hkeep & ->).
      destruct (query_rows _ _ _ _ _ _ _ Hq Hrow) as [p ->].
      apply keep_neighbors_no_cutoff_length in Hkeep.
      rewrite query_point_length in Hkeep. simpl in Hkeep.
      destruct kept as [|r rs]; [simpl in Hkeep; lia | exact I].
  - constructor.
Qed.

Lemma find_nearest_neighbors_no_cutoff_no_lonely_witness :
  exists t,
    table_of Example.matched_AB "A" "B" = Some t
    /\ Forall (fun item => falsy item = false) t.
Proof.
  apply (find_nearest_neighbors_no_cutoff_no_lonely
           "A" "B" 2 Example.registered_AB Example.matched_AB).
  vm_compute. reflexivity.
Defined.

(** ** Transfer: preconditions *)

(** X11: between two registered grids, with the field present on the
    source, [transition] before the table for the pair has been built
    raises the missing-transformation key error and changes nothing, not
    even the log. *)
Theorem transition_requires_table
        (src_grid_name value_name target_grid_name : string) (st : State)
        (src_grid target_grid : entry) (g : Grid) :
  grids st !! src_grid_name = Some src_grid ->
  grids st !! target_grid_name = Some target_grid ->
  heap st !! grid src_grid = Some g ->
  get_node_values g value_name <> [] ->
  dict_get (transform target_grid) src_grid_name = None ->
  transition src_grid_name value_name target_grid_name st
  = (st, Raise (KeyError_no_transformation src_grid_name target_grid_name)).
Proof.
  intros Hsrc Htarget Hg Hvalues Htable. unfold transition. run.
  rewrite Hsrc. simpl. rewrite Htarget. simpl. rewrite Hg. simpl.
  destruct (get_node_values g value_name) as [|sv0 svs]; [contradiction|].
  rewrite Htable. reflexivity.
Qed.

Lemma transition_requires_table_witness :
  transition "A" "v" "B" Example.registered_AB
  = (Example.registered_AB, Raise (KeyError_no_transformation "A" "B")).
Proof.
  apply (transition_requires_table
           "A" "v" "B" Example.registered_AB (mkEntry [] 0%nat) (mkEntry [] 1%nat)
           Example.grid_A); try reflexivity.
  discriminate.
Defined.

(** X12: when the source or the target name is not registered,
    [transition] raises the unknown-grid key error for the first such name
    and changes nothing. *)
Theorem transition_unknown_grid
        (src_grid_name value_name target_grid_name : string) (st : State) :
  grids st !! src_grid_name = None \/ grids st !! target_grid_name = None ->
  exists name,
    transition src_grid_name value_name target_grid_name st
    = (st, Raise (KeyError_grid_unknown name))
    /\ grids st !! name = None
    /\ (name = src_grid_name
        \/ (name = target_grid_name /\ is_Some (grids st !! src_grid_name))).
Proof.
  intros Hmissing. unfold transition. run.
  destruct (grids st !! src_grid_name) as [e1|] eqn:H1; simpl.
  - destruct Hmissing as [H|H2]; [discriminate|]. rewrite H2. simpl.
    exists target_grid_name. split; [reflexivity|]. split; [exact H2|].
    right. split; [reflexivity | eauto].
  - exists src_grid_name. auto.
Qed.

Lemma transition_unknown_grid_witness :
  exists name,
    transition "Z" "v" "B" Example.matched_AB
    = (Example.matched_AB, Raise (KeyError_grid_unknown name))
    /\ grids Example.matched_AB !! name = None
    /\ (name = "Z" \/ (name = "B" /\ is_Some (grids Example.matched_AB !! "Z"))).
Proof.
  apply (transition_unknown_grid "Z" "v" "B" Example.matched_AB).
  left. reflexivity.
Defined.

(** X13: when no node of the source grid holds the field, [transition]
    raises the value-name key error, whether or not a table has been built
    for the pair, and changes nothing. *)
Theorem transition_unknown_field
        (src_grid_name value_name target_grid_name : string) (st : State)
        (src_grid target_grid : entry) (g : Grid) :
  grids st !! src_grid_name = Some src_grid ->
  grids st !! target_grid_name = Some target_grid ->
  heap st !! grid src_grid = Some g ->
  Forall (fun item => values (snd item) !! value_name = None) (nodes g) ->
  transition src_grid_name value_name target_grid_name st
  = (st, Raise (KeyError_value_name value_name)).
Proof.
  intros Hsrc Htarget Hg Hnone. unfold transition. run.
  rewrite Hsrc. simpl. rewrite Htarget. simpl. rewrite Hg. simpl.
  assert (Hempty : get_node_values g value_name = []).
  { unfold get_node_values. induction Hnone as [|[i n] ns Hn _ IH]; simpl.
    - reflexivity.
    - simpl in Hn. rewrite Hn. exact IH. }
  rewrite Hempty. reflexivity.
Qed.

Lemma transition_unknown_field_witness :
  transition "A" "w" "B" Example.matched_AB
  = (Example.matched_AB, Raise (KeyError_value_name "w")).
Proof.
  apply (transition_unknown_field
           "A" "w" "B" Example.matched_AB (mkEntry [] 0%nat)
           (mkEntry [("A", [(0, Some [mkNeighbor 2 (DFin 0); mkNeighbor 0 (DFin 1)]);
                            (1, Some [mkNeighbor 0 (DFin (1 # 2));
                                      mkNeighbor 1 (DFin (1 # 2))])])] 1%nat)
           Example.grid_A); try reflexivity.
  repeat constructor.
Defined.

(** ** Statistics: when they are reported *)

Lemma report_table_result (item : string * table) (st : State) :
  exists st',
    report_table item st
    = (st', match fst (tally (snd item)) with
            | [] => Raise ValueError_empty_reduction
            | _ :: _ => Return tt
            end)
    /\ same_store st' st.
Proof.
  unfold report_table. destruct (tally (snd item)) as [distances count].
  simpl. destruct distances as [|d ds]; run;
    (eexists; split; [reflexivity | split; reflexivity]).
Qed.

Lemma for_each_report_table_result (tables : list (string * table)) :
  forall st,
  exists st',
    for_each tables report_table st
    = (st', if forallb (fun item => match fst (tally (snd item)) with
                                    | [] => false
                                    | _ :: _ => true
                                    end) tables
            then Return tt else Raise ValueError_empty_reduction)
    /\ same_store st' st.
Proof.
  induction tables as [|item tables IH]; intros st; simpl.
  - run. eexists. split; [reflexivity | split; reflexivity].
  - unfold bind.
    destruct (report_table_result item st) as (s1 & -> & Hh1 & Hg1).
    destruct (fst (tally (snd item))) as [|d ds]; simpl.
    + exists s1. split; [reflexivity | split; assumption].
    + destruct (IH s1) as (s2 & -> & Hh2 & Hg2).
      exists s2. split; [reflexivity | split; congruence].
Qed.

(** X14: for a registered grid, [nearest_neighbors_stat] returns [True]
    exactly when every table stored for the grid has at least one strictly
    positive distance; a table without any (all nodes lonely, or exact
    matches only, or no entry at all) makes it raise the error of taking
    the minimum of an empty array.  Either way nothing but the log
    changes. *)
Theorem nearest_neighbors_stat_result (grid_name : string) (st : State)
        (e : entry) (g : Grid) :
  grids st !! grid_name = Some e ->
  heap st !! grid e = Some g ->
  exists st',
    nearest_neighbors_stat grid_name st
    = (st', if forallb (fun item => match fst (tally (snd item)) with
                                    | [] => false
                                    | _ :: _ => true
                                    end) (transform e)
            then Return true else Raise ValueError_empty_reduction)
    /\ heap st' = heap st /\ grids st' = grids st.
Proof.
  intros He Hg. unfold nearest_neighbors_stat. run. rewrite He. simpl.
  rewrite Hg. simpl.
  match goal with |- context [for_each _ _ ?s] =>
    destruct (for_each_report_table_result (transform e) s)
      as (s1 & -> & Hh & Hr) end.
  simpl in Hh, Hr.
  destruct (forallb _ (transform e)); eexists; (split; [reflexivity|]);
    simpl; split; assumption.
Qed.

Lemma nearest_neighbors_stat_result_witness :
  exists st',
    nearest_neighbors_stat "D"
      (fst (find_nearest_neighbors "C" "D" 2 (DFin 1) Example.registered_CD))
    = (st', if forallb (fun item => match fst (tally (snd item)) with
                                    | [] => false
                                    | _ :: _ => true
                                    end)
                       (transform (mkEntry [("C", [(5, None)])] 1%nat))
            then Return true else Raise ValueError_empty_reduction)
    /\ heap st'
       = heap (fst (find_nearest_neighbors "C" "D" 2 (DFin 1)
                                           Example.registered_CD))
    /\ grids st'
       = grids (fst (find_nearest_neighbors "C" "D" 2 (DFin 1)
                                            Example.registered_CD)).
Proof.
  apply (nearest_neighbors_stat_result
           "D" (fst (find_nearest_neighbors "C" "D" 2 (DFin 1)
                                            Example.registered_CD))
           (mkEntry [("C", [(5, None)])] 1%nat) Example.grid_D).
  - vm_compute. reflexivity.
  - vm_compute. reflexivity.
Defined.

(** [nearest_neighbors_stat] on a name that is not registered raises
    the unknown-grid key error and changes nothing, not even the log. *)
Theorem nearest_neighbors_stat_unknown_grid (grid_name : string) (st : State) :
  grids st !! grid_name = None ->
  nearest_neighbors_stat grid_name st
  = (st, Raise (KeyError_grid_unknown grid_name)).
Proof.
  intros Hn. unfold nearest_neighbors_stat. run. rewrite Hn. reflexivity.
Qed.

Lemma nearest_neighbors_stat_unknown_grid_witness :
  nearest_neighbors_stat "Z" Example.matched_AB
  = (Example.matched_AB, Raise (KeyError_grid_unknown "Z")).
Proof.
  apply (nearest_neighbors_stat_unknown_grid "Z" Example.matched_AB).
  reflexivity.
Defined.

(** ** Transfer: repetition and composition *)

(** What a normal return of [transition] went through. *)
Lemma transition_return_inv
      (src_grid_name value_name target_grid_name : string) (st st' : State)
      (b : bool) :
  transition src_grid_name value_name target_grid_name st = (st', Return b) ->
  b = true
  /\ exists src_grid target_grid g t s1,
      grids st !! src_grid_name = Some src_grid
      /\ grids st !! target_grid_name = Some target_grid
      /\ heap st !! grid src_grid = Some g
      /\ get_node_values g value_name <> []
      /\ dict_get (transform target_grid) src_grid_name = Some t
      /\ for_each t (transfer_node (get_node_values g value_name)
                                   (grid target_grid) value_name) st
         = (s1, Return tt)
      /\ check_value_set_completeness (grid target_grid) value_name s1
         = (s1, Return tt)
      /\ heap st' = heap s1 /\ grids st' = grids s1.
Proof.
  unfold transition. run.
  destruct (grids st !! src_grid_name) as [src_grid|] eqn:Hsrc; simpl;
    [|discriminate].
  destruct (grids st !! target_grid_name) as [target_grid|] eqn:Htarget; simpl;
    [|discriminate].
  destruct (heap st !! grid src_grid) as [g|] eqn:Hg; simpl; [|discriminate].
  destruct (get_node_values g value_name) as [|sv0 svs] eqn:Hsv; [discriminate|].
  destruct (dict_get (transform target_grid) src_grid_name) as [t|] eqn:Ht;
    [|discriminate].
  destruct (for_each t (transfer_node (sv0 :: svs) (grid target_grid) value_name) st)
    as [s1 [[]|e]] eqn:Hloop; [|discriminate].
  unfold check_value_set_completeness. run.
  destruct (heap s1 !! grid target_grid) as [g'|] eqn:Hg'; simpl; [|discriminate].
  destruct (unset_nodes g' value_name) as [|m ms] eqn:Hunset; [|discriminate].
  intros H. inversion H; subst. split; [reflexivity|].
  exists src_grid, target_grid, g, t, s1. rewrite Hsv.
  split; [first [reflexivity | assumption]|].
  split; [first [reflexivity | assumption]|].
  split; [first [reflexivity | assumption]|].
  split; [discriminate|]. split; [first [reflexivity | assumption]|].
  split; [exact Hloop|].
  split; [rewrite Hg'; simpl; rewrite Hunset; reflexivity|].
  simpl. split; reflexivity.
Qed.

(** X15: [transformation_validation] returns [True] only if the tables for
    both directions, source to target and target to source, had been built
    before the call. *)
Theorem transformation_validation_needs_both_tables
        (report_and_plot : loc -> loc -> list value -> list value -> M unit)
        (src_grid_name value_name target_grid_name : string) (st st' : State) :
  transformation_validation report_and_plot (PyStr src_grid_name)
                            (PyStr value_name) (PyStr target_grid_name) st
  = (st', Return true) ->
  is_Some (table_of st src_grid_name target_grid_name)
  /\ is_Some (table_of st target_grid_name src_grid_name).
Proof.
  unfold transformation_validation, expect_str, try_except, round_trip.
  unfold lookup_grid, deref, get_state, or_raise, log_at, bind, ret, raise.
  destruct (grids st !! src_grid_name) as [src_entry|] eqn:Hsrc; simpl;
    [|discriminate].
  destruct (heap st !! grid src_entry) as [g|] eqn:Hg; simpl; [|discriminate].
  destruct (grids st !! target_grid_name) as [target_entry|] eqn:Htarget; simpl;
    [|discriminate].
  destruct (transition src_grid_name value_name target_grid_name st)
    as [s1 [b1|e1]] eqn:Hfirst; [|discriminate].
  destruct (transition target_grid_name value_name src_grid_name s1)
    as [s2 [b2|e2]] eqn:Hsecond; [|discriminate].
  intros _.
  destruct (transition_return_inv _ _ _ _ _ _ Hfirst)
    as (_ & es & et & g1 & t1 & l1 & Hes & Het & _ & _ & Ht1 & _).
  destruct (transition_return_inv _ _ _ _ _ _ Hsecond)
    as (_ & es' & et' & g2 & t2 & l2 & Hes' & Het' & _ & _ & Ht2 & _).
  pose proof (transition_frame src_grid_name value_name target_grid_name st
                               et t1 Het Ht1) as (Hgrids & _).
  rewrite Hfirst in Hgrids. simpl in Hgrids.
  split; unfold table_of.
  - rewrite Het. simpl. rewrite Ht1. eauto.
  - rewrite <- Hgrids, Het'. simpl. rewrite Ht2. eauto.
Qed.

Lemma transformation_validation_needs_both_tables_witness :
  is_Some (table_of Scenario.both_ways "A" "B")
  /\ is_Some (table_of Scenario.both_ways "B" "A").
Proof.
  apply (transformation_validation_needs_both_tables
           (fun _ _ _ _ => ret tt) "A" "v" "B" Scenario.both_ways
           (fst (transformation_validation
                   (fun _ _ _ _ => ret tt) (PyStr "A") (PyStr "v") (PyStr "B")
                   Scenario.both_ways))).
  vm_compute. reflexivity.
Defined.

Lemma dict_set_same {K V : Type} `{EqDecision K} (d : dict K V) (k : K) (v : V) :
  dict_get d k = Some v -> dict_set d k v = d.
Proof.
  induction d as [|[k' v'] d IH]; simpl; [discriminate|].
  destruct (decide (k' = k)) as [->|Hne]; intros H.
  - congruence.
  - rewrite (IH H). reflexivity.
Qed.

(** Assigning to a node the value it already holds changes nothing. *)
Lemma set_node_value_same (l : loc) (node : node_id) (value_name : string)
      (x : value) (st : State) :
  value_at st l node value_name = Some x ->
  set_node_value l node value_name x st = (st, Return tt).
Proof.
  unfold value_at. intros Hval.
  destruct (heap st !! l) as [g|] eqn:Hl; simpl in Hval; [|discriminate].
  destruct (dict_get (nodes g) node) as [n|] eqn:Hn; simpl in Hval; [|discriminate].
  rewrite (set_node_value_spec _ _ _ _ _ _ _ Hl Hn). f_equal.
  assert (Hnode : set_value n value_name x = n).
  { destruct n as [c vs]. unfold set_value. simpl in *. f_equal.
    apply insert_id, Hval. }
  rewrite Hnode, (dict_set_same _ _ _ Hn).
  destruct g as [ns]. simpl. rewrite (insert_id _ _ _ Hl).
  destruct st. reflexivity.
Qed.

(** The loop of [transition] on a state in which every key of the table
    already holds the value computed for it changes nothing. *)
Lemma for_each_transfer_fixed (src_values : dict node_id value) (target : loc)
      (value_name : string) (t : table) (st : State) :
  (forall item, In item t ->
     exists x, node_result src_values item = Return x
               /\ value_at st target (fst item) value_name = Some x) ->
  for_each t (transfer_node src_values target value_name) st = (st, Return tt).
Proof.
  induction t as [|item t IH]; intros Hheld; simpl; [reflexivity|].
  unfold bind. rewrite transfer_node_as_result. unfold bind, of_outcome.
  destruct (Hheld item (or_introl eq_refl)) as (x & -> & Hval).
  rewrite (set_node_value_same _ _ _ _ _ Hval).
  apply IH. intros item' Hin. apply Hheld. right. exact Hin.
Qed.

Lemma check_value_set_completeness_inv (l : loc) (value_name : string)
      (s s' : State) :
  check_value_set_completeness l value_name s = (s', Return tt) ->
  exists g, heap s !! l = Some g /\ unset_nodes g value_name = [].
Proof.
  unfold check_value_set_completeness. run.
  destruct (heap s !! l) as [g|]; simpl; [|discriminate].
  destruct (unset_nodes g value_name) eqn:Hu; [|discriminate].
  intros _. eauto.
Qed.

(** X16: repeating a transfer changes nothing.  When the source and the
    target name are bound to different objects and the keys of the table
    are distinct, a second [transition] right after a successful one
    succeeds too and leaves every grid object and the registry exactly as
    the first one left them. *)
Theorem transition_twice
        (src_grid_name value_name target_grid_name : string) (st st1 : State)
        (src_grid target_grid : entry) (t : table) :
  grids st !! src_grid_name = Some src_grid ->
  grids st !! target_grid_name = Some target_grid ->
  grid src_grid <> grid target_grid ->
  dict_get (transform target_grid) src_grid_name = Some t ->
  List.NoDup (dict_keys t) ->
  transition src_grid_name value_name target_grid_name st = (st1, Return true) ->
  exists st2,
    transition src_grid_name value_name target_grid_name st1 = (st2, Return true)
    /\ heap st2 = heap st1
    /\ grids st2 = grids st1.
Proof.
  intros Hsrc Htarget Hdistinct Ht Hnd Hrun.
  destruct (transition_return_inv _ _ _ _ _ _ Hrun)
    as (_ & es & et & g & t' & s1 & Hes & Het & Hg & Hvalues & Ht' & Hloop
        & Hcheck & Hheap & Hgrids).
  assert (es = src_grid) by congruence. subst es.
  assert (et = target_grid) by congruence. subst et.
  assert (t' = t) by congruence. subst t'.
  pose proof (transition_frame src_grid_name value_name target_grid_name st
                               target_grid t Htarget Ht) as (Hg1 & Hother & _).
  rewrite Hrun in Hg1, Hother. simpl in Hg1, Hother.
  assert (Hheld : forall item, In item t ->
             exists x, node_result (get_node_values g value_name) item = Return x
                       /\ value_at st1 (grid target_grid) (fst item) value_name
                          = Some x).
  { intros item Hin.
    eapply (transition_assigns src_grid_name value_name target_grid_name st st1);
      eassumption. }
  destruct (check_value_set_completeness_inv _ _ _ _ Hcheck)
    as (g' & Hg' & Hunset).
  rewrite <- Hheap in Hg'. clear Hcheck Hloop Hrun.
  unfold transition. run. rewrite Hg1, Hsrc. simpl. rewrite Hg1, Htarget. simpl.
  rewrite (Hother (grid src_grid) Hdistinct), Hg. simpl.
  destruct (get_node_values g value_name) as [|sv0 svs] eqn:Hsv; [contradiction|].
  rewrite Ht.
  rewrite (for_each_transfer_fixed _ _ _ _ _ Hheld).
  unfold check_value_set_completeness. run. rewrite Hg'. simpl. rewrite Hunset.
  eexists. split; [reflexivity|]. simpl. split; [reflexivity | exact Hg1].
Qed.

Lemma transition_twice_witness :
  exists st2,
    transition "A" "v" "B" (fst (transition "A" "v" "B" Example.matched_AB))
    = (st2, Return true)
    /\ heap st2 = heap (fst (transition "A" "v" "B" Example.matched_AB))
    /\ grids st2 = grids (fst (transition "A" "v" "B" Example.matched_AB)).
Proof.
  apply (transition_twice
           "A" "v" "B" Example.matched_AB
           (fst (transition "A" "v" "B" Example.matched_AB))
           (mkEntry [] 0%nat)
           (mkEntry [("A", [(0, Some [mkNeighbor 2 (DFin 0); mkNeighbor 0 (DFin 1)]);
                            (1, Some [mkNeighbor 0 (DFin (1 # 2));
                                      mkNeighbor 1 (DFin (1 # 2))])])] 1%nat)
           [(0, Some [mkNeighbor 2 (DFin 0); mkNeighbor 0 (DFin 1)]);
            (1, Some [mkNeighbor 0 (DFin (1 # 2)); mkNeighbor 1 (DFin (1 # 2))])]).
  - vm_compute. reflexivity.
  - vm_compute. reflexivity.
  - simpl. lia.
  - reflexivity.
  - simpl. repeat constructor; simpl; intuition discriminate.
  - vm_compute. reflexivity.
Defined.



(** ** Interpolation: missing values *)

(** The loop over records at strictly positive distance whose source nodes
    carry a number or NaN: the weights are summed, and the weighted sum is
    NaN as soon as it was NaN before or one of the values is NaN. *)
Lemma scan_neighbors_nan (src_values : dict node_id value)
      (items : list neighbor) :
  Forall (fun r => positive_distance r = true
                   /\ exists y, dict_get src_values (node_number r) = Some y
                                /\ y <> VNone) items ->
  forall (sum_distance : Q) (factor result : value),
  exists sum_distance' factor',
    scan_neighbors src_values items sum_distance factor result
    = Return (sum_distance', factor', result)
    /\ (sum_distance' == sum_distance + weight_sum items)%Q
    /\ (factor = VNaN
        \/ Exists (fun r => dict_get src_values (node_number r) = Some VNaN) items ->
        factor' = VNaN).
Proof.
  induction 1 as [|r items (Hr & y & Hy & Hnone) _ IH];
    intros sum_distance factor result.
  - exists sum_distance, factor. simpl. split; [reflexivity|].
    split; [unfold weight_sum; simpl; ring|].
    intros [Hf|Hex]; [exact Hf | inversion Hex].
  - simpl. rewrite Hy, (positive_not_zero r Hr).
    assert (Hw : exists w, weighted y (neighbor_distance r) = Return w
                           /\ (y = VNaN -> w = VNaN)).
    { destruct y as [q| |]; simpl; [eexists; split; [reflexivity|discriminate]
                                   | eauto | congruence]. }
    destruct Hw as (w & -> & Hwnan).
    destruct (IH (sum_distance + dist_recip (neighbor_distance r))%Q
                 (vadd factor w) result) as (s' & f' & -> & Hs & Hf).
    exists s', f'. split; [reflexivity|]. split.
    + rewrite Hs. unfold weight_sum. simpl. unfold weight at 2.
      destruct (neighbor_distance r); simpl; ring.
    + intros Hnan. apply Hf.
      destruct Hnan as [->|Hex]; [left; reflexivity|].
      inversion Hex as [? ? Hhead|? ? Htail]; subst.
      * left. assert (y = VNaN) by congruence. rewrite (Hwnan H).
        destruct factor; reflexivity.
      * right. exact Htail.
Qed.

(** X20: a missing value spreads.  When the records of a target node are
    at strictly positive distances, one of them finite, and one of the
    source nodes carries NaN (the others a number or NaN), the value
    computed for the node is NaN. *)
Theorem interpolate_nan (src_values : dict node_id value)
        (items : list neighbor) :
  Forall (fun r => positive_distance r = true
                   /\ exists y, dict_get src_values (node_number r) = Some y
                                /\ y <> VNone) items ->
  Exists (fun r => dict_get src_values (node_number r) = Some VNaN) items ->
  Exists (fun r => dist_is_finite (neighbor_distance r) = true) items ->
  interpolate src_values items = Return VNaN.
Proof.
  intros Hitems Hnan Hfin. unfold interpolate.
  destruct (scan_neighbors_nan src_values items Hitems 0%Q (VNum 0) VNone)
    as (s' & f' & -> & Hs & Hf).
  rewrite (Hf (or_intror Hnan)).
  assert (Hpos : Forall (fun r => positive_distance r = true) items).
  { eapply Forall_impl; [exact Hitems|]. intros r [Hr _]. exact Hr. }
  pose proof (weight_sum_pos items Hpos Hfin) as HW.
  rewrite Qplus_0_l in Hs.
  assert (Hnz : Qeq_bool s' 0 = false).
  { destruct (Qeq_bool s' 0) eqn:E; [|reflexivity].
    apply Qeq_bool_iff in E. rewrite E in Hs. rewrite <- Hs in HW.
    exfalso. revert HW. apply Qlt_irrefl. }
  rewrite Hnz. reflexivity.
Qed.

Lemma interpolate_nan_witness :
  interpolate [(0, VNum 10); (1, VNaN)]
              [mkNeighbor 0 (DFin 1); mkNeighbor 1 (DFin 2)]
  = Return VNaN.
Proof.
  apply (interpolate_nan [(0, VNum 10); (1, VNaN)]
                         [mkNeighbor 0 (DFin 1); mkNeighbor 1 (DFin 2)]).
  - constructor; [|constructor; [|constructor]].
    + split; [reflexivity|]. exists (VNum 10). split; [reflexivity | discriminate].
    + split; [reflexivity|]. exists VNaN. split; [reflexivity | discriminate].
  - apply Exists_cons_tl, Exists_cons_hd. reflexivity.
  - apply Exists_cons_hd. reflexivity.
Defined.

(** ** Counting lonely nodes while the table is built *)

Lemma dict_set_fresh {K V : Type} `{EqDecision K} (d : dict K V) (k : K) (v : V) :
  ~ In k (dict_keys d) -> dict_set d k v = d ++ [(k, v)].
Proof.
  induction d as [|[k' v'] d IH]; simpl; intros Hfresh; [reflexivity|].
  destruct (decide (k' = k)) as [->|Hne]; [tauto|].
  f_equal. apply IH. tauto.
Qed.

Lemma build_loop_counts_none (grid_1_nodes grid_2_nodes : list node_id)
      (grid_name_2 : string) (distance_max : distance)
      (dist : ndarray (distance * Z)) (m : nat) :
  forall (a : nat) (t t' : table) (c c' : nat) (st st' : State),
    List.NoDup (dict_keys t ++ firstn m (skipn a grid_2_nodes)) ->
    build_loop grid_1_nodes grid_2_nodes grid_name_2 distance_max dist (seq a m)
               (t, c) st = (st', Return (t', c')) ->
    (c' + length (List.filter (fun item => bool_decide (snd item = None)) t)
     = c + length (List.filter (fun item => bool_decide (snd item = None)) t'))%nat.
Proof.
  induction m as [|m IH]; intros a t t' c c' st st' Hnd; cbn [seq build_loop].
  - run. intros H. inversion H; subst. lia.
  - unfold bind at 1.
    destruct (build_entry grid_1_nodes grid_2_nodes grid_name_2 distance_max dist
                          a (t, c) st) as [st1 [[t1 c1]|e]] eqn:Hstep;
      [|discriminate].
    intros Hrest.
    assert (Hkey : exists key v,
               nth_error grid_2_nodes a = Some key
               /\ t1 = dict_set t key v
               /\ (c1 = if bool_decide (v = None) then S c else c)).
    { revert Hstep. unfold build_entry. run.
      destruct (nth_error grid_2_nodes a) as [key|]; simpl; [|discriminate].
      destruct dist as [cells|rows].
      - destruct (nth_error cells a) as [cell|]; simpl; [|discriminate].
        destruct (py_index grid_1_nodes (snd cell - 1)); simpl; [|discriminate].
        destruct (exceeds (fst cell) distance_max); intros H; inversion H; subst;
          exists key; eexists; (split; [reflexivity|]); split; reflexivity.
      - destruct (nth_error rows a) as [row|]; simpl; [|discriminate].
        destruct (keep_neighbors grid_1_nodes distance_max row []) as [kept|];
          [|discriminate].
        destruct (length kept =? 0)%nat; intros H; inversion H; subst;
          exists key; eexists; (split; [reflexivity|]); split; reflexivity. }
    destruct Hkey as (key & v & Hkey & -> & ->).
    rewrite (skipn_nth_error _ _ _ Hkey) in Hnd. simpl firstn in Hnd.
    assert (Hfresh : ~ In key (dict_keys t)).
    { intros Hin. apply NoDup_remove_2 in Hnd. apply Hnd.
      apply in_or_app. left. exact Hin. }
    apply IH in Hrest.
    + rewrite (dict_set_fresh _ _ _ Hfresh), List.filter_app, length_app in Hrest.
      simpl in Hrest. destruct (bool_decide (v = None)); simpl in Hrest; lia.
    + rewrite (dict_keys_set_fresh _ _ _ Hfresh), <- app_assoc. exact Hnd.
Qed.

(** X21: the number of lonely nodes counted while the table is built (the
    number reported in the warning) is the number of entries of the built
    table that are [None], for target node identifiers without
    duplicates. *)
Theorem build_transform_counts_none_entries
        (grid_1_nodes grid_2_nodes : list node_id) (grid_name_2 : string)
        (distance_max : distance) (dist : ndarray (distance * Z))
        (st st' : State) (t : table) (count_lonely_nodes : nat) :
  List.NoDup grid_2_nodes ->
  build_transform grid_1_nodes grid_2_nodes grid_name_2 distance_max dist st
  = (st', Return (t, count_lonely_nodes)) ->
  count_lonely_nodes
  = length (List.filter (fun item => bool_decide (snd item = None)) t).
Proof.
  intros Hnd Hrun. unfold build_transform in Hrun.
  apply build_loop_counts_none in Hrun; simpl in *; [lia|].
  rewrite <- (firstn_skipn (np_len dist) grid_2_nodes) in Hnd.
  apply NoDup_app_remove_r in Hnd. exact Hnd.
Qed.

Lemma build_transform_counts_none_entries_witness :
  1%nat
  = length (List.filter (fun item => bool_decide (snd item = None))
                        [(0, Some [mkNeighbor 2 (DFin 0)]); (1, None)]).
Proof.
  apply (build_transform_counts_none_entries
           [0; 1; 2] [0; 1] "B" (DFin (1 # 4))
           (query (mkKDTree (get_coordinates_array Example.grid_A))
                  (get_coordinates_array Example.grid_B) 2 (DFin (1 # 4)))
           Example.registered_AB
           (fst (build_transform
                   [0; 1; 2] [0; 1] "B" (DFin (1 # 4))
                   (query (mkKDTree (get_coordinates_array Example.grid_A))
                          (get_coordinates_array Example.grid_B) 2 (DFin (1 # 4)))
                   Example.registered_AB))).
  - repeat constructor; simpl; intuition discriminate.
  - vm_compute. reflexivity.
Defined.

(** ** Rebuilding a table *)

(** X22: building the table of a pair again replaces the stored table in
    place: when the target already holds a table from that source, a
    normal return of [find_nearest_neighbors] leaves the source names of
    the target's tables, and their order, as they were. *)
Theorem find_nearest_neighbors_replaces_in_place
        (grid_name_1 grid_name_2 : string) (k : positive)
        (distance_max : distance) (st st' : State) (e2 : entry) (old : table) :
  grids st !! grid_name_2 = Some e2 ->
  dict_get (transform e2) grid_name_1 = Some old ->
  find_nearest_neighbors grid_name_1 grid_name_2 k distance_max st
  = (st', Return true) ->
  exists e2',
    grids st' !! grid_name_2 = Some e2'
    /\ dict_keys (transform e2') = dict_keys (transform e2).
Proof.
  intros H2 Hold Hrun. unfold find_nearest_neighbors in Hrun.
  destruct (find_nearest_neighbors_with_effect _ _ _ _ _ _ _ Hrun)
    as (_ & _ & e1 & e2' & g1 & g2 & s1 & s2 & t & c
        & _ & H2' & _ & _ & _ & _ & Hgrids).
  assert (e2' = e2) by congruence. subst e2'.
  eexists. split.
  - rewrite Hgrids, lookup_alter_eq, H2. reflexivity.
  - simpl. eapply dict_keys_set_present, Hold.
Qed.

Lemma find_nearest_neighbors_replaces_in_place_witness :
  exists e2',
    grids (fst (find_nearest_neighbors "A" "B" 1 (DFin 1) Example.matched_AB))
          !! "B" = Some e2'
    /\ dict_keys (transform e2')
       = dict_keys
           (transform
              (mkEntry [("A", [(0, Some [mkNeighbor 2 (DFin 0);
                                         mkNeighbor 0 (DFin 1)]);
                               (1, Some [mkNeighbor 0 (DFin (1 # 2));
                                         mkNeighbor 1 (DFin (1 # 2))])])] 1%nat)).
Proof.
  apply (find_nearest_neighbors_replaces_in_place
           "A" "B" 1 (DFin 1) Example.matched_AB
           (fst (find_nearest_neighbors "A" "B" 1 (DFin 1) Example.matched_AB))
           (mkEntry [("A", [(0, Some [mkNeighbor 2 (DFin 0); mkNeighbor 0 (DFin 1)]);
                            (1, Some [mkNeighbor 0 (DFin (1 # 2));
                                      mkNeighbor 1 (DFin (1 # 2))])])] 1%nat)
           [(0, Some [mkNeighbor 2 (DFin 0); mkNeighbor 0 (DFin 1)]);
            (1, Some [mkNeighbor 0 (DFin (1 # 2)); mkNeighbor 1 (DFin (1 # 2))])]).
  - vm_compute. reflexivity.
  - reflexivity.
  - vm_compute. reflexivity.
Defined.

(** ** Validation: the guards *)

(** X23: an argument of [transformation_validation] that is not a string
    makes it raise a type error naming one of the three parameters; the
    [try] block is not entered, nothing is logged and nothing changes. *)
Theorem transformation_validation_rejects_non_strings
        (report_and_plot : loc -> loc -> list value -> list value -> M unit)
        (src_grid_name value_name target_grid_name : pyobj) (st : State) :
  (forall s v t, (src_grid_name, value_name, target_grid_name)
                 <> (PyStr s, PyStr v, PyStr t)) ->
  exists parameter,
    transformation_validation report_and_plot src_grid_name value_name
                              target_grid_name st
    = (st, Raise (TypeError parameter))
    /\ In parameter ["src_grid_name"; "value_name"; "target_grid_name"].
Proof.
  intros Hbad. unfold transformation_validation, expect_str. run.
  destruct src_grid_name as [s| |];
    try (exists "src_grid_name"; split; [reflexivity | simpl; auto]).
  destruct value_name as [v| |];
    try (exists "value_name"; split; [reflexivity | simpl; auto]).
  destruct target_grid_name as [t| |];
    try (exists "target_grid_name"; split; [reflexivity | simpl; auto]).
  exfalso. apply (Hbad s v t). reflexivity.
Qed.

Lemma transformation_validation_rejects_non_strings_witness :
  exists parameter,
    transformation_validation (fun _ _ _ _ => ret tt) (PyStr "A") (PyInt 3)
                              (PyStr "B") Scenario.both_ways
    = (Scenario.both_ways, Raise (TypeError parameter))
    /\ In parameter ["src_grid_name"; "value_name"; "target_grid_name"].
Proof.
  apply (transformation_validation_rejects_non_strings
           (fun _ _ _ _ => ret tt) (PyStr "A") (PyInt 3) (PyStr "B")
           Scenario.both_ways).
  intros s v t. discriminate.
Defined.

(** ** Transfer: what can change, whatever the outcome *)

(** X24: whether [transition] returns or raises, the registry is as before
    and a grid object other than the target's is unchanged; when no table
    is stored for the pair, or the target name is unknown, no object
    changes at all; otherwise the target object changes at most in the
    values of the transferred field on the nodes that are keys of the
    table. *)
Theorem transition_changes_only_target_field
        (src_grid_name value_name target_grid_name : string) (st st' : State)
        (o : outcome bool) :
  transition src_grid_name value_name target_grid_name st = (st', o) ->
  grids st' = grids st
  /\ match grids st !! target_grid_name with
     | None => heap st' = heap st
     | Some target_grid =>
         match dict_get (transform target_grid) src_grid_name with
         | None => heap st' = heap st
         | Some t =>
             state_frame value_name (grid target_grid) (dict_keys t) st st'
         end
     end.
Proof.
  intros Hrun.
  destruct (grids st !! target_grid_name) as [target_grid|] eqn:Htarget.
  - destruct (dict_get (transform target_grid) src_grid_name) as [t|] eqn:Ht.
    + pose proof (transition_frame src_grid_name value_name target_grid_name st
                                   target_grid t Htarget Ht) as Hframe.
      rewrite Hrun in Hframe. simpl in Hframe.
      split; [apply Hframe | exact Hframe].
    + revert Hrun. unfold transition. run.
      destruct (grids st !! src_grid_name) as [src_grid|]; simpl;
        [|intros H; inversion H; subst; auto].
      rewrite Htarget. simpl.
      destruct (heap st !! grid src_grid) as [g|]; simpl;
        [|intros H; inversion H; subst; auto].
      destruct (get_node_values g value_name) as [|sv0 svs];
        [intros H; inversion H; subst; auto|].
      rewrite Ht. intros H. inversion H; subst. auto.
  - revert Hrun. unfold transition. run.
    destruct (grids st !! src_grid_name) as [src_grid|]; simpl;
      [|intros H; inversion H; subst; auto].
    rewrite Htarget. simpl. intros H. inversion H; subst. auto.
Qed.

Lemma transition_changes_only_target_field_witness :
  grids (fst (transition "A" "v" "B" Scenario.matched_AB_cutoff))
  = grids Scenario.matched_AB_cutoff
  /\ match grids Scenario.matched_AB_cutoff !! "B" with
     | None => heap (fst (transition "A" "v" "B" Scenario.matched_AB_cutoff))
               = heap Scenario.matched_AB_cutoff
     | Some target_grid =>
         match dict_get (transform target_grid) "A" with
         | None => heap (fst (transition "A" "v" "B" Scenario.matched_AB_cutoff))
                   = heap Scenario.matched_AB_cutoff
         | Some t =>
             state_frame "v" (grid target_grid) (dict_keys t)
                         Scenario.matched_AB_cutoff
                         (fst (transition "A" "v" "B" Scenario.matched_AB_cutoff))
         end
     end.
Proof.
  apply (transition_changes_only_target_field
           "A" "v" "B" Scenario.matched_AB_cutoff
           (fst (transition "A" "v" "B" Scenario.matched_AB_cutoff))
           (snd (transition "A" "v" "B" Scenario.matched_AB_cutoff))).
  vm_compute. reflexivity.
Defined.

(** ** Building a table: stored lists can be interpolated *)

Lemma query_cells (tree : KDTree) (x : list point) (k : positive)
      (bound : distance) (cells : list (distance * Z)) (i : nat)
      (cell : distance * Z) :
  query tree x k bound = Arr1 cells ->
  nth_error cells i = Some cell ->
  exists p, cell = hd (DInf, Z.of_nat (length (data tree)))
                      (query_point tree k bound p).
Proof.
  unfold query. destruct (k =? 1)%positive; [|discriminate].
  intros H Hcell. inversion H; subst cells.
  apply nth_error_In in Hcell. apply in_map_iff in Hcell as (p & <- & _). eauto.
Qed.

(** X25: after a normal return of [find_nearest_neighbors] every non-empty
    list of the stored table holds a record at a finite distance, so that
    the weights of its records do not all vanish. *)
Theorem find_nearest_neighbors_lists_have_finite_distance
        (grid_name_1 grid_name_2 : string) (k : positive)
        (distance_max : distance) (st st' : State) :
  find_nearest_neighbors grid_name_1 grid_name_2 k distance_max st
  = (st', Return true) ->
  exists t,
    table_of st' grid_name_1 grid_name_2 = Some t
    /\ Forall (fun item =>
                 match snd item with
                 | Some (r :: rs) =>
                     Exists (fun r => dist_is_finite (neighbor_distance r) = true)
                            (r :: rs)
                 | _ => True
                 end) t.
Proof.
  intros Hrun.
  destruct (find_nearest_neighbors_stored _ _ _ _ _ _ Hrun)
    as (e1 & e2 & g1 & g2 & s1 & s2 & t & c
        & H1 & H2 & Hg1 & Hg2 & Hne & Hbuild & _ & Htable).
  exists t. split; [exact Htable|]. clear Htable.
  unfold build_transform in Hbuild.
  apply (build_loop_entries
           (fun v => match v with
                     | Some (r :: rs) =>
                         Exists (fun r => dist_is_finite (neighbor_distance r) = true)
                                (r :: rs)
                     | _ => True
                     end)) in Hbuild; simpl in *.
  - exact Hbuild.
  - intros i v Hv. unfold stored_at in Hv.
    destruct (query _ _ _ _) as [cells|rows] eqn:Hq.
    + destruct Hv as (cell & node & Hcell & _ & ->).
      destruct (exceeds (fst cell) distance_max) eqn:Hex; [exact I|].
      apply Exists_cons_hd. simpl.
      destruct distance_max as [b|].
      * destruct (fst cell); [reflexivity | discriminate].
      * destruct (query_cells _ _ _ _ _ _ _ Hq Hcell) as [p ->].
        destruct (query_point_starts_finite
                    (mkKDTree (get_coordinates_array g1)) k p Hne)
          as (d & idx & rest & ->).
        reflexivity.
    + destruct Hv as (row & kept & Hrow & Hkeep & ->).
      destruct (length kept =? 0)%nat; [exact I|].
      destruct (query_rows _ _ _ _ _ _ _ Hq Hrow) as [p ->].
      destruct kept as [|r rs] eqn:Hk; [exact I|]. rewrite <- Hk in *.
      eapply (kept_neighbors_have_finite
                (dict_keys (nodes g1)) (mkKDTree (get_coordinates_array g1)));
        [exact Hne | exact Hkeep | congruence].
  - constructor.
Qed.

Lemma find_nearest_neighbors_lists_have_finite_distance_witness :
  exists t,
    table_of Scenario.matched_AB_cutoff "A" "B" = Some t
    /\ Forall (fun item =>
                 match snd item with
                 | Some (r :: rs) =>
                     Exists (fun r => dist_is_finite (neighbor_distance r) = true)
                            (r :: rs)
                 | _ => True
                 end) t.
Proof.
  apply (find_nearest_neighbors_lists_have_finite_distance
           "A" "B" 2 (DFin (1 # 4)) Example.registered_AB
           Scenario.matched_AB_cutoff).
  vm_compute. reflexivity.
Defined.

(** ** Building a table: when it succeeds, when it is refused *)

Lemma insert_by_dist_In (c x : Q * Z) (l : list (Q * Z)) :
  In c (insert_by_dist x l) -> c = x \/ In c l.
Proof.
  induction l as [|y l IH]; simpl.
  - intros [H|[]]; auto.
  - destruct (Qle_bool (fst y) (fst x)); simpl.
    + intros [H|H]; [auto | destruct (IH H); auto].
    + intros [H|[H|H]]; auto.
Qed.

Lemma sort_by_dist_In (c : Q * Z) (l : list (Q * Z)) :
  In c (sort_by_dist l) -> In c l.
Proof.
  unfold sort_by_dist. intros H. apply in_rev. revert H.
  induction (rev l) as [|x r IH]; simpl; [auto|].
  intros H. apply insert_by_dist_In in H as [->|H]; auto.
Qed.

Lemma In_firstn {A : Type} (n : nat) (l : list A) (x : A) :
  In x (firstn n l) -> In x l.
Proof.
  revert l. induction n as [|n IH]; intros [|y l]; simpl; try tauto.
  intros [H|H]; auto.
Qed.

Lemma nth_error_defined {A : Type} (l : list A) (n : nat) :
  (n < length l)%nat -> is_Some (nth_error l n).
Proof.
  intros H. destruct (nth_error l n) eqn:E; [eauto|].
  apply nth_error_None in E. lia.
Qed.

(** The row indices returned by a query are positions in the data of the
    tree, or the length of the data for a missing neighbour. *)
Lemma query_point_indices (tree : KDTree) (k : positive) (bound : distance)
      (x : point) (c : distance * Z) :
  In c (query_point tree k bound x) ->
  0 <= snd c <= Z.of_nat (length (data tree)).
Proof.
  unfold query_point. intros H. apply in_app_or in H as [H|H].
  - apply in_map_iff in H as ([q i0] & <- & H). simpl.
    apply In_firstn in H. apply List.filter_In in H as [H _].
    apply sort_by_dist_In in H. apply in_combine_r in H.
    apply in_map_iff in H as (i & <- & Hi). apply in_seq in Hi. lia.
  - apply repeat_spec in H. subst c. simpl. lia.
Qed.

Lemma py_index_defined {A : Type} (l : list A) (i : Z) :
  l <> [] -> -1 <= i < Z.of_nat (length l) -> is_Some (py_index l i).
Proof.
  intros Hne Hi. unfold py_index.
  assert (Hlen : (0 < length l)%nat) by (destruct l; [contradiction | simpl; lia]).
  destruct (0 <=? i) eqn:E.
  - apply Z.leb_le in E. apply nth_error_defined. lia.
  - apply Z.leb_gt in E.
    destruct (- Z.of_nat (length l) <=? i) eqn:E2.
    + apply nth_error_defined. lia.
    + apply Z.leb_gt in E2. lia.
Qed.

Lemma keep_neighbors_succeeds (grid_1_nodes : list node_id)
      (distance_max : distance) (row : list (distance * Z)) :
  Forall (fun c => is_Some (py_index grid_1_nodes (snd c - 1))) row ->
  forall kept, exists out,
    keep_neighbors grid_1_nodes distance_max row kept = Return out.
Proof.
  induction 1 as [|[d p] row [node Hp] _ IH]; intros kept; simpl in *.
  - eauto.
  - rewrite Hp. destruct (exceeds d distance_max); apply IH.
Qed.

(** On the result of a query against the source coordinates, no lookup of
    the build loop is out of range. *)
Lemma build_entry_succeeds (g1 g2 : Grid) (grid_name_2 : string)
      (k : positive) (distance_max : distance) (i : nat) (vars : table * nat)
      (st : State) :
  get_coordinates_array g1 <> [] ->
  (i < length (nodes g2))%nat ->
  exists st' vars',
    build_entry (dict_keys (nodes g1)) (dict_keys (nodes g2)) grid_name_2
                distance_max
                (query (mkKDTree (get_coordinates_array g1))
                       (get_coordinates_array g2) k distance_max) i vars st
    = (st', Return vars').
Proof.
  intros Hne Hi.
  assert (Hlen1 : length (dict_keys (nodes g1))
                  = length (data (mkKDTree (get_coordinates_array g1)))).
  { unfold dict_keys, get_coordinates_array. simpl. rewrite !length_map.
    reflexivity. }
  assert (Hne1 : dict_keys (nodes g1) <> []).
  { intros E. rewrite E in Hlen1. simpl in Hlen1.
    destruct (get_coordinates_array g1); [contradiction | discriminate]. }
  assert (Hidx : forall p c,
             In c (query_point (mkKDTree (get_coordinates_array g1)) k
                               distance_max p) ->
             is_Some (py_index (dict_keys (nodes g1)) (snd c - 1))).
  { intros p c Hc. apply query_point_indices in Hc.
    apply py_index_defined; [exact Hne1|]. rewrite Hlen1. lia. }
  assert (Hkey : is_Some (nth_error (dict_keys (nodes g2)) i)).
  { apply nth_error_defined. unfold dict_keys. rewrite length_map. exact Hi. }
  destruct Hkey as [key Hkey].
  assert (Hpt : is_Some (nth_error (get_coordinates_array g2) i)).
  { apply nth_error_defined. unfold get_coordinates_array. rewrite length_map.
    exact Hi. }
  destruct Hpt as [p Hp].
  unfold build_entry. destruct vars as [t c]. run. rewrite Hkey. simpl.
  unfold query. destruct (k =? 1)%positive eqn:Hk.
  - rewrite nth_error_map, Hp. simpl.
    assert (Hcell : is_Some (py_index (dict_keys (nodes g1))
                     (snd (hd (DInf, Z.of_nat (length (get_coordinates_array g1)))
                              (query_point (mkKDTree (get_coordinates_array g1))
                                           k distance_max p)) - 1))).
    { pose proof (query_point_length (mkKDTree (get_coordinates_array g1)) k
                                     distance_max p) as Hl.
      destruct (query_point (mkKDTree (get_coordinates_array g1)) k
                            distance_max p) as [|c0 rest] eqn:Hq.
      - simpl in Hl. lia.
      - simpl. apply (Hidx p). rewrite Hq. left. reflexivity. }
    destruct Hcell as [node ->]. simpl.
    destruct (exceeds _ distance_max); eauto.
  - rewrite nth_error_map, Hp. simpl.
    destruct (keep_neighbors_succeeds (dict_keys (nodes g1)) distance_max
                (query_point (mkKDTree (get_coordinates_array g1)) k
                             distance_max p)) with (kept := @nil neighbor)
      as [kept ->].
    { apply List.Forall_forall. intros c0 Hc0. eapply Hidx, Hc0. }
    destruct (length kept =? 0)%nat; eauto.
Qed.

Lemma build_loop_succeeds (g1 g2 : Grid) (grid_name_2 : string)
      (k : positive) (distance_max : distance) (m : nat) :
  get_coordinates_array g1 <> [] ->
  forall (a : nat) (vars : table * nat) (st : State),
    (a + m <= length (nodes g2))%nat ->
    exists st' vars',
      build_loop (dict_keys (nodes g1)) (dict_keys (nodes g2)) grid_name_2
                 distance_max
                 (query (mkKDTree (get_coordinates_array g1))
                        (get_coordinates_array g2) k distance_max)
                 (seq a m) vars st
      = (st', Return vars').
Proof.
  intros Hne. induction m as [|m IH]; intros a vars st Hbound;
    cbn [seq build_loop].
  - run. eauto.
  - unfold bind at 1.
    destruct (build_entry_succeeds g1 g2 grid_name_2 k distance_max a vars st Hne)
      as (st1 & vars1 & ->); [lia|].
    apply IH. lia.
Qed.

(** Two registered, non-empty grids whose bounding intervals intersect on
    the three axes make it through [find_nearest_neighbors]. *)
Lemma find_nearest_neighbors_with_succeeds (st : State)
      (grid_name_1 grid_name_2 : string) (k : positive) (distance_max : distance)
      (e1 e2 : entry) (g1 g2 : Grid) (lo1 hi1 lo2 hi2 : point) :
  grids st !! grid_name_1 = Some e1 ->
  grids st !! grid_name_2 = Some e2 ->
  heap st !! grid e1 = Some g1 ->
  heap st !! grid e2 = Some g2 ->
  amin (get_coordinates_array g1) = Some lo1 ->
  amax (get_coordinates_array g1) = Some hi1 ->
  amin (get_coordinates_array g2) = Some lo2 ->
  amax (get_coordinates_array g2) = Some hi2 ->
  (forall a, (axis_coordinate a lo1 <= axis_coordinate a hi2
              /\ axis_coordinate a lo2 <= axis_coordinate a hi1)%Q) ->
  exists st',
    find_nearest_neighbors_with false grid_name_1 grid_name_2 k
                                distance_max st
    = (st', Return true).
Proof.
  intros H1 H2 Hg1 Hg2 Hlo1 Hhi1 Hlo2 Hhi2 Hoverlap.
  destruct (find_nearest_neighbors_prefix false st grid_name_1 grid_name_2
              k distance_max e1 e2 g1 g2 lo1 hi1 lo2 hi2
              H1 H2 Hg1 Hg2 Hlo1 Hhi1 Hlo2 Hhi2) as (s0 & _ & _ & ->).
  assert (Hne : get_coordinates_array g1 <> []).
  { intros E. rewrite E in Hlo1. discriminate. }
  pose proof (Hoverlap AxisX) as Hx. pose proof (Hoverlap AxisY) as Hy.
  pose proof (Hoverlap AxisZ) as Hz. simpl in Hx, Hy, Hz.
  unfold bind at 1. rewrite (check_overlap_pass AxisX _ _ _ _ s0 Hx).
  unfold bind at 1. rewrite (check_overlap_pass AxisY _ _ _ _ s0 Hy).
  unfold bind at 1. rewrite (check_overlap_pass AxisZ _ _ _ _ s0 Hz).
  unfold bind at 1. unfold log_at at 1. unfold bind at 1.
  match goal with |- context [query_stage _ _ _ _ _ ?s] =>
    destruct (query_stage_result (mkKDTree (get_coordinates_array g1))
                (get_coordinates_array g2) k distance_max s)
      as (sq & -> & _) end.
  unfold bind at 1. unfold log_at at 1. unfold bind at 1.
  unfold build_transform. rewrite query_length.
  match goal with |- context [build_loop _ _ _ _ _ _ ?v ?s] =>
    destruct (build_loop_succeeds g1 g2 grid_name_2 k distance_max
                (length (get_coordinates_array g2)) Hne 0%nat v s)
      as (sb & [t c] & ->) end.
  { unfold get_coordinates_array. rewrite length_map. simpl. lia. }
  unfold store_table. run.
  destruct (0 <? c)%nat; simpl; eauto.
Qed.

(** X27: overlapping grids are never refused.  When
    [find_nearest_neighbors] raises the not-overlapping error for an axis,
    both grids are registered and non-empty and their bounding intervals
    along that axis do not intersect. *)
Theorem find_nearest_neighbors_rejects_only_disjoint
        (grid_name_1 grid_name_2 : string) (k : positive)
        (distance_max : distance) (st st' : State) (a : axis) :
  find_nearest_neighbors grid_name_1 grid_name_2 k distance_max st
  = (st', Raise (ValueError_not_overlapping a)) ->
  exists e1 e2 g1 g2 lo1 hi1 lo2 hi2,
    grids st !! grid_name_1 = Some e1
    /\ grids st !! grid_name_2 = Some e2
    /\ heap st !! grid e1 = Some g1
    /\ heap st !! grid e2 = Some g2
    /\ amin (get_coordinates_array g1) = Some lo1
    /\ amax (get_coordinates_array g1) = Some hi1
    /\ amin (get_coordinates_array g2) = Some lo2
    /\ amax (get_coordinates_array g2) = Some hi2
    /\ ~ (axis_coordinate a lo1 <= axis_coordinate a hi2
          /\ axis_coordinate a lo2 <= axis_coordinate a hi1)%Q.
Proof.
  unfold find_nearest_neighbors.
  destruct (grids st !! grid_name_1) as [e1|] eqn:H1.
  2: { unfold find_nearest_neighbors_with. run. rewrite H1. simpl. discriminate. }
  destruct (grids st !! grid_name_2) as [e2|] eqn:H2.
  2: { unfold find_nearest_neighbors_with. run. rewrite H1. simpl. rewrite H2.
       simpl. discriminate. }
  destruct (heap st !! grid e1) as [g1|] eqn:Hg1.
  2: { unfold find_nearest_neighbors_with. run. rewrite H1. simpl. rewrite H2.
       simpl. rewrite Hg1. simpl. discriminate. }
  destruct (heap st !! grid e2) as [g2|] eqn:Hg2.
  2: { unfold find_nearest_neighbors_with. run. rewrite H1. simpl. rewrite H2.
       simpl. rewrite Hg1. simpl. rewrite Hg2. simpl. discriminate. }
  destruct (amin (get_coordinates_array g1)) as [lo1|] eqn:Hlo1.
  2: { unfold find_nearest_neighbors_with. run. rewrite H1. simpl. rewrite H2.
       simpl. rewrite Hg1. simpl. rewrite Hg2. simpl. rewrite Hlo1. simpl.
       discriminate. }
  assert (exists hi1, amax (get_coordinates_array g1) = Some hi1) as [hi1 Hhi1].
  { destruct (get_coordinates_array g1); [discriminate | simpl; eauto]. }
  destruct (amin (get_coordinates_array g2)) as [lo2|] eqn:Hlo2.
  2: { unfold find_nearest_neighbors_with. run. rewrite H1. simpl. rewrite H2.
       simpl. rewrite Hg1. simpl. rewrite Hg2. simpl. rewrite Hlo1. simpl.
       rewrite Hhi1. simpl. rewrite Hlo2. simpl. discriminate. }
  assert (exists hi2, amax (get_coordinates_array g2) = Some hi2) as [hi2 Hhi2].
  { destruct (get_coordinates_array g2); [discriminate | simpl; eauto]. }
  intros Hrun. exists e1, e2, g1, g2, lo1, hi1, lo2, hi2.
  repeat (split; [first [reflexivity | assumption]|]).
  intros Ha.
  destruct (check_overlap_cases AxisX (px lo1) (px hi1) (px lo2) (px hi2)) as [Hx|Hx];
    [destruct (check_overlap_cases AxisY (py lo1) (py hi1) (py lo2) (py hi2))
       as [Hy|Hy];
     [destruct (check_overlap_cases AxisZ (pz lo1) (pz hi1) (pz lo2) (pz hi2))
        as [Hz|Hz]|]|].
  - destruct (find_nearest_neighbors_with_succeeds
                st grid_name_1 grid_name_2 k
                distance_max e1 e2 g1 g2 lo1 hi1 lo2 hi2
                H1 H2 Hg1 Hg2 Hlo1 Hhi1 Hlo2 Hhi2) as [s Hs].
    { intros [| |]; assumption. }
    change (single_shot_gate sys_maxsize) with false in Hrun.
    rewrite Hs in Hrun. discriminate.
  - destruct (find_nearest_neighbors_prefix (single_shot_gate sys_maxsize) st
                grid_name_1 grid_name_2 k distance_max e1 e2 g1 g2 _ _ _ _
                H1 H2 Hg1 Hg2 Hlo1 Hhi1 Hlo2 Hhi2) as (s0 & _ & _ & Hprefix).
    rewrite Hprefix in Hrun. unfold bind at 1 in Hrun.
    rewrite (check_overlap_pass AxisX _ _ _ _ s0 Hx) in Hrun.
    unfold bind at 1 in Hrun.
    rewrite (check_overlap_pass AxisY _ _ _ _ s0 Hy) in Hrun.
    unfold bind at 1 in Hrun.
    destruct (check_overlap_fail AxisZ _ _ _ _ s0 Hz) as (s' & Hfail & _).
    rewrite Hfail in Hrun. inversion Hrun; subst a. apply Hz, Ha.
  - destruct (find_nearest_neighbors_prefix (single_shot_gate sys_maxsize) st
                grid_name_1 grid_name_2 k distance_max e1 e2 g1 g2 _ _ _ _
                H1 H2 Hg1 Hg2 Hlo1 Hhi1 Hlo2 Hhi2) as (s0 & _ & _ & Hprefix).
    rewrite Hprefix in Hrun. unfold bind at 1 in Hrun.
    rewrite (check_overlap_pass AxisX _ _ _ _ s0 Hx) in Hrun.
    unfold bind at 1 in Hrun.
    destruct (check_overlap_fail AxisY _ _ _ _ s0 Hy) as (s' & Hfail & _).
    rewrite Hfail in Hrun. inversion Hrun; subst a. apply Hy, Ha.
  - destruct (find_nearest_neighbors_prefix (single_shot_gate sys_maxsize) st
                grid_name_1 grid_name_2 k distance_max e1 e2 g1 g2 _ _ _ _
                H1 H2 Hg1 Hg2 Hlo1 Hhi1 Hlo2 Hhi2) as (s0 & _ & _ & Hprefix).
    rewrite Hprefix in Hrun. unfold bind at 1 in Hrun.
    destruct (check_overlap_fail AxisX _ _ _ _ s0 Hx) as (s' & Hfail & _).
    rewrite Hfail in Hrun. inversion Hrun; subst a. apply Hx, Ha.
Qed.

Lemma find_nearest_neighbors_rejects_only_disjoint_witness :
  exists e1 e2 g1 g2 lo1 hi1 lo2 hi2,
    grids Example.registered_AF !! "A" = Some e1
    /\ grids Example.registered_AF !! "F" = Some e2
    /\ heap Example.registered_AF !! grid e1 = Some g1
    /\ heap Example.registered_AF !! grid e2 = Some g2
    /\ amin (get_coordinates_array g1) = Some lo1
    /\ amax (get_coordinates_array g1) = Some hi1
    /\ amin (get_coordinates_array g2) = Some lo2
    /\ amax (get_coordinates_array g2) = Some hi2
    /\ ~ (axis_coordinate AxisX lo1 <= axis_coordinate AxisX hi2
          /\ axis_coordinate AxisX lo2 <= axis_coordinate AxisX hi1)%Q.
Proof.
  apply (find_nearest_neighbors_rejects_only_disjoint
           "A" "F" 2 DInf Example.registered_AF
           (fst (find_nearest_neighbors "A" "F" 2 DInf Example.registered_AF))
           AxisX).
  vm_compute. reflexivity.
Defined.

(** ** Transfer: which errors leave the target untouched *)

Lemma scan_neighbors_raises (src_values : dict node_id value)
      (node_dict : list neighbor) :
  forall (sum_distance : Q) (factor result : value) (e : exn),
    scan_neighbors src_values node_dict sum_distance factor result = Raise e ->
    raised_while_writing e.
Proof.
  induction node_dict as [|item rest IH]; intros sum_distance factor result e;
    simpl; [discriminate|].
  destruct (dict_get src_values (node_number item)) as [v|];
    [|intros H; inversion H; exact I].
  destruct (dist_is_zero (neighbor_distance item)); [discriminate|].
  destruct v as [x| |]; simpl; try apply IH.
  intros H. inversion H. exact I.
Qed.

Lemma transfer_node_raises (src_values : dict node_id value) (target : loc)
      (value_name : string) (item : node_id * option (list neighbor))
      (st st' : State) (e : exn) :
  transfer_node src_values target value_name item st = (st', Raise e) ->
  raised_while_writing e.
Proof.
  assert (Hset : forall x, set_node_value target (fst item) value_name x st
                           = (st', Raise e) -> raised_while_writing e).
  { intros x. unfold set_node_value. run.
    destruct (heap st !! target) as [g|]; simpl;
      [|intros H; inversion H; exact I].
    destruct (dict_get (nodes g) (fst item)); simpl;
      [discriminate | intros H; inversion H; exact I]. }
  unfold transfer_node.
  destruct (snd item) as [[|r rs]|]; try apply Hset.
  unfold of_outcome, bind, interpolate.
  destruct (scan_neighbors src_values (r :: rs) 0%Q (VNum 0) VNone)
    as [[[s f] res]|e'] eqn:Hscan.
  - apply Hset.
  - intros H. inversion H; subst. eapply scan_neighbors_raises, Hscan.
Qed.

Lemma for_each_transfer_raises (src_values : dict node_id value) (target : loc)
      (value_name : string) (t : table) :
  forall (st st' : State) (e : exn),
    for_each t (transfer_node src_values target value_name) st = (st', Raise e) ->
    raised_while_writing e.
Proof.
  induction t as [|item t IH]; intros st st' e; simpl; [discriminate|].
  unfold bind.
  destruct (transfer_node src_values target value_name item st)
    as [s1 [[]|e1]] eqn:Hstep.
  - apply IH.
  - intros H. inversion H; subst. eapply transfer_node_raises, Hstep.
Qed.

(** X28: an error of [transition] about its arguments means that nothing
    was written.  When [transition] raises the unknown-grid, the value-name
    or the missing-transformation key error, the state is exactly as
    before the call; the errors raised once the loop has started are of
    other kinds. *)
Theorem transition_argument_error_changes_nothing
        (src_grid_name value_name target_grid_name : string) (st st' : State)
        (e : exn) :
  transition src_grid_name value_name target_grid_name st = (st', Raise e) ->
  ~ raised_while_writing e ->
  st' = st
  /\ (e = KeyError_grid_unknown src_grid_name
      \/ e = KeyError_grid_unknown target_grid_name
      \/ e = KeyError_value_name value_name
      \/ e = KeyError_no_transformation src_grid_name target_grid_name).
Proof.
  unfold transition. run.
  destruct (grids st !! src_grid_name) as [src_grid|]; simpl;
    [|intros H _; inversion H; auto].
  destruct (grids st !! target_grid_name) as [target_grid|]; simpl;
    [|intros H _; inversion H; auto].
  destruct (heap st !! grid src_grid) as [g|]; simpl;
    [|intros H Hn; inversion H; subst; exfalso; apply Hn; exact I].
  destruct (get_node_values g value_name) as [|sv0 svs];
    [intros H _; inversion H; auto 6|].
  destruct (dict_get (transform target_grid) src_grid_name) as [t|];
    [|intros H _; inversion H; auto 6].
  destruct (for_each t (transfer_node (sv0 :: svs) (grid target_grid) value_name) st)
    as [s1 [[]|e1]] eqn:Hloop.
  - unfold check_value_set_completeness. run.
    destruct (heap s1 !! grid target_grid) as [g'|]; simpl;
      [|intros H Hn; inversion H; subst; exfalso; apply Hn; exact I].
    destruct (unset_nodes g' value_name); [discriminate|].
    intros H Hn; inversion H; subst; exfalso; apply Hn; exact I.
  - intros H Hn. inversion H; subst. exfalso. apply Hn.
    eapply for_each_transfer_raises, Hloop.
Qed.

Lemma transition_argument_error_changes_nothing_witness :
  fst (transition "B" "v" "A" Example.matched_AB) = Example.matched_AB
  /\ (KeyError_value_name "v" = KeyError_grid_unknown "B"
      \/ KeyError_value_name "v" = KeyError_grid_unknown "A"
      \/ KeyError_value_name "v" = KeyError_value_name "v"
      \/ KeyError_value_name "v" = KeyError_no_transformation "B" "A").
Proof.
  apply (transition_argument_error_changes_nothing
           "B" "v" "A" Example.matched_AB
           (fst (transition "B" "v" "A" Example.matched_AB))
           (KeyError_value_name "v")).
  - vm_compute. reflexivity.
  - simpl. tauto.
Defined.

(** * The transfer on binary64 numbers *)

Module Binary64Facts.

Import PrimFloat Binary64.












End Binary64Facts.
